(** * TGbot-D1: the relay/session core of the Telegram two-way bot worker

    A shallow embedding of [src/worker-D1版本.js] (a Cloudflare Worker that
    relays private chats into forum topics of a staff group) and the
    properties of its gatekeeping pipeline, relay engine, edit
    reconciliation and callback protocol.

    Conventions of the embedding.
    - JavaScript strings are Rocq [string]s holding the UTF-8 bytes of the
      text.  Equality, concatenation, splitting on ASCII separators and the
      HTML escaping agree with the UTF-16 original on well-formed text.
    - Telegram identifiers (chat, user, message, thread, callback ids) are
      carried in their decimal [toString()] form, which is the form every
      use in the source converts them to or interpolates them in.
    - The D1 tables are finite maps; the Telegram transport is a script of
      replies consumed one per call, and every call is logged.
    - [async] functions are computations in the monad [M] of state and
      exceptions; [await] is bind, [try/catch] is [try_catch].
    - D1 itself does not fail.  The reply fan-out of [handleAdminReply] and
      the helper [updateTopicAndSendCard], which nothing calls, write no
      session state and are left out. *)

From stdpp Require Import gmap strings list fin_maps pretty.
From Stdlib Require Import ZArith Ascii.

Local Open Scope Z_scope.

(** ** JavaScript string built-ins used by the worker *)

Module Js.

(** [!s] for a string: the empty string is falsy. *)
Definition truthy (s : string) : bool :=
  match s with EmptyString => false | _ => true end.

(** [o || d] for an optional string. *)
Definition or_else (o : option string) (d : string) : string :=
  match o with
  | Some s => if truthy s then s else d
  | None => d
  end.

Definition byte (a : ascii) : N := N_of_ascii a.

Definition upper_ascii (a : ascii) : ascii :=
  let n := byte a in
  if ((97 <=? n) && (n <=? 122))%N then ascii_of_N (n - 32) else a.

Definition lower_ascii (a : ascii) : ascii :=
  let n := byte a in
  if ((65 <=? n) && (n <=? 90))%N then ascii_of_N (n + 32) else a.

Fixpoint map_string (f : ascii → ascii) (s : string) : string :=
  match s with
  | EmptyString => EmptyString
  | String a r => String (f a) (map_string f r)
  end.

(** [toUpperCase] / [toLowerCase]; the worker applies the first to its own
    ASCII configuration keys only, and compares the result of the second
    with the ASCII words [true] and [/cancel], which no non-ASCII letter
    lower-cases into. *)
Definition toUpperCase : string → string := map_string upper_ascii.
Definition toLowerCase : string → string := map_string lower_ascii.

(** White space and line terminators of ECMAScript, as UTF-8 sequences of
    one, two and three bytes. *)
Definition ws1 (a : ascii) : bool := Ascii.is_space a.

Definition ws2 (a b : ascii) : bool :=
  ((byte a =? 194) && (byte b =? 160))%N.

Definition ws3 (a b c : ascii) : bool :=
  let x := byte a in let y := byte b in let z := byte c in
  ((x =? 225) && (y =? 154) && (z =? 128)
   || (x =? 226) && (y =? 128)
      && ((128 <=? z) && (z <=? 138) || (z =? 168) || (z =? 169) || (z =? 175))
   || (x =? 226) && (y =? 129) && (z =? 159)
   || (x =? 227) && (y =? 128) && (z =? 128)
   || (x =? 239) && (y =? 187) && (z =? 191))%N.

(** Strips leading white space; with [flip] the string is read backwards
    (so multi-byte sequences arrive last byte first). *)
Fixpoint strip (flip : bool) (s : string) : string :=
  match s with
  | String a r =>
      if ws1 a then strip flip r
      else match r with
           | String b r2 =>
               if (if flip then ws2 b a else ws2 a b) then strip flip r2
               else match r2 with
                    | String c r3 =>
                        if (if flip then ws3 c b a else ws3 a b c)
                        then strip flip r3 else s
                    | EmptyString => s
                    end
           | EmptyString => s
           end
  | EmptyString => s
  end.

Definition trimStart (s : string) : string := strip false s.
Definition trimEnd (s : string) : string :=
  String.rev (strip true (String.rev s)).
Definition trim (s : string) : string := trimEnd (trimStart s).

Definition startsWith (s p : string) : bool := String.prefix p s.

Fixpoint drop (n : nat) (s : string) : string :=
  match n, s with
  | S k, String _ r => drop k r
  | _, _ => s
  end.

(** [s.replace(pat, rep)] with a string pattern: the first occurrence. *)
Fixpoint replace (pat rep s : string) : string :=
  if String.prefix pat s then rep +:+ drop (String.length pat) s
  else match s with
       | EmptyString => EmptyString
       | String a r => String a (replace pat rep r)
       end.

(** [s.split(sep)] for a non-empty separator.  [skip] counts the bytes of
    a separator that was just recognised and is still to be passed over;
    [cur] is the current segment, reversed. *)
Fixpoint split_go (sep : string) (skip : nat) (cur s : string) : list string :=
  match s with
  | EmptyString => [String.rev cur]
  | String a r =>
      match skip with
      | S k => split_go sep k cur r
      | O =>
          if String.prefix sep s
          then String.rev cur :: split_go sep (String.length sep - 1) EmptyString r
          else split_go sep 0 (String a cur) r
      end
  end.

Definition split (sep s : string) : list string :=
  split_go sep 0 EmptyString s.

(** [l.join(sep)]. *)
Definition join (sep : string) (l : list string) : string :=
  String.concat sep l.

(** [l.includes(x)] on an array of strings. *)
Definition includes (l : list string) (x : string) : bool :=
  bool_decide (x ∈ l).

(** [s.replace(/c/g, rep)] for a one-character pattern. *)
Fixpoint replaceAll (c : ascii) (rep s : string) : string :=
  match s with
  | EmptyString => EmptyString
  | String a r =>
      if Ascii.eqb a c then rep +:+ replaceAll c rep r
      else String a (replaceAll c rep r)
  end.

(** The numbers [parseInt] yields: integer-valued doubles and the two
    infinities ([NaN] is [None] below).  A finite number is given by its
    exact value. *)
Inductive number :=
  | Finite (z : Z)
  | PosInfinity
  | NegInfinity.

(** The double nearest to a natural number (ties to even); from
    2^1024 - 2^970 on that is [Infinity]. *)
Definition round (z : Z) : number :=
  if z <? 2 ^ 53 then Finite z
  else
    let e := Z.log2 z - 52 in
    let q := Z.shiftr z e in
    let r := z - Z.shiftl q e in
    let half := 2 ^ (e - 1) in
    let q := if (half <? r) || ((r =? half) && Z.odd q) then q + 1 else q in
    let v := Z.shiftl q e in
    if 2 ^ 1024 <=? v then PosInfinity else Finite v.

Definition negate (n : number) : number :=
  match n with
  | Finite z => Finite (- z)
  | PosInfinity => NegInfinity
  | NegInfinity => PosInfinity
  end.

(** [parseInt(s, 10)]: leading white space, an optional sign, then the
    longest run of decimal digits; [None] is NaN.  The digits are read as
    the integer they denote, which is then rounded to a double, as V8 does
    (the standard lets an implementation read the digits after the 20th as
    zeros). *)
Definition digit (a : ascii) : option Z :=
  let n := byte a in
  if ((48 <=? n) && (n <=? 57))%N then Some (Z.of_N n - 48) else None.

Fixpoint digits (acc : Z) (s : string) : Z :=
  match s with
  | String a r =>
      match digit a with
      | Some d => digits (10 * acc + d) r
      | None => acc
      end
  | EmptyString => acc
  end.

Definition unsigned_int (s : string) : option number :=
  match s with
  | String a _ =>
      match digit a with
      | Some _ => Some (round (digits 0 s))
      | None => None
      end
  | EmptyString => None
  end.

Definition parseInt (s : string) : option number :=
  match trimStart s with
  | String "-" r => negate <$> unsigned_int r
  | String "+" r => unsigned_int r
  | t => unsigned_int t
  end.

(** [n || d] for the result of [parseInt]: NaN and 0 (of either sign) are
    falsy, the infinities are not. *)
Definition number_or (n : option number) (d : Z) : number :=
  match n with
  | Some (Finite z) => if z =? 0 then Finite d else Finite z
  | Some n => n
  | None => Finite d
  end.

(** [count >= n] for an integer count. *)
Definition reaches (count : Z) (n : number) : bool :=
  match n with
  | Finite z => z <=? count
  | PosInfinity => false
  | NegInfinity => true
  end.

End Js.

(** ** Data model *)

(** The cached profile, stored as JSON in column [user_info_json].  Only the
    worker writes that column (with [JSON.stringify]) and reads it back
    (with [JSON.parse]), so the column is kept in decoded form. *)
Record UserInfo := {
name : string;
username : string;
first_message_timestamp : Z;
}.

(** A row of table [users]; the key [user_id] is the key of the map. *)
Record UserRow := {
user_state : string;
is_blocked : Z;
block_count : Z;
topic_id : option string;
user_info_json : option UserInfo;
}.

(** The object [dbUserGetOrCreate] hands to its callers: the row with
    [is_blocked] turned into a boolean and the profile parsed. *)
Module User.
Record t := mk {
  user_state : string;
  is_blocked : bool;
  block_count : Z;
  topic_id : option string;
  user_info : option UserInfo;
}.
End User.

(** A row of table [messages] (the ledger), keyed by user and message id. *)
Module MessageData.
Record t := mk { text : string; date : Z }.
End MessageData.

(** One assignment of the object literal passed to [dbUserUpdate]. *)
Inductive Field :=
| Set_user_state (v : string)
| Set_is_blocked (v : Z)
| Set_block_count (v : Z)
| Set_topic_id (v : option string)
| Set_user_info (v : UserInfo).

(** The admin's pending edit, stored as JSON under [admin_state:<id>]. *)
Module AdminState.
Record t := mk { action : string; key : string }.
End AdminState.

(** An auto-reply rule; [id] is a number in the source and is used through
    [toString()] and string interpolation only. *)
Module Rule.
Record t := mk { keywords : string; response : string; id : string }.
End Rule.

(** The sender of a message: [message.from]. *)
Module From.
Record t := mk {
  id : string;
  first_name : option string;
  last_name : option string;
  username : option string;
}.
End From.

(** An inbound Telegram message.  Payload fields that the worker only tests
    for presence are booleans; [forward_from_chat] keeps the [type] of the
    chat; the entity arrays keep the [type] of each entity. *)
Module Message.
Record t := mk {
  chat_id : string;
  message_id : string;
  message_thread_id : option string;
  date : Z;
  from : From.t;
  text : option string;
  caption : option string;
  forward_from : bool;
  forward_from_chat : option string;
  audio : bool;
  voice : bool;
  sticker : bool;
  animation : bool;
  photo : bool;
  video : bool;
  document : bool;
  entities : option (list string);
  caption_entities : option (list string);
}.
End Message.

Module CallbackQuery.
Record t := mk {
  id : string;
  data : string;
  message : Message.t;
  from_id : string;
}.
End CallbackQuery.

(** Inline keyboards. *)
Module Button.
Record t := mk { text : string; callback_data : string }.
End Button.

Definition Markup := list (list Button.t).

(** The Telegram methods the worker calls, with the parameters it passes. *)
Inductive ApiCall :=
| sendMessage (chat_id text : string) (message_thread_id : option string)
    (parse_mode : option string) (reply_markup : option Markup)
| editMessageText (chat_id message_id text : string)
    (parse_mode : option string) (reply_markup : Markup)
| editMessageReplyMarkup (chat_id message_id : string) (reply_markup : Markup)
| answerCallbackQuery (callback_query_id text : string) (show_alert : bool)
| deleteMessage (chat_id message_id : string)
| createForumTopic (chat_id name : string)
| copyMessage (chat_id from_chat_id message_id : string)
    (message_thread_id : option string)
| pinChatMessage (chat_id message_id : string)
    (message_thread_id : option string).

Definition methodName (c : ApiCall) : string :=
match c with
| sendMessage _ _ _ _ _ => "sendMessage"
| editMessageText _ _ _ _ _ => "editMessageText"
| editMessageReplyMarkup _ _ _ => "editMessageReplyMarkup"
| answerCallbackQuery _ _ _ => "answerCallbackQuery"
| deleteMessage _ _ => "deleteMessage"
| createForumTopic _ _ => "createForumTopic"
| copyMessage _ _ _ _ => "copyMessage"
| pinChatMessage _ _ _ => "pinChatMessage"
end.

(** What the transport answers to one call: [fetch] rejects, the body is not
    JSON, the body has [ok: false] (with [description], or the whole body
    printed when there is none), or the body has [ok: true]; of [result] the
    worker reads [message_thread_id] only. *)
Inductive Reply :=
| FetchError (message : string)
| NonJson
| NotOk (description : string)
| Result (message_thread_id : option string).

(** The worker's environment bindings (read-only). *)
Record Env := {
ADMIN_IDS : option string;
ADMIN_GROUP_ID : string;
vars : gmap string string;
}.

(** The state an event handler runs against: the three D1 tables, the
    replies the transport will give to the calls still to come, the calls
    made so far with their replies, and the identifiers [Date.now()] and
    [Math.random()] will produce for new rules. *)
Record World := {
config : gmap string string;
users : gmap string UserRow;
messages : gmap (string * string) MessageData.t;
net : list Reply;
calls : list (ApiCall * Reply);
clock : list string;
}.

Definition with_config (f : gmap string string → gmap string string) (w : World) : World :=
{| config := f (config w); users := users w; messages := messages w;
   net := net w; calls := calls w; clock := clock w |}.

Definition with_users (f : gmap string UserRow → gmap string UserRow) (w : World) : World :=
{| config := config w; users := f (users w); messages := messages w;
   net := net w; calls := calls w; clock := clock w |}.

Definition with_messages
  (f : gmap (string * string) MessageData.t → gmap (string * string) MessageData.t)
  (w : World) : World :=
{| config := config w; users := users w; messages := f (messages w);
   net := net w; calls := calls w; clock := clock w |}.

(** ** The monad of event handlers: state and exceptions *)

Inductive Res (A : Type) :=
| Ok (a : A)
| Throw (message : string).
Arguments Ok {A} a.
Arguments Throw {A} message.

Definition M (A : Type) : Type := World → Res A * World.

#[global] Instance M_ret : MRet M := λ A a w, (Ok a, w).

#[global] Instance M_bind : MBind M := λ A B f m w,
match m w with
| (Ok a, w') => f a w'
| (Throw e, w') => (Throw e, w')
end.

Definition throw {A} (e : string) : M A := λ w, (Throw e, w).

(** [try { m } catch (e) { h e }]. *)
Definition try_catch {A} (m : M A) (h : string → M A) : M A := λ w,
match m w with
| (Ok a, w') => (Ok a, w')
| (Throw e, w') => h e w'
end.

Definition get_world : M World := λ w, (Ok w, w).
Definition modify (f : World → World) : M unit := λ w, (Ok tt, f w).

(** A handler body that may [return] early from inside a block or a loop
    yields [true] when it has returned and [false] when control falls
    through to the next statement. *)
Definition returned : M bool := mret true.
Definition fallthrough : M bool := mret false.

(** [b; rest] where [b] may have returned. *)
Definition and_then (b : M bool) (rest : M unit) : M unit :=
r ← b; if r : bool then mret tt else rest.

(** ** The host platform

    What the worker takes from the JavaScript runtime and cannot be written
    over byte strings: regular expressions, the JSON codec at the three
    types the worker stores, locale-dependent date printing,
    [substring] (which counts UTF-16 code units) and the printing of
    numbers beyond 2^53. *)

Module RegExp.
(** A compiled [new RegExp(pattern, 'gi')]: its [source] and its [test]
    on a fresh object ([lastIndex] 0). *)
Record t := mk { source : string; test : string → bool }.
End RegExp.

(** The three outcomes of [JSON.parse] followed by [Array.isArray]. *)
Inductive Parsed (A : Type) :=
| IsArray (l : list A)
| NotArray
| SyntaxError.
Arguments IsArray {A} l.
Arguments NotArray {A}.
Arguments SyntaxError {A}.

Class Host := {
(** [new RegExp(pattern, 'gi')]; [None] when the constructor throws. *)
new_RegExp : string → option RegExp.t;
JSON_parse_keywords : string → Parsed string;
JSON_stringify_keywords : list string → string;
JSON_parse_rules : string → Parsed Rule.t;
JSON_stringify_rules : list Rule.t → string;
(** [JSON.parse] of an admin state; [None] when it throws. *)
JSON_parse_state : string → option AdminState.t;
JSON_stringify_state : AdminState.t → string;
(** [new Date(t * 1000).toLocaleString('zh-CN')]. *)
toLocaleString : Z → string;
(** [new Date().toLocaleString('zh-CN')]. *)
now_toLocaleString : string;
(** [s.substring(0, n)]. *)
substring0 : nat → string → string;
(** [String(x)] for an integer-valued double [x] beyond 2^53 in absolute
    value: the shortest digits that read back as [x], in exponent notation
    from 10^21 on. *)
Number_toString : Z → string;
}.

(** ** D1 abstraction layer *)

Definition dbConfigGet (key : string) : M (option string) :=
w ← get_world; mret (config w !! key).

Definition dbConfigPut (key value : string) : M unit :=
modify (with_config <[key := value]>).

Definition default_row : UserRow :=
{| user_state := "new"; is_blocked := 0; block_count := 0;
   topic_id := None; user_info_json := None |}.

Definition user_of_row (row : UserRow) : User.t :=
{| User.user_state := user_state row;
   User.is_blocked := is_blocked row =? 1;
   User.block_count := block_count row;
   User.topic_id := topic_id row;
   User.user_info := user_info_json row |}.

(** The row when it exists; otherwise the default row is inserted and the
    second SELECT returns it. *)
Definition dbUserGetOrCreate (userId : string) : M User.t :=
w ← get_world;
match users w !! userId with
| Some row => mret (user_of_row row)
| None =>
    modify (with_users <[userId := default_row]>);;
    mret (user_of_row default_row)
end.

Definition set_field (row : UserRow) (f : Field) : UserRow :=
match f with
| Set_user_state v =>
    {| user_state := v; is_blocked := is_blocked row;
       block_count := block_count row; topic_id := topic_id row;
       user_info_json := user_info_json row |}
| Set_is_blocked v =>
    {| user_state := user_state row; is_blocked := v;
       block_count := block_count row; topic_id := topic_id row;
       user_info_json := user_info_json row |}
| Set_block_count v =>
    {| user_state := user_state row; is_blocked := is_blocked row;
       block_count := v; topic_id := topic_id row;
       user_info_json := user_info_json row |}
| Set_topic_id v =>
    {| user_state := user_state row; is_blocked := is_blocked row;
       block_count := block_count row; topic_id := v;
       user_info_json := user_info_json row |}
| Set_user_info v =>
    {| user_state := user_state row; is_blocked := is_blocked row;
       block_count := block_count row; topic_id := topic_id row;
       user_info_json := Some v |}
end.

(** [UPDATE users SET ... WHERE user_id = ?]: no row, no change. *)
Definition dbUserUpdate (userId : string) (data : list Field) : M unit :=
modify (with_users (alter (λ row, foldl set_field row data) userId)).

Definition dbMessageDataPut (userId messageId : string) (data : MessageData.t) : M unit :=
modify (with_messages <[(userId, messageId) := data]>).

Definition dbMessageDataGet (userId messageId : string) : M (option MessageData.t) :=
w ← get_world; mret (messages w !! (userId, messageId)).

Definition admin_state_key (userId : string) : string := "admin_state:" +:+ userId.

Definition dbAdminStateDelete (userId : string) : M unit :=
modify (with_config (delete (admin_state_key userId))).

Definition dbAdminStateGet (userId : string) : M (option string) :=
stateJson ← dbConfigGet (admin_state_key userId);
mret (match stateJson with
      | Some s => if Js.truthy s then Some s else None
      | None => None
      end).

Definition dbAdminStatePut (userId stateJson : string) : M unit :=
dbConfigPut (admin_state_key userId) stateJson.

(** ** Helpers *)

Definition escapeHtml (text : string) : string :=
if Js.truthy text
then Js.replaceAll ">" "&gt;" (Js.replaceAll "<" "&lt;" (Js.replaceAll "&" "&amp;" text))
else "".

(** D1 first, then the environment variable, then the default. *)
Definition envKey (key : string) : string :=
Js.replace "VERIF_A" "VERIFICATION_ANSWER"
  (Js.replace "VERIF_Q" "VERIFICATION_QUESTION"
     (Js.replace "WELCOME_MSG" "WELCOME_MESSAGE" (Js.toUpperCase key))).

Definition getConfig (key : string) (env : Env) (defaultValue : string) : M string :=
configValue ← dbConfigGet key;
match configValue with
| Some v => mret v
| None =>
    match vars env !! envKey key with
    | Some envValue => mret envValue
    | None => mret defaultValue
    end
end.

Definition isAdminUser (userId : string) (env : Env) : bool :=
match ADMIN_IDS env with
| None => false
| Some ids =>
    if Js.truthy ids
    then Js.includes (Js.trim <$> Js.split "," ids) userId
    else false
end.

(** The next identifier [Date.now()] (plus [Math.random()]) will give. *)
Definition fresh_id : M string := λ w,
match clock w with
| i :: rest =>
    (Ok i, {| config := config w; users := users w; messages := messages w;
              net := net w; calls := calls w; clock := rest |})
| [] => (Ok "0", w)
end.

(** One call of the Bot API: the next scripted reply decides the outcome,
    and the call is logged with it.  The result is [data.result], of which
    only [message_thread_id] is kept. *)
Definition telegramApi (c : ApiCall) : M (option string) := λ w,
let r := match net w with r :: _ => r | [] => Result None end in
let w' := {| config := config w; users := users w; messages := messages w;
             net := tail (net w); calls := calls w ++ [(c, r)];
             clock := clock w |} in
match r with
| FetchError e => (Throw e, w')
| NonJson =>
    (Throw ("Telegram API " +:+ methodName c +:+ " returned non-JSON response"), w')
| NotOk d => (Throw (methodName c +:+ " failed: " +:+ d), w')
| Result t => (Ok t, w')
end.

Section Worker.
Context `{Host}.

(** *** Rule lists *)

Fixpoint parseOldKeywordResponses_lines (lines : list string)
    : list (RegExp.t * string) :=
  match lines with
  | [] => []
  | line :: rest =>
      let trimmedLine := Js.trim line in
      let more := parseOldKeywordResponses_lines rest in
      if negb (Js.truthy trimmedLine) || Js.startsWith trimmedLine "//" then more
      else
        match Js.split "===" trimmedLine with
        | [p0; p1] =>
            let keywords := Js.trim p0 in
            let response := Js.trim p1 in
            if Js.truthy keywords && Js.truthy response then
              match new_RegExp keywords with
              | Some regex => (regex, response) :: more
              | None => more
              end
            else more
        | _ => more
        end
  end.

Definition parseOldKeywordResponses (envValue : string) : list (RegExp.t * string) :=
  if Js.truthy envValue
  then parseOldKeywordResponses_lines (Js.split (String "010" "") envValue)
  else [].

Fixpoint parseOldBlockKeywords_lines (lines : list string) : list RegExp.t :=
  match lines with
  | [] => []
  | line :: rest =>
      let trimmedLine := Js.trim line in
      let more := parseOldBlockKeywords_lines rest in
      if negb (Js.truthy trimmedLine) || Js.startsWith trimmedLine "//" then more
      else
        match new_RegExp trimmedLine with
        | Some regex => regex :: more
        | None => more
        end
  end.

Definition parseOldBlockKeywords (envValue : string) : list RegExp.t :=
  if Js.truthy envValue
  then parseOldBlockKeywords_lines (Js.split (String "010" "") envValue)
  else [].

Fixpoint convert_old_rules (oldRules : list (RegExp.t * string)) : M (list Rule.t) :=
  match oldRules with
  | [] => mret []
  | (regex, response) :: rest =>
      i ← fresh_id;
      more ← convert_old_rules rest;
      mret ({| Rule.keywords := RegExp.source regex;
               Rule.response := response; Rule.id := i |} :: more)
  end.

Definition getAutoReplyRules (env : Env) : M (list Rule.t) :=
  jsonString ← getConfig "keyword_responses" env "[]";
  match JSON_parse_rules jsonString with
  | IsArray rules => mret rules
  | NotArray => mret []
  | SyntaxError =>
      let oldRules := parseOldKeywordResponses jsonString in
      match oldRules with
      | [] => mret []
      | _ =>
          newRules ← convert_old_rules oldRules;
          dbConfigPut "keyword_responses" (JSON_stringify_rules newRules);;
          mret newRules
      end
  end.

Definition getBlockKeywords (env : Env) : M (list string) :=
  jsonString ← getConfig "block_keywords" env "[]";
  match JSON_parse_keywords jsonString with
  | IsArray keywords => mret keywords
  | NotArray => mret []
  | SyntaxError =>
      let oldKeywords := RegExp.source <$> parseOldBlockKeywords jsonString in
      match oldKeywords with
      | [] => mret []
      | _ =>
          dbConfigPut "block_keywords" (JSON_stringify_keywords oldKeywords);;
          mret oldKeywords
      end
  end.

(** *** Profile card *)

Record Profile := {
  userId : string;
  rawName : string;
  rawUsername : string;
  topicName : string;
  infoCard : string;
}.

Definition getUserInfo (user : From.t) (initialTimestamp : Z) : Profile :=
  let userId := From.id user in
  let rawName :=
    Js.or_else (From.first_name user) ""
    +:+ match From.last_name user with
        | Some l => if Js.truthy l then " " +:+ l else ""
        | None => ""
        end in
  let rawUsername :=
    match From.username user with
    | Some u => if Js.truthy u then "@" +:+ u else "无"
    | None => "无"
    end in
  let safeName := escapeHtml rawName in
  let safeUsername := escapeHtml rawUsername in
  let safeUserId := escapeHtml userId in
  let topicName := substring0 128 (Js.trim rawName +:+ " | " +:+ userId) in
  let timestamp :=
    if initialTimestamp =? 0 then now_toLocaleString
    else toLocaleString initialTimestamp in
  let infoCard := Js.trim ("
<b>👤 用户资料卡</b>
---
• 昵称/名称: <code>" +:+ safeName +:+ "</code>
• 用户名: <code>" +:+ safeUsername +:+ "</code>
• ID: <code>" +:+ safeUserId +:+ "</code>
• 首次连接时间: <code>" +:+ timestamp +:+ "</code>
    ") in
  {| userId := userId; rawName := rawName; rawUsername := rawUsername;
     topicName := topicName; infoCard := infoCard |}.

Definition getInfoCardButtons (userId : string) (isBlocked : bool) : Markup :=
  let blockAction := if isBlocked then "unblock" else "block" in
  let blockText :=
    if isBlocked then "✅ 解除屏蔽 (Unblock)" else "🚫 屏蔽此人 (Block)" in
  [ [ {| Button.text := blockText;
         Button.callback_data := blockAction +:+ ":" +:+ userId |} ];
    [ {| Button.text := "📌 置顶此消息 (Pin Card)";
         Button.callback_data := "pin_card:" +:+ userId |} ] ].

(** A plain text message to a chat. *)
Definition say (chatId text : string) : M unit :=
  telegramApi (sendMessage chatId text None None None);; mret tt.

(** *** Verification *)

Definition defaultVerificationQuestion : string :=
  "问题：1+1=?

" +:+ "提示：
" +:+ "1. 正确答案不是“2”。
" +:+ "2. 答案在机器人简介内，请看简介的答案进行回答。".

Definition handleStart (chatId : string) (env : Env) : M unit :=
  welcomeMessage ← getConfig "welcome_msg" env "欢迎！在使用之前，请先完成人机验证。";
  verificationQuestion ← getConfig "verif_q" env defaultVerificationQuestion;
  say chatId welcomeMessage;;
  say chatId verificationQuestion;;
  dbUserUpdate chatId [Set_user_state "pending_verification"].

Definition verification_passed : string := "✅ 验证通过！您现在可以发送消息了。".
Definition verification_failed : string :=
  "❌ 验证失败！
请查看机器人简介查找答案，然后重新回答。".

Definition handleVerification (chatId answer : string) (env : Env) : M unit :=
  expectedAnswer ← getConfig "verif_a" env "3";
  if bool_decide (answer = expectedAnswer) then
    say chatId verification_passed;;
    dbUserUpdate chatId [Set_user_state "verified"]
  else
    say chatId verification_failed.

(** *** Admin menus *)

Definition button (text callback_data : string) : list Button.t :=
  [ {| Button.text := text; Button.callback_data := callback_data |} ].

(** The tail every submenu shares: edit the message the button sits on,
    or send a new message when [messageId] is 0. *)
Definition render (chatId messageId menuText : string) (menuKeyboard : Markup) : M unit :=
  if bool_decide (messageId = "0") then
    telegramApi (sendMessage chatId menuText None (Some "HTML") (Some menuKeyboard));;
    mret tt
  else
    telegramApi (editMessageText chatId messageId menuText (Some "HTML") menuKeyboard);;
    mret tt.

Definition handleAdminConfigStart (chatId : string) (env : Env) : M unit :=
  let menuText := Js.trim "
⚙️ <b>机器人主配置菜单</b>

请选择要管理的配置类别：
    " in
  let menuKeyboard : Markup :=
    [ button "📝 基础配置 (验证问答)" "config:menu:base";
      button "🤖 自动回复管理" "config:menu:autoreply";
      button "🚫 关键词屏蔽管理" "config:menu:keyword";
      button "🔗 按类型过滤管理" "config:menu:filter";
      button "🔄 刷新主菜单" "config:menu" ] in
  dbAdminStateDelete chatId;;
  telegramApi (sendMessage chatId menuText None (Some "HTML") (Some menuKeyboard));;
  mret tt.

Definition handleAdminBaseConfigMenu (chatId messageId : string) (env : Env) : M unit :=
  welcomeMsg ← getConfig "welcome_msg" env "欢迎！...";
  verifQ ← getConfig "verif_q" env "问题：1+1=?...";
  verifA ← getConfig "verif_a" env "3";
  let menuText := Js.trim ("
⚙️ <b>基础配置 (人机验证)</b>

<b>当前设置:</b>
• 欢迎消息: " +:+ substring0 30 (escapeHtml welcomeMsg) +:+ "...
• 验证问题: " +:+ substring0 30 (escapeHtml verifQ) +:+ "...
• 验证答案: <code>" +:+ escapeHtml verifA +:+ "</code>

请选择要修改的配置项:
    ") in
  let menuKeyboard : Markup :=
    [ button "📝 编辑欢迎消息" "config:edit:welcome_msg";
      button "❓ 编辑验证问题" "config:edit:verif_q";
      button "🔑 编辑验证答案" "config:edit:verif_a";
      button "⬅️ 返回主菜单" "config:menu" ] in
  render chatId messageId menuText menuKeyboard.

Definition handleAdminAutoReplyMenu (chatId messageId : string) (env : Env) : M unit :=
  rules ← getAutoReplyRules env;
  let ruleCount := pretty (length rules) in
  let menuText := Js.trim ("
🤖 <b>自动回复管理</b>

当前规则总数：<b>" +:+ ruleCount +:+ "</b> 条。

请选择操作：
    ") in
  let menuKeyboard : Markup :=
    [ button "➕ 新增自动回复规则" "config:add:keyword_responses";
      button ("🗑️ 管理/删除现有规则 (" +:+ ruleCount +:+ "条)") "config:list:keyword_responses";
      button "⬅️ 返回主菜单" "config:menu" ] in
  render chatId messageId menuText menuKeyboard.

Definition handleAdminKeywordBlockMenu (chatId messageId : string) (env : Env) : M unit :=
  blockKeywords ← getBlockKeywords env;
  let keywordCount := pretty (length blockKeywords) in
  blockThreshold ← getConfig "block_threshold" env "5";
  let menuText := Js.trim ("
🚫 <b>关键词屏蔽管理</b>

当前屏蔽关键词总数：<b>" +:+ keywordCount +:+ "</b> 个。
屏蔽次数阈值：<code>" +:+ escapeHtml blockThreshold +:+ "</code> 次。

请选择操作：
    ") in
  let menuKeyboard : Markup :=
    [ button "➕ 新增屏蔽关键词" "config:add:block_keywords";
      button ("🗑️ 管理/删除现有关键词 (" +:+ keywordCount +:+ "个)") "config:list:block_keywords";
      button "✏️ 修改屏蔽次数阈值" "config:edit:block_threshold";
      button "⬅️ 返回主菜单" "config:menu" ] in
  render chatId messageId menuText menuKeyboard.

(** *** Rule list and deletion *)

(** The rows of the list: label and delete identity of each rule.  An
    auto-reply rule is deleted by its [id], a block keyword by itself. *)
Definition ruleRow (index : nat) (rule : Rule.t) : string * string :=
  let keywordsSnippet := substring0 15 (Rule.keywords rule) in
  let responseSnippet := substring0 20 (Rule.response rule) in
  (pretty (index + 1)%nat +:+ ". <code>" +:+ escapeHtml keywordsSnippet
     +:+ "...</code> ➡️ " +:+ escapeHtml responseSnippet +:+ "...",
   Rule.id rule).

Definition keywordRow (index : nat) (rule : string) : string * string :=
  let keywordSnippet := substring0 25 rule in
  (pretty (index + 1)%nat +:+ ". <code>" +:+ escapeHtml keywordSnippet +:+ "...</code>",
   rule).

Definition deleteButton (key : string) (index : nat) (deleteId : string) : list Button.t :=
  button ("🗑️ 删除 " +:+ pretty (index + 1)%nat)
         ("config:delete:" +:+ key +:+ ":" +:+ deleteId).

Definition ruleListText (menuText : string) (rows : list (string * string)) : string :=
  match rows with
  | [] => menuText +:+ "

<i>（列表为空）</i>"
  | _ => foldl (λ acc row, acc +:+ "
" +:+ fst row) menuText rows
  end.

Definition ruleButtons (key backCallback : string) (rows : list (string * string)) : Markup :=
  imap (λ index row, deleteButton key index (snd row)) rows
  ++ [ button "⬅️ 返回管理菜单" backCallback ].

Definition handleAdminRuleList (chatId messageId : string) (env : Env) (key : string) : M unit :=
  if bool_decide (key = "keyword_responses") then
    rules ← getAutoReplyRules env;
    let menuText := Js.trim ("
🤖 <b>自动回复规则列表 (" +:+ pretty (length rules) +:+ "条)</b>

请点击右侧按钮删除对应规则。
规则格式：<code>关键词表达式</code> ➡️ <code>回复内容</code>
---
        ") in
    let rows := imap ruleRow rules in
    render chatId messageId (ruleListText menuText rows)
           (ruleButtons key "config:menu:autoreply" rows)
  else if bool_decide (key = "block_keywords") then
    rules ← getBlockKeywords env;
    let menuText := Js.trim ("
🚫 <b>屏蔽关键词列表 (" +:+ pretty (length rules) +:+ "个)</b>

请点击右侧按钮删除对应关键词。
关键词格式：<code>关键词表达式</code>
---
        ") in
    let rows := imap keywordRow rules in
    render chatId messageId (ruleListText menuText rows)
           (ruleButtons key "config:menu:keyword" rows)
  else mret tt.

Definition deleted_notice (typeName : string) : string :=
  "✅ " +:+ typeName +:+ "已删除并更新。".

Definition handleAdminRuleDelete (chatId messageId : string) (env : Env) (key id : string)
    : M unit :=
  if bool_decide (key = "keyword_responses") then
    rules ← getAutoReplyRules env;
    let rules := filter (λ rule, Rule.id rule ≠ id) rules in
    dbConfigPut key (JSON_stringify_rules rules);;
    telegramApi (answerCallbackQuery chatId (deleted_notice "自动回复规则") false);;
    handleAdminRuleList chatId messageId env key
  else if bool_decide (key = "block_keywords") then
    rules ← getBlockKeywords env;
    let rules := filter (λ keyword, keyword ≠ id) rules in
    dbConfigPut key (JSON_stringify_keywords rules);;
    telegramApi (answerCallbackQuery chatId (deleted_notice "屏蔽关键词") false);;
    handleAdminRuleList chatId messageId env key
  else mret tt.

(** *** Type filter menu *)

(** [(await getConfig(key, env, 'true')).toLowerCase() === 'true']. *)
Definition getSwitch (key : string) (env : Env) : M bool :=
  v ← getConfig key env "true";
  mret (bool_decide (Js.toLowerCase v = "true")).

Definition statusToText (status : bool) : string :=
  if status then "✅ 允许" else "❌ 屏蔽".

Definition statusToCallback (key : string) (status : bool) : string :=
  "config:toggle:" +:+ key +:+ ":" +:+ (if status then "false" else "true").

Definition handleAdminTypeBlockMenu (chatId messageId : string) (env : Env) : M unit :=
  mediaStatus ← getSwitch "enable_image_forwarding" env;
  linkStatus ← getSwitch "enable_link_forwarding" env;
  textStatus ← getSwitch "enable_text_forwarding" env;
  channelForwardStatus ← getSwitch "enable_channel_forwarding" env;
  anyForwardStatus ← getSwitch "enable_forward_forwarding" env;
  audioVoiceStatus ← getSwitch "enable_audio_forwarding" env;
  stickerGifStatus ← getSwitch "enable_sticker_forwarding" env;
  let menuText := Js.trim ("
🔗 <b>按类型过滤管理</b>

点击按钮切换转发状态 (切换后立即生效)。

| 类型 | 状态 |
| :--- | :--- |
| <b>转发消息（用户/群组/频道）</b>| " +:+ statusToText anyForwardStatus +:+ " |
| 频道转发消息 (细分) | " +:+ statusToText channelForwardStatus +:+ " |
| <b>音频/语音消息</b> | " +:+ statusToText audioVoiceStatus +:+ " |
| <b>贴纸/GIF (动画)</b> | " +:+ statusToText stickerGifStatus +:+ " |
| 图片/视频/文件 | " +:+ statusToText mediaStatus +:+ " |
| 链接消息 | " +:+ statusToText linkStatus +:+ " |
| 纯文本消息 | " +:+ statusToText textStatus +:+ " |
    ") in
  let menuKeyboard : Markup :=
    [ button ("转发消息 (用户/群组/频道): " +:+ statusToText anyForwardStatus)
             (statusToCallback "enable_forward_forwarding" anyForwardStatus);
      button ("音频/语音消息 (Audio/Voice): " +:+ statusToText audioVoiceStatus)
             (statusToCallback "enable_audio_forwarding" audioVoiceStatus);
      button ("贴纸/GIF (Sticker/Animation): " +:+ statusToText stickerGifStatus)
             (statusToCallback "enable_sticker_forwarding" stickerGifStatus);
      button ("图片/视频/文件 (Photo/Video/Doc): " +:+ statusToText mediaStatus)
             (statusToCallback "enable_image_forwarding" mediaStatus);
      button ("频道转发消息 (Channel Forward): " +:+ statusToText channelForwardStatus)
             (statusToCallback "enable_channel_forwarding" channelForwardStatus);
      button ("链接消息 (URL/TextLink): " +:+ statusToText linkStatus)
             (statusToCallback "enable_link_forwarding" linkStatus);
      button ("纯文本消息 (Pure Text): " +:+ statusToText textStatus)
             (statusToCallback "enable_text_forwarding" textStatus);
      button "⬅️ 返回主菜单" "config:menu" ] in
  render chatId messageId menuText menuKeyboard.

(** *** Text input of an admin who is editing the configuration *)

Definition updated_notice (key finalValue : string) : string :=
  if bool_decide (key = "welcome_msg") then "✅ <b>欢迎消息</b>已更新。"
  else if bool_decide (key = "verif_q") then "✅ <b>验证问题</b>已更新。"
  else if bool_decide (key = "verif_a") then
    "✅ <b>验证答案</b>已更新为：<code>" +:+ escapeHtml finalValue +:+ "</code>"
  else if bool_decide (key = "block_threshold") then
    "✅ <b>屏蔽次数阈值</b>已更新为：<code>" +:+ escapeHtml finalValue +:+ "</code>"
  else "✅ 配置已更新。".

Definition nextMenuAction (key : string) : string :=
  if Js.includes ["welcome_msg"; "verif_q"; "verif_a"] key then "config:menu:base"
  else if bool_decide (key = "keyword_responses") then "config:menu:autoreply"
  else if Js.includes ["block_keywords"; "block_threshold"] key then "config:menu:keyword"
  else "config:menu".

Definition handleAdminConfigInput (userId text adminStateJson : string) (env : Env)
    : M unit :=
  match JSON_parse_state adminStateJson with
  | None => throw "SyntaxError"
  | Some adminState =>
      let key := AdminState.key adminState in
      if bool_decide (Js.toLowerCase text = "/cancel") then
        dbAdminStateDelete userId;;
        say userId "✅ 编辑已取消。";;
        handleAdminConfigStart userId env
      else if bool_decide (AdminState.action adminState = "awaiting_input")
              && Js.truthy key then
        let finalValue :=
          if bool_decide (key = "verif_a") || bool_decide (key = "block_threshold")
          then Js.trim text else text in
        if bool_decide (key = "block_keywords_add") then
          blockKeywords ← getBlockKeywords env;
          let newKeyword := Js.trim finalValue in
          successMsg ←
            (if Js.truthy newKeyword && negb (Js.includes blockKeywords newKeyword) then
               dbConfigPut "block_keywords"
                 (JSON_stringify_keywords (blockKeywords ++ [newKeyword]));;
               mret ("✅ 屏蔽关键词 <code>" +:+ escapeHtml newKeyword +:+ "</code> 已添加。")
             else mret "⚠️ 屏蔽关键词未添加，内容为空或已存在。");
          dbAdminStateDelete userId;;
          telegramApi (sendMessage userId successMsg None (Some "HTML") None);;
          handleAdminKeywordBlockMenu userId "0" env
        else if bool_decide (key = "keyword_responses_add") then
          rules ← getAutoReplyRules env;
          successMsg ←
            match Js.split "===" finalValue with
            | [p0; p1] =>
                if Js.truthy (Js.trim p0) && Js.truthy (Js.trim p1) then
                  i ← fresh_id;
                  let newRule :=
                    {| Rule.keywords := Js.trim p0; Rule.response := Js.trim p1;
                       Rule.id := i |} in
                  dbConfigPut "keyword_responses"
                    (JSON_stringify_rules (rules ++ [newRule]));;
                  mret ("✅ 自动回复规则已添加。关键词: <code>"
                        +:+ escapeHtml (Rule.keywords newRule) +:+ "</code>")
                else
                  mret "⚠️ 自动回复规则未添加。请确保格式正确：<code>关键词===回复内容</code>"
            | _ =>
                mret "⚠️ 自动回复规则未添加。请确保格式正确：<code>关键词===回复内容</code>"
            end;
          dbAdminStateDelete userId;;
          telegramApi (sendMessage userId successMsg None (Some "HTML") None);;
          handleAdminAutoReplyMenu userId "0" env
        else
          dbConfigPut key finalValue;;
          dbAdminStateDelete userId;;
          telegramApi (sendMessage userId (updated_notice key finalValue)
                         None (Some "HTML") None);;
          let next := nextMenuAction key in
          if bool_decide (next = "config:menu:base") then
            handleAdminBaseConfigMenu userId "0" env
          else if bool_decide (next = "config:menu:autoreply") then
            handleAdminAutoReplyMenu userId "0" env
          else if bool_decide (next = "config:menu:keyword") then
            handleAdminKeywordBlockMenu userId "0" env
          else handleAdminConfigStart userId env
      else
        dbAdminStateDelete userId;;
        say userId "⚠️ 状态错误，已重置。请重新使用 /start 访问菜单。"
  end.

(** *** Relay of a private message into the user's topic *)

Definition topic_of (t : option string) : option string :=
  match t with
  | Some s => if Js.truthy s then Some s else None
  | None => None
  end.

Definition create_failed : string :=
  "抱歉，无法连接客服（创建话题失败）。请稍后再试。".
Definition forward_failed : string :=
  "抱歉，消息转发失败（请稍后再试或联系管理员）。".
Definition recreate_failed : string :=
  "抱歉，无法创建新的客服话题（请稍后再试）。".

Definition createTopicForUser (message : Message.t) (isBlocked : bool) (env : Env)
    : M string :=
  let userDetails := Message.from message in
  let date := Message.date message in
  let p := getUserInfo userDetails date in
  newTopic ← telegramApi (createForumTopic (ADMIN_GROUP_ID env) (topicName p));
  match newTopic with
  | None => throw "TypeError"
  | Some newTopicId =>
      let newInfo :=
        {| name := rawName p; username := rawUsername p;
           first_message_timestamp := date |} in
      dbUserUpdate (userId p) [Set_topic_id (Some newTopicId); Set_user_info newInfo];;
      telegramApi (sendMessage (ADMIN_GROUP_ID env) (infoCard p) (Some newTopicId)
                     (Some "HTML") (Some (getInfoCardButtons (userId p) isBlocked)));;
      mret newTopicId
  end.

Definition tryCopyToTopic (message : Message.t) (env : Env) (targetTopicId : string)
    : M unit :=
  telegramApi (copyMessage (ADMIN_GROUP_ID env) (From.id (Message.from message))
                 (Message.message_id message) (Some targetTopicId));;
  mret tt.

Definition handleRelayToTopic (message : Message.t) (user : User.t) (env : Env) : M unit :=
  let userId := From.id (Message.from message) in
  let isBlocked := User.is_blocked user in
  (* no topic yet: create one; a failure is reported and ends the relay *)
  topicId ←
    match topic_of (User.topic_id user) with
    | Some t => mret (Some t)
    | None =>
        try_catch (t ← createTopicForUser message isBlocked env; mret (Some t))
                  (λ e, say userId create_failed;; mret None)
    end;
  match topicId with
  | None => mret tt
  | Some topicId =>
      done ←
        try_catch (tryCopyToTopic message env topicId;; fallthrough)
          (λ e,
            try_catch
              (dbUserUpdate userId [Set_topic_id None];;
               newTopicId ← createTopicForUser message isBlocked env;
               try_catch (tryCopyToTopic message env newTopicId;; fallthrough)
                         (λ e2, say userId forward_failed;; returned))
              (λ createErr, say userId recreate_failed;; returned));
      if done : bool then mret tt
      else
        match Message.text message with
        | Some text =>
            if Js.truthy text then
              dbMessageDataPut userId (Message.message_id message)
                {| MessageData.text := text; MessageData.date := Message.date message |}
            else mret tt
        | None => mret tt
        end
  end.

(** *** The gatekeeping pipeline of [handlePrivateMessage] *)

(** [`${n}`] for a number: an integer up to 2^53 prints its decimal
    digits. *)
Definition show_number (n : Js.number) : string :=
  match n with
  | Js.Finite z => if Z.abs z <=? 2 ^ 53 then pretty z else Number_toString z
  | Js.PosInfinity => "Infinity"
  | Js.NegInfinity => "-Infinity"
  end.

Definition blockNotification (currentCount : Z) (blockThreshold : Js.number) : string :=
  "⚠️ 您的消息触发了屏蔽关键词过滤器 (" +:+ pretty currentCount +:+ "/"
  +:+ show_number blockThreshold +:+ "次)，此消息已被丢弃，不会转发给对方。".

Definition autoBlockMessage : string :=
  "❌ 您已多次触发屏蔽关键词，根据设置，您已被自动屏蔽。机器人将不再接收您的任何消息。".

(** The body of the keyword loop once [regex.test(text)] holds.  It runs
    inside the loop's [try], after [currentCount] was incremented. *)
Definition keywordHit (userId chatId : string) (currentCount : Z)
    (blockThreshold : Js.number) : M bool :=
  dbUserUpdate userId [Set_block_count currentCount];;
  if Js.reaches currentCount blockThreshold then
    dbUserUpdate userId [Set_is_blocked 1];;
    say chatId (blockNotification currentCount blockThreshold);;
    say chatId autoBlockMessage;;
    returned
  else
    say chatId (blockNotification currentCount blockThreshold);;
    returned.

(** [for (const keyword of blockKeywords) { try { ... } catch (e) { } }]:
    an invalid pattern and a failed send are both caught and the loop goes
    on with the next keyword, [currentCount] keeping its increment. *)
Fixpoint keywordLoop (userId chatId text : string) (blockThreshold : Js.number)
    (blockKeywords : list string) (currentCount : Z) : M bool :=
  match blockKeywords with
  | [] => fallthrough
  | keyword :: rest =>
      match new_RegExp keyword with
      | None => keywordLoop userId chatId text blockThreshold rest currentCount
      | Some regex =>
          if RegExp.test regex text then
            let currentCount := currentCount + 1 in
            r ← try_catch (keywordHit userId chatId currentCount blockThreshold)
                          (λ e, fallthrough);
            if r : bool then returned
            else keywordLoop userId chatId text blockThreshold rest currentCount
          else keywordLoop userId chatId text blockThreshold rest currentCount
      end
  end.

Definition keywordBlockCheck (userId chatId text : string) (user : User.t) (env : Env)
    : M bool :=
  blockKeywords ← getBlockKeywords env;
  t ← getConfig "block_threshold" env "5";
  let blockThreshold := Js.number_or (Js.parseInt t) 5 in
  match blockKeywords with
  | [] => fallthrough
  | _ =>
      if Js.truthy text
      then keywordLoop userId chatId text blockThreshold blockKeywords
             (User.block_count user)
      else fallthrough
  end.

Record Filters := {
  media : bool;
  link : bool;
  text_ : bool;
  channel_forward : bool;
  any_forward : bool;
  audio_voice : bool;
  sticker_gif : bool;
}.

Definition getFilters (env : Env) : M Filters :=
  media ← getSwitch "enable_image_forwarding" env;
  link ← getSwitch "enable_link_forwarding" env;
  text ← getSwitch "enable_text_forwarding" env;
  channel_forward ← getSwitch "enable_channel_forwarding" env;
  any_forward ← getSwitch "enable_forward_forwarding" env;
  audio_voice ← getSwitch "enable_audio_forwarding" env;
  sticker_gif ← getSwitch "enable_sticker_forwarding" env;
  mret {| media := media; link := link; text_ := text;
          channel_forward := channel_forward; any_forward := any_forward;
          audio_voice := audio_voice; sticker_gif := sticker_gif |}.

(** [msg.entities || msg.caption_entities || []]: an array, even an empty
    one, is truthy. *)
Definition hasLinks (msg : Message.t) : bool :=
  let entities :=
    match Message.entities msg with
    | Some e => e
    | None => default [] (Message.caption_entities msg)
    end in
  existsb (λ type, bool_decide (type = "url") || bool_decide (type = "text_link"))
          entities.

Definition has_text (message : Message.t) : bool :=
  match Message.text message with
  | Some t => Js.truthy t
  | None => false
  end.

Definition is_forward (message : Message.t) : bool :=
  Message.forward_from message || bool_decide (is_Some (Message.forward_from_chat message)).

Definition isPureText (message : Message.t) : bool :=
  has_text message
  && negb (Message.photo message) && negb (Message.video message)
  && negb (Message.document message) && negb (Message.sticker message)
  && negb (Message.audio message) && negb (Message.voice message)
  && negb (bool_decide (is_Some (Message.forward_from_chat message)))
  && negb (Message.forward_from message) && negb (Message.animation message).

(** The two variables [isForwardable] and [filterReason] after the chain
    of category checks (steps 1 to 4). *)
Definition categoryCheck (filters : Filters) (message : Message.t) : bool * string :=
  if is_forward message then
    if negb (any_forward filters) then (false, "转发消息 (来自用户/群组/频道)")
    else if bool_decide (Message.forward_from_chat message = Some "channel")
            && negb (channel_forward filters)
    then (false, "频道转发消息")
    else (true, "")
  else if Message.audio message || Message.voice message then
    if negb (audio_voice filters) then (false, "音频或语音消息") else (true, "")
  else if Message.sticker message || Message.animation message then
    if negb (sticker_gif filters) then (false, "贴纸或GIF") else (true, "")
  else if Message.photo message || Message.video message || Message.document message then
    if negb (media filters) then (false, "媒体内容（图片/视频/文件）") else (true, "")
  else (true, "").

(** Step 5, the link check. *)
Definition linkCheck (filters : Filters) (message : Message.t) (st : bool * string)
    : bool * string :=
  let '(isForwardable, filterReason) := st in
  if isForwardable && hasLinks message then
    if negb (link filters) then
      (false, if Js.truthy filterReason then filterReason +:+ " (并包含链接)"
              else "包含链接的内容")
    else st
  else st.

(** Step 6, the plain text check. *)
Definition textCheck (filters : Filters) (message : Message.t) (st : bool * string)
    : bool * string :=
  let '(isForwardable, filterReason) := st in
  if isForwardable && isPureText message then
    if negb (text_ filters) then (false, "纯文本内容") else st
  else st.

Definition contentFilter (filters : Filters) (message : Message.t) : bool * string :=
  textCheck filters message (linkCheck filters message (categoryCheck filters message)).

Definition filterNotification (filterReason : string) : string :=
  "此消息已被过滤：" +:+ filterReason +:+ "。根据设置，此类内容不会转发给对方。".

Definition autoReplyPrefix : string := "此消息为自动回复

".

(** The auto-reply loop; a failed send is caught like an invalid pattern. *)
Fixpoint autoReplyLoop (chatId text : string) (rules : list Rule.t) : M bool :=
  match rules with
  | [] => fallthrough
  | rule :: rest =>
      match new_RegExp (Rule.keywords rule) with
      | None => autoReplyLoop chatId text rest
      | Some regex =>
          if RegExp.test regex text then
            r ← try_catch (say chatId (autoReplyPrefix +:+ Rule.response rule);; returned)
                          (λ e, fallthrough);
            if r : bool then returned else autoReplyLoop chatId text rest
          else autoReplyLoop chatId text rest
      end
  end.

Definition autoReplyCheck (chatId text : string) (env : Env) : M bool :=
  autoResponseRules ← getAutoReplyRules env;
  match autoResponseRules with
  | [] => fallthrough
  | _ => if Js.truthy text then autoReplyLoop chatId text autoResponseRules
         else fallthrough
  end.

(** The branch [userState === "verified"]. *)
Definition handleVerified (message : Message.t) (user : User.t) (env : Env) : M unit :=
  let chatId := Message.chat_id message in
  let text := Js.or_else (Message.text message) "" in
  and_then (keywordBlockCheck chatId chatId text user env) (
    filters ← getFilters env;
    let '(isForwardable, filterReason) := contentFilter filters message in
    if negb isForwardable then say chatId (filterNotification filterReason)
    else
      and_then (autoReplyCheck chatId text env)
               (handleRelayToTopic message user env)).

Definition with_state (user : User.t) (s : string) : User.t :=
  {| User.user_state := s; User.is_blocked := User.is_blocked user;
     User.block_count := User.block_count user; User.topic_id := User.topic_id user;
     User.user_info := User.user_info user |}.

Definition use_start : string := "请使用 /start 命令开始。".

Definition handlePrivateMessage (message : Message.t) (env : Env) : M unit :=
  let chatId := Message.chat_id message in
  let text := Js.or_else (Message.text message) "" in
  let userId := chatId in
  let isAdmin := isAdminUser userId env in
  (* 1. the /start and /help commands *)
  if bool_decide (text = "/start") || bool_decide (text = "/help") then
    if isAdmin then handleAdminConfigStart chatId env
    else handleStart chatId env
  else
    user ← dbUserGetOrCreate userId;
    if User.is_blocked user then mret tt
    else
      (* an admin: pending configuration input, else forced verification;
         [None] when the handler has returned *)
      user ←
        (if isAdmin then
           adminStateJson ← dbAdminStateGet userId;
           match adminStateJson with
           | Some j => handleAdminConfigInput userId text j env;; mret None
           | None =>
               if negb (bool_decide (User.user_state user = "verified")) then
                 dbUserUpdate userId [Set_user_state "verified"];;
                 mret (Some (with_state user "verified"))
               else mret (Some user)
           end
         else mret (Some user));
      match user with
      | None => mret tt
      | Some user =>
          (* 2. the verification state *)
          let userState := User.user_state user in
          if bool_decide (userState = "pending_verification") then
            handleVerification chatId text env
          else if bool_decide (userState = "verified") then
            handleVerified message user env
          else say chatId use_start
      end.

(** *** Edited messages *)

Definition original_unavailable : string := "[原始内容无法获取/非文本内容]".
Definition date_unavailable : string := "[发送时间无法获取]".
Definition no_text_content : string := "[非文本/媒体说明内容]".

Definition editNotification (originalText originalDate newContent : string) : string :=
  Js.trim ("
⚠️ <b>用户消息已修改</b>
---
<b>原始信息:</b> 
<code>" +:+ escapeHtml originalText +:+ "</code>

<b>原消息发送时间:</b> 
<code>" +:+ originalDate +:+ "</code>

<b>修改后的新内容:</b>
" +:+ escapeHtml newContent +:+ "
    ").

(** [editedMessage.text || editedMessage.caption || d]. *)
Definition edited_content (editedMessage : Message.t) (d : string) : string :=
  match Message.text editedMessage with
  | Some t => if Js.truthy t then t else Js.or_else (Message.caption editedMessage) d
  | None => Js.or_else (Message.caption editedMessage) d
  end.

Definition handleRelayEditedMessage (editedMessage : Message.t) (env : Env) : M unit :=
  let userId := From.id (Message.from editedMessage) in
  userData ← dbUserGetOrCreate userId;
  match topic_of (User.topic_id userData) with
  | None => mret tt
  | Some topicId =>
      storedData ← dbMessageDataGet userId (Message.message_id editedMessage);
      original ←
        match storedData with
        | Some storedData =>
            let originalText :=
              if Js.truthy (MessageData.text storedData)
              then MessageData.text storedData else original_unavailable in
            let originalDate := toLocaleString (MessageData.date storedData) in
            let updatedData :=
              {| MessageData.text := edited_content editedMessage "";
                 MessageData.date := MessageData.date storedData |} in
            dbMessageDataPut userId (Message.message_id editedMessage) updatedData;;
            mret (originalText, originalDate)
        | None => mret (original_unavailable, date_unavailable)
        end;
      let newContent := edited_content editedMessage no_text_content in
      let notificationText := editNotification (fst original) (snd original) newContent in
      try_catch
        (telegramApi (sendMessage (ADMIN_GROUP_ID env) notificationText (Some topicId)
                        (Some "HTML") None);;
         mret tt)
        (λ e, mret tt)
  end.

(** *** Buttons: pin, block, unblock, configuration *)

Definition handlePinCard (callbackQuery : CallbackQuery.t) (message : Message.t) (env : Env)
    : M unit :=
  try_catch
    (telegramApi (pinChatMessage (Message.chat_id message) (Message.message_id message)
                    (Message.message_thread_id message));;
     telegramApi (answerCallbackQuery (CallbackQuery.id callbackQuery)
                    "📌 资料卡已在话题中置顶。" false);;
     mret tt)
    (λ e,
      telegramApi (answerCallbackQuery (CallbackQuery.id callbackQuery)
                     ("❌ 置顶失败。请确保机器人或有群组的置顶权限。错误信息: " +:+ e) true);;
      mret tt).

Definition display_name (userData : User.t) (userId : string) : string :=
  match User.user_info userData with
  | Some info => name info
  | None => "User " +:+ userId
  end.

Definition handleBlockUser (userId : string) (message : Message.t) (env : Env) : M unit :=
  try_catch
    (dbUserUpdate userId [Set_is_blocked 1];;
     userData ← dbUserGetOrCreate userId;
     let userName := display_name userData userId in
     telegramApi (editMessageReplyMarkup (Message.chat_id message)
                    (Message.message_id message) (getInfoCardButtons userId true));;
     telegramApi (sendMessage (Message.chat_id message)
                    ("❌ **用户 [" +:+ userName +:+ "] 已被屏蔽。**
机器人将不再接收此人消息。")
                    (Message.message_thread_id message) (Some "Markdown") None);;
     mret tt)
    (λ e, mret tt).

Definition handleUnblockUser (userId : string) (message : Message.t) (env : Env) : M unit :=
  try_catch
    (dbUserUpdate userId [Set_is_blocked 0; Set_block_count 0];;
     userData ← dbUserGetOrCreate userId;
     let userName := display_name userData userId in
     telegramApi (editMessageReplyMarkup (Message.chat_id message)
                    (Message.message_id message) (getInfoCardButtons userId false));;
     telegramApi (sendMessage (Message.chat_id message)
                    ("✅ **用户 [" +:+ userName +:+ "] 已解除屏蔽。**
机器人现在可以正常接收其消息。")
                    (Message.message_thread_id message) (Some "Markdown") None);;
     mret tt)
    (λ e, mret tt).

Definition no_permission : string := "您没有权限执行此操作。".

(** [parts[i]] as a truthy string. *)
Definition part (parts : list string) (i : nat) : option string :=
  match parts !! i with
  | Some s => if Js.truthy s then Some s else None
  | None => None
  end.

Definition cancel_hint : string := "

发送 `/cancel` 或点击下方按钮取消。".

Definition edit_prompt (keyOrAction : string) : option string :=
  if bool_decide (keyOrAction = "welcome_msg") then Some "请发送**新的欢迎消息**："
  else if bool_decide (keyOrAction = "verif_q") then Some "请发送**新的人机验证问题**："
  else if bool_decide (keyOrAction = "verif_a") then Some "请发送**新的验证答案**："
  else if bool_decide (keyOrAction = "block_threshold") then
    Some "请发送**屏蔽次数阈值** (纯数字)："
  else None.

Definition add_prompt (keyOrAction : string) : option (string * string) :=
  if bool_decide (keyOrAction = "keyword_responses") then
    Some ("请发送**新的自动回复规则**：

**格式：** <code>关键词表达式===回复内容</code>

例如：<code>你好|hello===欢迎您，请问有什么可以帮助您的？</code>", "config:menu:autoreply")
  else if bool_decide (keyOrAction = "block_keywords") then
    Some ("请发送**新的屏蔽关键词表达式**：

**格式：** <code>关键词表达式</code>

（支持正则表达式，例如：<code>(👉|💣)</code>）", "config:menu:keyword")
  else None.

(** What a [config:...] callback asks for: the conditions of the chain of
    [if]s on [parts[1]] (the action type), [parts[2]] and [parts[3]],
    the last two being tested for truthiness where the source does. *)
Inductive ConfigAction :=
  | Menu (keyOrAction : option string)
  | Toggle (keyOrAction value : string)
  | Edit (keyOrAction : string)
  | Add (keyOrAction : string)
  | ListRules (keyOrAction : string)
  | Delete (keyOrAction value : string)
  | NoAction.

Definition configAction (parts : list string) : ConfigAction :=
  let actionType := parts !! 1%nat in
  let keyOrAction := part parts 2 in
  let value := part parts 3 in
  if bool_decide (actionType = Some "menu") then Menu (parts !! 2%nat)
  else
    match keyOrAction with
    | None => NoAction
    | Some k =>
        if bool_decide (actionType = Some "toggle") then
          match value with Some v => Toggle k v | None => NoAction end
        else if bool_decide (actionType = Some "edit") then Edit k
        else if bool_decide (actionType = Some "add") then Add k
        else if bool_decide (actionType = Some "list") then ListRules k
        else if bool_decide (actionType = Some "delete") then
          match value with Some v => Delete k v | None => NoAction end
        else NoAction
    end.

Definition awaiting (key : string) : string :=
  JSON_stringify_state {| AdminState.action := "awaiting_input"; AdminState.key := key |}.

Definition handleConfigCallback (chatId messageId : string) (env : Env)
    (action : ConfigAction) : M unit :=
  match action with
  | Menu keyOrAction =>
      if bool_decide (keyOrAction = Some "base") then
        handleAdminBaseConfigMenu chatId messageId env
      else if bool_decide (keyOrAction = Some "autoreply") then
        handleAdminAutoReplyMenu chatId messageId env
      else if bool_decide (keyOrAction = Some "keyword") then
        handleAdminKeywordBlockMenu chatId messageId env
      else if bool_decide (keyOrAction = Some "filter") then
        handleAdminTypeBlockMenu chatId messageId env
      else
        try_catch (telegramApi (deleteMessage chatId messageId);; mret tt)
                  (λ e, mret tt);;
        handleAdminConfigStart chatId env
  | Toggle keyOrAction value =>
      dbConfigPut keyOrAction value;;
      handleAdminTypeBlockMenu chatId messageId env
  | Edit keyOrAction =>
      dbAdminStatePut chatId (awaiting keyOrAction);;
      match edit_prompt keyOrAction with
      | None => mret tt
      | Some prompt =>
          telegramApi (editMessageText chatId messageId (prompt +:+ cancel_hint)
                         (Some "Markdown") [ button "❌ 取消编辑" "config:menu" ]);;
          mret tt
      end
  | Add keyOrAction =>
      dbAdminStatePut chatId (awaiting (keyOrAction +:+ "_add"));;
      match add_prompt keyOrAction with
      | None => mret tt
      | Some (prompt, cancelBack) =>
          telegramApi (editMessageText chatId messageId (prompt +:+ cancel_hint)
                         (Some "HTML") [ button "❌ 取消添加" cancelBack ]);;
          mret tt
      end
  | ListRules keyOrAction => handleAdminRuleList chatId messageId env keyOrAction
  | Delete keyOrAction value =>
      handleAdminRuleDelete chatId messageId env keyOrAction value
  | NoAction => mret tt
  end.

Definition handleCallbackQuery (callbackQuery : CallbackQuery.t) (env : Env) : M unit :=
  let data := CallbackQuery.data callbackQuery in
  let message := CallbackQuery.message callbackQuery in
  let chatId := Message.chat_id message in
  if Js.startsWith data "config:" then
    if negb (isAdminUser (CallbackQuery.from_id callbackQuery) env) then
      telegramApi (answerCallbackQuery (CallbackQuery.id callbackQuery) no_permission true);;
      mret tt
    else
      let parts := Js.split ":" data in
      telegramApi (answerCallbackQuery (CallbackQuery.id callbackQuery) "处理中..." false);;
      handleConfigCallback chatId (Message.message_id message) env (configAction parts)
  else if negb (bool_decide (Message.chat_id message = ADMIN_GROUP_ID env)) then mret tt
  else
    let parts := Js.split ":" data in
    let action := default "" (parts !! 0%nat) in
    if bool_decide (action = "pin_card") then handlePinCard callbackQuery message env
    else
      telegramApi (answerCallbackQuery (CallbackQuery.id callbackQuery)
                     ("执行动作: "
                      +:+ (if bool_decide (action = "block") then "屏蔽" else "解除屏蔽")
                      +:+ "...") false);;
      (* a missing second segment leaves [userId] undefined, which D1
         refuses to bind: the handlers' own [try] swallows that *)
      match parts !! 1%nat with
      | None => mret tt
      | Some userId =>
          if bool_decide (action = "block") then handleBlockUser userId message env
          else if bool_decide (action = "unblock") then handleUnblockUser userId message env
          else mret tt
      end.

(** *** Delivery of a sequence of private messages

    Each update is handled on its own ([ctx.waitUntil(handleUpdate(...))]);
    an exception ends that handler only, and what it wrote stays. *)
Definition run {A} (m : M A) (w : World) : World := snd (m w).

Definition deliver (env : Env) (msgs : list Message.t) (w : World) : World :=
  foldl (λ w message, run (handlePrivateMessage message env) w) w msgs.

End Worker.

(** ** Vocabulary of the properties *)

(** The value [getConfig] resolves: stored, else environment, else default. *)
Definition lookupConfig (key : string) (env : Env) (defaultValue : string) (w : World)
    : string :=
  match config w !! key with
  | Some v => v
  | None => default defaultValue (vars env !! envKey key)
  end.

(** The threshold the keyword-block stage works with. *)
Definition blockThreshold_of (env : Env) (w : World) : Js.number :=
  Js.number_or (Js.parseInt (lookupConfig "block_threshold" env "5" w)) 5.

(** The position of a stored [user_state] in the verification lifecycle;
    any value other than the two the worker tests for is treated by it
    like [new]. *)
Definition rank (state : string) : nat :=
  if bool_decide (state = "verified") then 2
  else if bool_decide (state = "pending_verification") then 1
  else 0.

(** A user without a row has not been seen yet and ranks like [new]. *)
Definition rank_of (w : World) (userId : string) : nat :=
  match users w !! userId with
  | Some row => rank (user_state row)
  | None => 0
  end.

(** No session has moved backwards between [w] and [w']. *)
Definition forward (w w' : World) : Prop :=
  ∀ userId, (rank_of w userId ≤ rank_of w' userId)%nat.

(** A computation that never moves a session backwards. *)
Definition monotone {A} (m : M A) : Prop :=
  ∀ w, forward w (snd (m w)).

(** The assignments that cannot lower a [user_state]. *)
Definition raises (f : Field) : Prop :=
  match f with
  | Set_user_state v => v = "verified"
  | _ => True
  end.

Definition is_command (message : Message.t) : bool :=
  let text := Js.or_else (Message.text message) "" in
  bool_decide (text = "/start") || bool_decide (text = "/help").

(** A session whose stored state is [verified]. *)
Definition verified_in (w : World) (userId : string) : bool :=
  bool_decide (user_state <$> users w !! userId = Some "verified").

(** The one message that takes a session back: [/start] or [/help] from a
    user who is not an admin and whose session is verified. *)
Definition restarts (env : Env) (w : World) (message : Message.t) : bool :=
  is_command message
  && negb (isAdminUser (Message.chat_id message) env)
  && verified_in w (Message.chat_id message).

(** No message of the sequence restarts a verified session, each message
    being looked at in the state it arrives in. *)
Fixpoint no_restart `{Host} (env : Env) (msgs : list Message.t) (w : World) : bool :=
  match msgs with
  | [] => true
  | message :: rest =>
      negb (restarts env w message)
      && no_restart env rest (run (handlePrivateMessage message env) w)
  end.

Definition is_result (r : Reply) : Prop :=
  match r with Result _ => True | _ => False end.

Definition is_failure (r : Reply) : Prop := ¬ is_result r.

(** The reply the transport gives to the next call. *)
Definition next_reply (w : World) : Reply :=
  match net w with r :: _ => r | [] => Result None end.

(** The calls of a log that are [copyMessage]. *)
Definition is_copy (c : ApiCall * Reply) : bool :=
  match fst c with copyMessage _ _ _ _ => true | _ => false end.

(** The primary category of the content filter: the branch of the chain of
    category checks a message takes, and the plain text test that follows
    it. *)
Inductive Category :=
  | Forwarded
  | AudioVoice
  | StickerGif
  | MediaFile
  | PlainText.

Definition primaryCategory (message : Message.t) : option Category :=
  if is_forward message then Some Forwarded
  else if Message.audio message || Message.voice message then Some AudioVoice
  else if Message.sticker message || Message.animation message then Some StickerGif
  else if Message.photo message || Message.video message || Message.document message
  then Some MediaFile
  else if has_text message then Some PlainText
  else None.

(** The switches a category is subject to. *)
Definition same_switches (c : option Category) (f g : Filters) : Prop :=
  link f = link g ∧
  match c with
  | Some Forwarded =>
      any_forward f = any_forward g ∧ channel_forward f = channel_forward g
  | Some AudioVoice => audio_voice f = audio_voice g
  | Some StickerGif => sticker_gif f = sticker_gif g
  | Some MediaFile => media f = media g
  | Some PlainText => text_ f = text_ g
  | None => True
  end.

(** The world after one call of the Bot API, and what the call yields. *)
Definition answered (c : ApiCall) (w : World) : World :=
  {| config := config w; users := users w; messages := messages w;
     net := tail (net w); calls := calls w ++ [(c, next_reply w)];
     clock := clock w |}.

Definition outcome (c : ApiCall) (r : Reply) : Res (option string) :=
  match r with
  | FetchError e => Throw e
  | NonJson => Throw ("Telegram API " +:+ methodName c +:+ " returned non-JSON response")
  | NotOk d => Throw (methodName c +:+ " failed: " +:+ d)
  | Result t => Ok t
  end.

(** ** Vocabulary of the keyword-block stage *)

(** Some configured pattern compiles and matches the text. *)
Definition matches_some `{Host} (keywords : list string) (text : string) : bool :=
  existsb (λ keyword,
             match new_RegExp keyword with
             | Some regex => RegExp.test regex text
             | None => false
             end) keywords.

(** The session after a hit that brought the count to [count]. *)
Definition hit_row (row : UserRow) (count : Z) (threshold : Js.number) : UserRow :=
  foldl set_field row
    (Set_block_count count
     :: if Js.reaches count threshold then [Set_is_blocked 1] else []).

(** The messages a hit sends: the warning and, at the threshold, the final
    notice. *)
Definition hit_notices `{Host} (chatId : string) (count : Z) (threshold : Js.number)
    : list ApiCall :=
  sendMessage chatId (blockNotification count threshold) None None None
  :: (if Js.reaches count threshold
      then [sendMessage chatId autoBlockMessage None None None] else []).

(** An admin with no configuration input pending, or no admin at all. *)
Definition no_pending_input (env : Env) (chatId : string) (w : World) : bool :=
  negb (isAdminUser chatId env)
  || bool_decide (config w !! admin_state_key chatId = None).

(** Every scripted reply is a success (calls beyond the script succeed). *)
Definition all_results (l : list Reply) : bool :=
  forallb (λ r, match r with Result _ => true | _ => false end) l.

(** The text of a message as [handlePrivateMessage] reads it. *)
Definition text_of (message : Message.t) : string :=
  Js.or_else (Message.text message) "".

(** The block patterns the stage reads from the configuration. *)
Definition blockKeywords_of `{Host} (env : Env) (w : World) : list string :=
  match getBlockKeywords env w with
  | (Ok keywords, _) => keywords
  | (Throw _, _) => []
  end.

(** A configured threshold that does not parse as a nonzero integer. *)
Definition unusable (s : string) : bool :=
  match Js.parseInt s with
  | Some (Js.Finite z) => z =? 0
  | Some _ => false
  | None => true
  end.

(** ** Vocabulary of the content filter *)

(** The link check, on its own. *)
Definition link_decision (filters : Filters) (message : Message.t) : bool * string :=
  if hasLinks message && negb (link filters) then (false, "包含链接的内容")
  else (true, "").

(** The content filter as the specification words it, category by
    category: the switch of the primary category decides first, except that
    for plain text the link check comes before the text switch; a message
    of no category is subject to the link check alone. *)
Definition filter_by_category (filters : Filters) (message : Message.t) : bool * string :=
  match primaryCategory message with
  | Some Forwarded =>
      if negb (any_forward filters) then (false, "转发消息 (来自用户/群组/频道)")
      else if bool_decide (Message.forward_from_chat message = Some "channel")
              && negb (channel_forward filters)
      then (false, "频道转发消息")
      else link_decision filters message
  | Some AudioVoice =>
      if negb (audio_voice filters) then (false, "音频或语音消息")
      else link_decision filters message
  | Some StickerGif =>
      if negb (sticker_gif filters) then (false, "贴纸或GIF")
      else link_decision filters message
  | Some MediaFile =>
      if negb (media filters) then (false, "媒体内容（图片/视频/文件）")
      else link_decision filters message
  | Some PlainText =>
      if hasLinks message && negb (link filters) then (false, "包含链接的内容")
      else if negb (text_ filters) then (false, "纯文本内容")
      else (true, "")
  | None => link_decision filters message
  end.

(** Whether a message carries text or one of the payloads the filter
    looks at. *)
Definition has_content (message : Message.t) : bool :=
  is_forward message || Message.audio message || Message.voice message
  || Message.sticker message || Message.animation message
  || Message.photo message || Message.video message || Message.document message
  || has_text message.

(** Whether a byte occurs in a string. *)
Fixpoint has_char (c : ascii) (s : string) : bool :=
  match s with
  | EmptyString => false
  | String a r => Ascii.eqb a c || has_char c r
  end.

(** A message of chat [chatId] that reaches the keyword-block stage and
    matches one of the patterns. *)
Definition hits `{Host} (chatId : string) (keywords : list string) (message : Message.t)
    : bool :=
  bool_decide (Message.chat_id message = chatId)
  && negb (is_command message)
  && Js.truthy (text_of message)
  && matches_some keywords (text_of message).

(** ** A sample host, to run the worker on examples

    Regular expressions: alternatives of literal words, matched without
    regard to ASCII case; a pattern with any other metacharacter is refused.
    JSON: arrays of strings free of quotes and backslashes, admin states,
    and rule arrays as the stringifier prints them.  Dates print as epoch
    seconds, [substring] cuts bytes, large numbers print their digits. *)
Module Sample.

Fixpoint contains (needle hay : string) : bool :=
  String.prefix needle hay
  || match hay with
     | EmptyString => false
     | String _ r => contains needle r
     end.

Definition meta (a : ascii) : bool :=
  bool_decide (a ∈ ["\"; "^"; "$"; "."; "*"; "+"; "?"; "("; ")"; "["; "]"; "{"; "}"]%char).

Fixpoint has_meta (s : string) : bool :=
  match s with
  | EmptyString => false
  | String a r => meta a || has_meta r
  end.

Definition regexp (pattern : string) : option RegExp.t :=
  if has_meta pattern then None
  else Some {| RegExp.source := pattern;
               RegExp.test := λ text,
                 existsb (λ alt, contains (Js.toLowerCase alt) (Js.toLowerCase text))
                         (Js.split "|" pattern) |}.

Definition quote : string := String "034" "".

Definition quoted (s : string) : string := quote +:+ s +:+ quote.

Definition stringify_keywords (l : list string) : string :=
  "[" +:+ Js.join "," (quoted <$> l) +:+ "]".

(** Segments of [s] between quotes: for the array the stringifier prints,
    the odd ones are the elements and the even ones the punctuation. *)
Fixpoint elements (expect_open : bool) (segs : list string) : option (list string) :=
  match segs with
  | [ "]" ] => if expect_open then None else Some []
  | sep :: elt :: rest =>
      if bool_decide (sep = if expect_open then "[" else ",")
      then cons elt <$> elements false rest
      else None
  | _ => None
  end.

Definition parse_keywords (s : string) : Parsed string :=
  if bool_decide (s = "[]") then IsArray []
  else if Js.includes ["null"; "true"; "false"; "{}"] s then NotArray
  else match elements true (Js.split quote s) with
       | Some l => IsArray l
       | None => SyntaxError
       end.

Definition stringify_rule (r : Rule.t) : string :=
  "{" +:+ quoted "keywords" +:+ ":" +:+ quoted (Rule.keywords r) +:+ ","
  +:+ quoted "response" +:+ ":" +:+ quoted (Rule.response r) +:+ ","
  +:+ quoted "id" +:+ ":" +:+ Rule.id r +:+ "}".

Definition stringify_rules (l : list Rule.t) : string :=
  "[" +:+ Js.join "," (stringify_rule <$> l) +:+ "]".

(** The end of a rule: [:<id>}] followed by the end of the array or by
    the start of the next rule. *)
Definition rule_end (tail : string) : option (string * bool) :=
  match tail with
  | String ":" t =>
      let r := String.rev t in
      if String.prefix "]}" r then Some (String.rev (Js.drop 2 r), true)
      else if String.prefix "{,}" r then Some (String.rev (Js.drop 3 r), false)
      else None
  | _ => None
  end.

(** Segments of [s] between quotes, after the opening of the first rule. *)
Fixpoint rule_elements (segs : list string) : option (list Rule.t) :=
  match segs with
  | "keywords" :: ":" :: k :: "," :: "response" :: ":" :: r :: "," :: "id" :: tail :: rest =>
      match rule_end tail with
      | Some (i, last) =>
          let rule := {| Rule.keywords := k; Rule.response := r; Rule.id := i |} in
          if last : bool then
            match rest with [] => Some [rule] | _ => None end
          else cons rule <$> rule_elements rest
      | None => None
      end
  | _ => None
  end.

Definition parse_rules (s : string) : Parsed Rule.t :=
  if bool_decide (s = "[]") then IsArray []
  else if Js.includes ["null"; "true"; "false"; "{}"] s then NotArray
  else match Js.split quote s with
       | "[{" :: segs =>
           match rule_elements segs with
           | Some l => IsArray l
           | None => SyntaxError
           end
       | _ => SyntaxError
       end.

Definition stringify_state (s : AdminState.t) : string :=
  "{" +:+ quoted "action" +:+ ":" +:+ quoted (AdminState.action s) +:+ ","
  +:+ quoted "key" +:+ ":" +:+ quoted (AdminState.key s) +:+ "}".

Definition parse_state (s : string) : option AdminState.t :=
  match Js.split quote s with
  | [ "{"; "action"; ":"; a; ","; "key"; ":"; k; "}" ] =>
      Some {| AdminState.action := a; AdminState.key := k |}
  | _ => None
  end.

Definition take (n : nat) (s : string) : string := String.substring 0 n s.

#[export] Instance host : Host := {|
  new_RegExp := regexp;
  JSON_parse_keywords := parse_keywords;
  JSON_stringify_keywords := stringify_keywords;
  JSON_parse_rules := parse_rules;
  JSON_stringify_rules := stringify_rules;
  JSON_parse_state := parse_state;
  JSON_stringify_state := stringify_state;
  toLocaleString := λ t, "epoch " +:+ pretty t;
  now_toLocaleString := "now";
  substring0 := take;
  Number_toString := pretty;
|}.

(** A deployment: admin 1, staff group -100, no configuration variables. *)
Definition env : Env :=
  {| ADMIN_IDS := Some "1"; ADMIN_GROUP_ID := "-100"; vars := ∅ |}.

Definition row (state : string) (blocked count : Z) (topic : option string) : UserRow :=
  {| user_state := state; is_blocked := blocked; block_count := count;
     topic_id := topic; user_info_json := None |}.

Definition world (cfg : list (string * string)) (us : list (string * UserRow))
    (ms : list (string * string * MessageData.t)) (replies : list Reply) : World :=
  {| config := list_to_map cfg; users := list_to_map us; messages := list_to_map ms;
     net := replies; calls := []; clock := [] |}.

Definition sender (id : string) : From.t :=
  {| From.id := id; From.first_name := Some "Ann"; From.last_name := None;
     From.username := None |}.

(** A private text message of user [id]. *)
Definition text_message (id mid text : string) : Message.t :=
  {| Message.chat_id := id; Message.message_id := mid;
     Message.message_thread_id := None; Message.date := 1700000000;
     Message.from := sender id; Message.text := Some text; Message.caption := None;
     Message.forward_from := false; Message.forward_from_chat := None;
     Message.audio := false; Message.voice := false; Message.sticker := false;
     Message.animation := false; Message.photo := false; Message.video := false;
     Message.document := false; Message.entities := None;
     Message.caption_entities := None |}.

End Sample.

(** ** Sample messages and switch settings for the content filter *)

Definition channel_post_with_link : Message.t :=
  {| Message.chat_id := "42"; Message.message_id := "30";
     Message.message_thread_id := None; Message.date := 1700000000;
     Message.from := Sample.sender "42"; Message.text := Some "see https://t.me/x";
     Message.caption := None;
     Message.forward_from := false; Message.forward_from_chat := Some "channel";
     Message.audio := false; Message.voice := false; Message.sticker := false;
     Message.animation := false; Message.photo := false; Message.video := false;
     Message.document := false; Message.entities := Some ["url"];
     Message.caption_entities := None |}.

Definition switches (any channel links text : bool) : Filters :=
  {| media := true; link := links; text_ := text; channel_forward := channel;
     any_forward := any; audio_voice := true; sticker_gif := true |}.

Definition plain_text_with_link : Message.t :=
  {| Message.chat_id := "42"; Message.message_id := "31";
     Message.message_thread_id := None; Message.date := 1700000000;
     Message.from := Sample.sender "42"; Message.text := Some "see https://t.me/x";
     Message.caption := None;
     Message.forward_from := false; Message.forward_from_chat := None;
     Message.audio := false; Message.voice := false; Message.sticker := false;
     Message.animation := false; Message.photo := false; Message.video := false;
     Message.document := false; Message.entities := Some ["url"];
     Message.caption_entities := None |}.

(** A shared location: no text, none of the payloads the filter tests. *)
Definition location_message : Message.t :=
  {| Message.chat_id := "42"; Message.message_id := "32";
     Message.message_thread_id := None; Message.date := 1700000000;
     Message.from := Sample.sender "42"; Message.text := None;
     Message.caption := None;
     Message.forward_from := false; Message.forward_from_chat := None;
     Message.audio := false; Message.voice := false; Message.sticker := false;
     Message.animation := false; Message.photo := false; Message.video := false;
     Message.document := false; Message.entities := None;
     Message.caption_entities := None |}.

Definition all_off : Filters :=
  {| media := false; link := false; text_ := false; channel_forward := false;
     any_forward := false; audio_voice := false; sticker_gif := false |}.

(** ** Sample button presses *)

(** The same callback query pressed by another user. *)
Definition with_sender (q : CallbackQuery.t) (sender : string) : CallbackQuery.t :=
  {| CallbackQuery.id := CallbackQuery.id q; CallbackQuery.data := CallbackQuery.data q;
     CallbackQuery.message := CallbackQuery.message q;
     CallbackQuery.from_id := sender |}.

(** A bot message with buttons: message [mid] in chat [chat], in topic
    [thread] when there is one. *)
Definition bot_message (chat mid : string) (thread : option string) : Message.t :=
  {| Message.chat_id := chat; Message.message_id := mid;
     Message.message_thread_id := thread; Message.date := 1700000000;
     Message.from := Sample.sender "999"; Message.text := Some "card";
     Message.caption := None;
     Message.forward_from := false; Message.forward_from_chat := None;
     Message.audio := false; Message.voice := false; Message.sticker := false;
     Message.animation := false; Message.photo := false; Message.video := false;
     Message.document := false; Message.entities := None;
     Message.caption_entities := None |}.

(** User [sender] presses the button carrying [data] under that message. *)
Definition press (sender data : string) (message : Message.t) : CallbackQuery.t :=
  {| CallbackQuery.id := "900"; CallbackQuery.data := data;
     CallbackQuery.message := message; CallbackQuery.from_id := sender |}.

(** The callback data of the buttons of a keyboard, row by row. *)
Definition callback_data_of (markup : Markup) : list string :=
  Button.callback_data <$> concat markup.


(** ** Vocabulary of the write footprints

    What a handler may write, table by table: which fields of which user's
    row it may assign, whose row it may insert, which configuration keys and
    which ledger keys it may write. *)
Record Policy := {
  may_set : string → Field → Prop;
  may_create : string → Prop;
  may_config : string → Prop;
  may_write : string * string → Prop;
}.

(** [row'] comes from [row] by assignments that [ok] admits. *)
Inductive reach (ok : Field → Prop) : UserRow → UserRow → Prop :=
  | reach_refl row : reach ok row row
  | reach_step row f row' :
      ok f → reach ok (set_field row f) row' → reach ok row row'.

(** How one user's row may differ after a handler: rows are never deleted,
    a new row starts from the default row. *)
Definition evolves (p : Policy) (u : string) (o o' : option UserRow) : Prop :=
  match o, o' with
  | Some row, Some row' => reach (may_set p u) row row'
  | None, Some row' => may_create p u ∧ reach (may_set p u) default_row row'
  | None, None => True
  | Some _, None => False
  end.

(** [w'] differs from [w] by writes the policy admits. *)
Definition admits (p : Policy) (w w' : World) : Prop :=
  (∀ u, evolves p u (users w !! u) (users w' !! u))
  ∧ (∀ k, may_config p k ∨ config w' !! k = config w !! k)
  ∧ (∀ k, may_write p k ∨ messages w' !! k = messages w !! k).

(** A computation whose writes the policy admits, whatever the state it
    starts in and whatever the transport answers. *)
Definition within {A} (p : Policy) (m : M A) : Prop :=
  ∀ w, admits p w (snd (m w)).

(** [q] admits whatever [p] admits. *)
Definition weaker (p q : Policy) : Prop :=
  (∀ u f, may_set p u f → may_set q u f)
  ∧ (∀ u, may_create p u → may_create q u)
  ∧ (∀ k, may_config p k → may_config q k)
  ∧ (∀ k, may_write p k → may_write q k).

(** The union of two policies. *)
Definition join (p q : Policy) : Policy :=
  {| may_set := λ u f, may_set p u f ∨ may_set q u f;
     may_create := λ u, may_create p u ∨ may_create q u;
     may_config := λ k, may_config p k ∨ may_config q k;
     may_write := λ k, may_write p k ∨ may_write q k |}.

(** No write at all. *)
Definition nothing : Policy :=
  {| may_set := λ _ _, False; may_create := λ _, False;
     may_config := λ _, False; may_write := λ _, False |}.

(** The configuration keys in a list, and nothing else. *)
Definition config_keys (keys : list string) : Policy :=
  {| may_set := λ _ _, False; may_create := λ _, False;
     may_config := λ k, k ∈ keys; may_write := λ _, False |}.

(** Any configuration key, and nothing else. *)
Definition any_config : Policy :=
  {| may_set := λ _ _, False; may_create := λ _, False;
     may_config := λ _, True; may_write := λ _, False |}.

(** The two rule lists, which reading converts from the legacy format. *)
Definition rule_lists : Policy := config_keys ["block_keywords"; "keyword_responses"].

(** Assignments of the fields [ok] admits to the row of user [userId]. *)
Definition user_fields (userId : string) (ok : Field → Prop) : Policy :=
  {| may_set := λ u f, u = userId ∧ ok f; may_create := λ _, False;
     may_config := λ _, False; may_write := λ _, False |}.

(** Insertion of the default row of user [userId]. *)
Definition user_row (userId : string) : Policy :=
  {| may_set := λ _ _, False; may_create := λ u, u = userId;
     may_config := λ _, False; may_write := λ _, False |}.

(** The ledger entry of one message. *)
Definition ledger_entry (userId messageId : string) : Policy :=
  {| may_set := λ _ _, False; may_create := λ _, False;
     may_config := λ _, False; may_write := λ k, k = (userId, messageId) |}.

(** The field classes of the handlers. *)
Definition verifies (f : Field) : Prop :=
  match f with Set_user_state v => v = "verified" | _ => False end.

Definition asks_again (f : Field) : Prop :=
  match f with Set_user_state v => v = "pending_verification" | _ => False end.

Definition counts_or_blocks (f : Field) : Prop :=
  match f with
  | Set_block_count _ => True
  | Set_is_blocked v => v = 1
  | _ => False
  end.

Definition binds_thread (f : Field) : Prop :=
  match f with Set_topic_id _ | Set_user_info _ => True | _ => False end.

Definition blocks (f : Field) : Prop :=
  match f with Set_is_blocked v => v = 1 | _ => False end.

Definition unblocks (f : Field) : Prop :=
  match f with
  | Set_is_blocked v => v = 0
  | Set_block_count v => v = 0
  | _ => False
  end.

(** What the relay of a message may write: the thread binding and the
    profile of the sender, and the ledger entry of the message. *)
Definition relay_policy (message : Message.t) : Policy :=
  join (user_fields (From.id (Message.from message)) binds_thread)
       (ledger_entry (From.id (Message.from message)) (Message.message_id message)).

(** What the pipeline may write for a verified session. *)
Definition verified_policy (message : Message.t) : Policy :=
  join rule_lists
    (join (user_fields (Message.chat_id message) counts_or_blocks)
          (relay_policy message)).

(** What a private message may write.  A command of a non-admin may set the
    state of an existing session to pending; any other message may insert
    the session's row and verify it; an admin's message may write the
    configuration. *)
Definition message_policy (env : Env) (message : Message.t) : Policy :=
  let chatId := Message.chat_id message in
  if is_command message then
    if isAdminUser chatId env then config_keys [admin_state_key chatId]
    else user_fields chatId asks_again
  else
    join (user_row chatId)
      (join (user_fields chatId verifies)
         (join (verified_policy message)
            (if isAdminUser chatId env then any_config else nothing))).

(** What an edit notification may write. *)
Definition edit_policy (editedMessage : Message.t) : Policy :=
  join (user_row (From.id (Message.from editedMessage)))
       (ledger_entry (From.id (Message.from editedMessage))
          (Message.message_id editedMessage)).

(** What a button press may write. *)
Definition callback_policy (env : Env) (callbackQuery : CallbackQuery.t) : Policy :=
  let data := CallbackQuery.data callbackQuery in
  if Js.startsWith data "config:" then
    if isAdminUser (CallbackQuery.from_id callbackQuery) env then any_config else nothing
  else
    match Js.split ":" data with
    | action :: userId :: _ =>
        if bool_decide (action = "block") then
          join (user_row userId) (user_fields userId blocks)
        else if bool_decide (action = "unblock") then
          join (user_row userId) (user_fields userId unblocks)
        else nothing
    | _ => nothing
    end.

(** ** Vocabulary of the admin's edit session *)

(** A computation that raises no exception. *)
Definition never_throws {A} (m : M A) : Prop :=
  ∀ w, ∃ a, fst (m w) = Ok a.

(** A computation that leaves a configuration key absent when it was. *)
Definition keeps_absent {A} (key : string) (m : M A) : Prop :=
  ∀ w, config w !! key = None → config (snd (m w)) !! key = None.

(** A computation after which a configuration key is absent, however it
    ends. *)
Definition removes {A} (key : string) (m : M A) : Prop :=
  ∀ w, config (snd (m w)) !! key = None.

(** ** Vocabulary of the relay *)

(** A [copyMessage] the transport accepted. *)
Definition copied (c : ApiCall * Reply) : bool :=
  is_copy c && match snd c with Result _ => true | _ => false end.

(** The ledger once a message has been relayed: its text and date under
    its key, when it has text. *)
Definition recorded (message : Message.t)
    (ms : gmap (string * string) MessageData.t) : gmap (string * string) MessageData.t :=
  match Message.text message with
  | Some text =>
      if Js.truthy text then
        <[(From.id (Message.from message), Message.message_id message) :=
            {| MessageData.text := text; MessageData.date := Message.date message |}]> ms
      else ms
  | None => ms
  end.

(** A [createForumTopic] among the calls. *)
Definition is_create (c : ApiCall * Reply) : bool :=
  match fst c with createForumTopic _ _ => true | _ => false end.

(** ** Vocabulary of the auto-reply stage *)

(** An auto-reply rule whose pattern compiles and matches the text. *)
Definition rule_matches `{Host} (text : string) (rule : Rule.t) : bool :=
  match new_RegExp (Rule.keywords rule) with
  | Some regex => RegExp.test regex text
  | None => false
  end.

(** * Properties *)

(** ** Running the monad *)

Lemma bind_ok {A B} (m : M A) (f : A → M B) w a w1 :
  m w = (Ok a, w1) → (m ≫= f) w = f a w1.
Proof. intros E. unfold mbind, M_bind. now rewrite E. Qed.

Lemma bind_throw {A B} (m : M A) (f : A → M B) w e w1 :
  m w = (Throw e, w1) → (m ≫= f) w = (Throw e, w1).
Proof. intros E. unfold mbind, M_bind. now rewrite E. Qed.

Lemma try_ok {A} (m : M A) h w a w1 :
  m w = (Ok a, w1) → try_catch m h w = (Ok a, w1).
Proof. intros E. unfold try_catch. now rewrite E. Qed.

Lemma try_throw {A} (m : M A) h w e w1 :
  m w = (Throw e, w1) → try_catch m h w = h e w1.
Proof. intros E. unfold try_catch. now rewrite E. Qed.

Lemma telegramApi_run c w :
  telegramApi c w = (outcome c (next_reply w), answered c w).
Proof. unfold telegramApi, outcome, answered, next_reply. now destruct (net w) as [|[] ?]. Qed.

Lemma getConfig_run key env d w :
  getConfig key env d w = (Ok (lookupConfig key env d w), w).
Proof.
  unfold getConfig, lookupConfig, dbConfigGet, get_world, mbind, M_bind, mret, M_ret.
  destruct (config w !! key); [done|]. now destruct (vars env !! envKey key).
Qed.

Lemma dbUserGetOrCreate_found userId w row :
  users w !! userId = Some row →
  dbUserGetOrCreate userId w = (Ok (user_of_row row), w).
Proof.
  intros E. unfold dbUserGetOrCreate, get_world, mbind, M_bind. now rewrite E.
Qed.

(** ** Sessions only move forward *)

Lemma forward_refl w : forward w w.
Proof. unfold forward. intros u. lia. Qed.

Lemma forward_trans w1 w2 w3 : forward w1 w2 → forward w2 w3 → forward w1 w3.
Proof. unfold forward. intros F G u. specialize (F u). specialize (G u). lia. Qed.

Lemma forward_same_users w w' : users w' = users w → forward w w'.
Proof. unfold forward. intros E u. unfold rank_of. rewrite E. lia. Qed.

Lemma rank_le_verified s : (rank s ≤ rank "verified")%nat.
Proof. change (rank "verified") with 2%nat. unfold rank. repeat case_bool_decide; lia. Qed.

Lemma monotone_ret {A} (a : A) : monotone (mret a).
Proof. intros w. apply forward_refl. Qed.

Lemma monotone_throw {A} e : monotone (@throw A e).
Proof. intros w. apply forward_refl. Qed.

Lemma monotone_bind {A B} (m : M A) (f : A → M B) :
  monotone m → (∀ a, monotone (f a)) → monotone (m ≫= f).
Proof.
  intros Hm Hf w. specialize (Hm w). unfold mbind, M_bind.
  destruct (m w) as [[a|e] w1]; simpl in *; [|done].
  eapply forward_trans; [exact Hm|]. apply Hf.
Qed.

Lemma monotone_try {A} (m : M A) h :
  monotone m → (∀ e, monotone (h e)) → monotone (try_catch m h).
Proof.
  intros Hm Hh w. specialize (Hm w). unfold try_catch.
  destruct (m w) as [[a|e] w1]; simpl in *; [done|].
  eapply forward_trans; [exact Hm|]. apply Hh.
Qed.

Lemma monotone_and_then b rest :
  monotone b → monotone rest → monotone (and_then b rest).
Proof.
  intros Hb Hr. unfold and_then. apply monotone_bind; [done|].
  intros []; [apply monotone_ret | done].
Qed.

Lemma monotone_get_world : monotone get_world.
Proof. intros w. apply forward_refl. Qed.

Lemma monotone_with_config f : monotone (modify (with_config f)).
Proof. intros w. now apply forward_same_users. Qed.

Lemma monotone_with_messages f : monotone (modify (with_messages f)).
Proof. intros w. now apply forward_same_users. Qed.

Lemma monotone_telegramApi c : monotone (telegramApi c).
Proof. intros w. rewrite telegramApi_run. now apply forward_same_users. Qed.

Lemma monotone_fresh_id : monotone fresh_id.
Proof. intros w. unfold fresh_id. destruct (clock w); now apply forward_same_users. Qed.

Lemma monotone_dbUserGetOrCreate userId : monotone (dbUserGetOrCreate userId).
Proof.
  intros w u. unfold dbUserGetOrCreate, get_world, mbind, M_bind.
  destruct (users w !! userId) as [row|] eqn:E; simpl; [lia|].
  unfold rank_of. simpl. destruct (decide (userId = u)) as [->|Hne].
  - rewrite E, lookup_insert_eq. lia.
  - rewrite lookup_insert_ne by done. lia.
Qed.

Lemma rank_set_field row f :
  raises f → (rank (user_state row) ≤ rank (user_state (set_field row f)))%nat.
Proof.
  destruct f; simpl; intros R; try lia. subst. apply rank_le_verified.
Qed.

Lemma rank_set_fields data row :
  Forall raises data →
  (rank (user_state row) ≤ rank (user_state (foldl set_field row data)))%nat.
Proof.
  intros F. revert row. induction F as [|f data R _ IH]; intros row; simpl; [lia|].
  etrans; [apply (rank_set_field row f R)|]. apply IH.
Qed.

Lemma monotone_dbUserUpdate userId data :
  Forall raises data → monotone (dbUserUpdate userId data).
Proof.
  intros F w u. unfold dbUserUpdate, modify, rank_of. simpl.
  destruct (decide (userId = u)) as [->|Hne].
  - rewrite lookup_alter_eq. destruct (users w !! u); simpl; [|lia].
    now apply rank_set_fields.
  - rewrite lookup_alter_ne by done. lia.
Qed.

Create HintDb mono.

#[local] Hint Resolve monotone_ret monotone_throw monotone_get_world
  monotone_with_config monotone_with_messages monotone_telegramApi
  monotone_fresh_id monotone_dbUserGetOrCreate : mono.

(** One step through the syntax of a handler. *)
Ltac mono_step :=
  cbv zeta;
  first
    [ solve [ eauto with mono ]
    | lazymatch goal with
      | |- monotone (mbind _ _) => apply monotone_bind; [| intros ?]
      | |- monotone (try_catch _ _) => apply monotone_try; [| intros ?]
      | |- monotone (and_then _ _) => apply monotone_and_then
      | |- monotone (dbUserUpdate _ _) =>
          apply monotone_dbUserUpdate; repeat constructor
      | |- monotone (match ?x with _ => _ end) => destruct x
      end ].

Ltac mono := repeat mono_step.

Lemma monotone_dbConfigGet key : monotone (dbConfigGet key).
Proof. unfold dbConfigGet. mono. Qed.

Lemma monotone_dbConfigPut key value : monotone (dbConfigPut key value).
Proof. unfold dbConfigPut. mono. Qed.

Lemma monotone_dbMessageDataPut u m d : monotone (dbMessageDataPut u m d).
Proof. unfold dbMessageDataPut. mono. Qed.

Lemma monotone_dbMessageDataGet u m : monotone (dbMessageDataGet u m).
Proof. unfold dbMessageDataGet. mono. Qed.

Lemma monotone_dbAdminStateDelete u : monotone (dbAdminStateDelete u).
Proof. unfold dbAdminStateDelete. mono. Qed.

#[local] Hint Resolve monotone_dbConfigGet monotone_dbConfigPut
  monotone_dbMessageDataPut monotone_dbMessageDataGet
  monotone_dbAdminStateDelete : mono.

Lemma monotone_dbAdminStateGet u : monotone (dbAdminStateGet u).
Proof. unfold dbAdminStateGet. mono. Qed.

Lemma monotone_dbAdminStatePut u s : monotone (dbAdminStatePut u s).
Proof. unfold dbAdminStatePut. mono. Qed.

Lemma monotone_getConfig key env d : monotone (getConfig key env d).
Proof. unfold getConfig. mono. Qed.

Lemma monotone_say chatId text : monotone (say chatId text).
Proof. unfold say. mono. Qed.

Lemma monotone_render chatId messageId menuText kb :
  monotone (render chatId messageId menuText kb).
Proof. unfold render. mono. Qed.

#[local] Hint Resolve monotone_dbAdminStateGet monotone_dbAdminStatePut
  monotone_getConfig monotone_say monotone_render : mono.

Lemma monotone_getSwitch key env : monotone (getSwitch key env).
Proof. unfold getSwitch. mono. Qed.

Lemma monotone_handleVerification chatId answer env :
  monotone (handleVerification chatId answer env).
Proof. unfold handleVerification. mono. Qed.

Lemma monotone_handleAdminConfigStart chatId env :
  monotone (handleAdminConfigStart chatId env).
Proof. unfold handleAdminConfigStart. mono. Qed.

Lemma monotone_handleAdminBaseConfigMenu `{Host} chatId messageId env :
  monotone (handleAdminBaseConfigMenu chatId messageId env).
Proof. unfold handleAdminBaseConfigMenu. mono. Qed.

#[local] Hint Resolve monotone_getSwitch monotone_handleVerification
  monotone_handleAdminConfigStart monotone_handleAdminBaseConfigMenu : mono.

Section Monotone.
Context `{Host}.

Lemma monotone_convert_old_rules oldRules : monotone (convert_old_rules oldRules).
Proof. induction oldRules as [|[regex response] rest IH]; simpl; mono. Qed.

Hint Resolve monotone_convert_old_rules : mono.

Lemma monotone_getAutoReplyRules env : monotone (getAutoReplyRules env).
Proof. unfold getAutoReplyRules. mono. Qed.

Lemma monotone_getBlockKeywords env : monotone (getBlockKeywords env).
Proof. unfold getBlockKeywords. mono. Qed.

Hint Resolve monotone_getAutoReplyRules monotone_getBlockKeywords : mono.

Lemma monotone_handleAdminAutoReplyMenu chatId messageId env :
  monotone (handleAdminAutoReplyMenu chatId messageId env).
Proof. unfold handleAdminAutoReplyMenu. mono. Qed.

Lemma monotone_handleAdminKeywordBlockMenu chatId messageId env :
  monotone (handleAdminKeywordBlockMenu chatId messageId env).
Proof. unfold handleAdminKeywordBlockMenu. mono. Qed.

Hint Resolve monotone_handleAdminAutoReplyMenu
  monotone_handleAdminKeywordBlockMenu : mono.

Lemma monotone_handleAdminConfigInput userId text adminStateJson env :
  monotone (handleAdminConfigInput userId text adminStateJson env).
Proof. unfold handleAdminConfigInput. mono. Qed.

Lemma monotone_createTopicForUser message isBlocked env :
  monotone (createTopicForUser message isBlocked env).
Proof. unfold createTopicForUser. mono. Qed.

Lemma monotone_tryCopyToTopic message env t : monotone (tryCopyToTopic message env t).
Proof. unfold tryCopyToTopic. mono. Qed.

Hint Resolve monotone_handleAdminConfigInput monotone_createTopicForUser
  monotone_tryCopyToTopic : mono.

Lemma monotone_handleRelayToTopic message user env :
  monotone (handleRelayToTopic message user env).
Proof. unfold handleRelayToTopic, returned, fallthrough. mono. Qed.

Lemma monotone_keywordHit userId chatId currentCount blockThreshold :
  monotone (keywordHit userId chatId currentCount blockThreshold).
Proof. unfold keywordHit, returned. mono. Qed.

Hint Resolve monotone_handleRelayToTopic monotone_keywordHit : mono.

Lemma monotone_keywordLoop userId chatId text blockThreshold blockKeywords :
  ∀ currentCount,
    monotone (keywordLoop userId chatId text blockThreshold blockKeywords currentCount).
Proof.
  induction blockKeywords as [|keyword rest IH]; intros currentCount; simpl;
    unfold returned, fallthrough; mono.
Qed.

Lemma monotone_autoReplyLoop chatId text rules :
  monotone (autoReplyLoop chatId text rules).
Proof.
  induction rules as [|rule rest IH]; simpl; unfold returned, fallthrough; mono.
Qed.

Hint Resolve monotone_keywordLoop monotone_autoReplyLoop : mono.

Lemma monotone_handleVerified message user env :
  monotone (handleVerified message user env).
Proof.
  unfold handleVerified, keywordBlockCheck, autoReplyCheck, getFilters, fallthrough.
  mono.
Qed.

Hint Resolve monotone_handleVerified : mono.

(** A private message that is not a non-admin's command moves no session
    backwards, whatever the transport answers. *)
Lemma monotone_handlePrivateMessage message env :
  (is_command message = true → isAdminUser (Message.chat_id message) env = true) →
  monotone (handlePrivateMessage message env).
Proof.
  intros Hc. unfold handlePrivateMessage. unfold is_command in Hc.
  destruct (bool_decide _ || bool_decide _).
  - rewrite Hc by done. mono.
  - mono.
Qed.

End Monotone.

(** ** C1: the verification lifecycle *)

(** Outside a verified session the command only moves forward: it writes
    [pending_verification], and only once both messages were delivered. *)
Lemma forward_handleStart chatId env w :
  verified_in w chatId = false →
  forward w (snd (handleStart chatId env w)).
Proof.
  intros Hv. unfold handleStart.
  erewrite bind_ok by apply getConfig_run.
  erewrite bind_ok by apply getConfig_run.
  unfold say, mbind, M_bind. rewrite telegramApi_run.
  destruct (outcome _ _); simpl; [|by apply forward_same_users].
  rewrite telegramApi_run.
  destruct (outcome _ _); simpl; [|by apply forward_same_users].
  intros u. unfold rank_of. simpl.
  destruct (decide (chatId = u)) as [<-|Hne]; [|by rewrite lookup_alter_ne].
  rewrite lookup_alter_eq. unfold verified_in in Hv.
  apply bool_decide_eq_false_1 in Hv.
  destruct (users w !! chatId) as [row|]; simpl in *; [|lia].
  unfold rank at 1. rewrite bool_decide_eq_false_2 by congruence.
  change (rank "pending_verification") with 1%nat. case_bool_decide; lia.
Qed.

(** A message that restarts no verified session moves no session
    backwards, whatever the transport answers. *)
Lemma forward_handlePrivateMessage `{Host} message env w :
  restarts env w message = false →
  forward w (run (handlePrivateMessage message env) w).
Proof.
  intros Hr. unfold restarts in Hr.
  destruct (is_command message) eqn:Hc;
    [destruct (isAdminUser (Message.chat_id message) env) eqn:Ha|].
  - apply monotone_handlePrivateMessage. by rewrite Ha.
  - simpl in Hr. unfold run, handlePrivateMessage. unfold is_command in Hc.
    rewrite Hc, Ha. by apply forward_handleStart.
  - apply monotone_handlePrivateMessage. by rewrite Hc.
Qed.

(** C1, as the code has it: over every sequence of inbound private messages
    in which no [/start] or [/help] comes from a user who is not an admin
    while that user's session is verified, and whatever the transport
    answers, no session's persisted verification state moves backwards
    along new, pending_verification, verified; in particular a session that
    is verified stays verified.  The commands of admins, and the commands
    of users whose session is new or pending, are among the messages. *)
Theorem verification_state_moves_forward `{Host} env (msgs : list Message.t) w :
  no_restart env msgs w = true →
  forward w (deliver env msgs w) ∧
  ∀ userId row,
    users w !! userId = Some row → user_state row = "verified" →
    ∃ row', users (deliver env msgs w) !! userId = Some row'
            ∧ user_state row' = "verified".
Proof.
  intros Hc.
  assert (F : forward w (deliver env msgs w)).
  { revert w Hc. unfold deliver.
    induction msgs as [|m rest IH]; intros w Hc; simpl; [apply forward_refl|].
    simpl in Hc. apply andb_prop in Hc as [Hm Hrest].
    eapply forward_trans; [|apply IH; exact Hrest].
    apply forward_handlePrivateMessage. by apply negb_true_iff. }
  split; [exact F|]. intros userId row Hrow Hv.
  specialize (F userId). unfold rank_of in F. rewrite Hrow, Hv in F.
  change (rank "verified") with 2%nat in F.
  destruct (users (deliver env msgs w) !! userId) as [row'|]; [|lia].
  exists row'. split; [done|]. unfold rank in F.
  repeat case_bool_decide; (done || lia).
Qed.

(** An unseen user writes, sends [/start] and answers the question: the
    session goes new, pending, verified; then the admin opens the menu and
    the user writes on. *)
Lemma verification_state_moves_forward_witness :
  let w := Sample.world [] [] [] [] in
  let hi := Sample.text_message "42" "5" "hi" in
  let start := Sample.text_message "42" "6" "/start" in
  let answer := Sample.text_message "42" "7" "3" in
  let state msgs :=
    user_state <$> users (deliver (H := Sample.host) Sample.env msgs w) !! "42" in
  forward w (deliver (H := Sample.host) Sample.env
               [hi; start; answer; Sample.text_message "1" "8" "/start";
                Sample.text_message "42" "9" "hello"] w)
  ∧ state [hi] = Some "new"
  ∧ state [hi; start] = Some "pending_verification"
  ∧ state [hi; start; answer] = Some "verified".
Proof.
  intros w hi start answer state. split; [|repeat split; reflexivity].
  apply (verification_state_moves_forward (H := Sample.host) Sample.env _ w).
  reflexivity.
Defined.

(** What the command does for everyone else: once the welcome message and
    the question are delivered, the session is pending, whatever it was. *)
Lemma command_of_non_admin_asks_again `{Host} env message w row :
  is_command message = true →
  isAdminUser (Message.chat_id message) env = false →
  users w !! Message.chat_id message = Some row →
  all_results (net w) = true →
  users (run (handlePrivateMessage message env) w) !! Message.chat_id message
  = Some (set_field row (Set_user_state "pending_verification")).
Proof.
  intros Hc Ha Hrow R. unfold run, handlePrivateMessage. unfold is_command in Hc.
  rewrite Hc, Ha. unfold handleStart.
  erewrite bind_ok by apply getConfig_run.
  erewrite bind_ok by apply getConfig_run.
  assert (Hsay : ∀ chatId text w0, all_results (net w0) = true →
            say chatId text w0
            = (Ok tt, answered (sendMessage chatId text None None None) w0)).
  { intros chatId text w0 R0. unfold say, mbind, M_bind. rewrite telegramApi_run.
    unfold next_reply. destruct (net w0) as [|[] ?]; done. }
  erewrite bind_ok by (apply Hsay; exact R).
  erewrite bind_ok.
  2:{ apply Hsay. simpl. destruct (net w) as [|r l]; [done|].
      simpl in R. now apply andb_prop in R as [_ ?]. }
  simpl. now rewrite lookup_alter_eq, Hrow.
Qed.

(** C1 as stated fails: [/start] of a verified user who is not an admin
    writes [pending_verification] over [verified]. *)
Lemma start_resets_a_verified_session :
  let w := Sample.world [] [("42", Sample.row "verified" 0 0 None)] [] [] in
  let w' := deliver (H := Sample.host) Sample.env
              [Sample.text_message "42" "7" "/start"] w in
  isAdminUser "42" Sample.env = false
  ∧ user_state <$> users w !! "42" = Some "verified"
  ∧ user_state <$> users w' !! "42" = Some "pending_verification"
  ∧ ¬ forward w w'.
Proof.
  repeat split; try (vm_compute; reflexivity).
  intros F. specialize (F "42"). vm_compute in F. lia.
Qed.

(** ** C2: the block check *)

(** C2, as the code has it: a private message of a blocked session that is
    not the command [/start] or [/help] is dropped at the block check: the
    handler ends there and leaves the whole world as it was, so no reply is
    sent, nothing is written and no later stage runs. *)
Theorem blocked_message_is_dropped `{Host} env message w row :
  users w !! Message.chat_id message = Some row →
  is_blocked row = 1 →
  is_command message = false →
  handlePrivateMessage message env w = (Ok tt, w).
Proof.
  intros Hrow Hb Hc. unfold handlePrivateMessage. unfold is_command in Hc.
  rewrite Hc.
  erewrite bind_ok by (apply dbUserGetOrCreate_found; exact Hrow).
  unfold user_of_row. simpl. now rewrite Hb.
Qed.

Lemma blocked_message_is_dropped_witness :
  let w := Sample.world [] [("42", Sample.row "verified" 1 3 None)] [] [] in
  let m := Sample.text_message "42" "8" "let me in" in
  handlePrivateMessage (H := Sample.host) m Sample.env w = (Ok tt, w).
Proof.
  intros w m.
  apply (blocked_message_is_dropped (H := Sample.host) Sample.env m w
           (Sample.row "verified" 1 3 None)); reflexivity.
Defined.

(** C2 as stated fails: the handler answers [/start] and [/help] before it
    loads the session, so the block check is not reached: a blocked user's
    [/start] is answered with the welcome message and the question, and the
    session's state is rewritten. *)
Lemma blocked_start_is_answered :
  let w := Sample.world [] [("42", Sample.row "verified" 1 3 None)] [] [] in
  let w' := run (handlePrivateMessage (H := Sample.host)
                   (Sample.text_message "42" "9" "/start") Sample.env) w in
  is_blocked <$> users w !! "42" = Some 1
  ∧ calls w' =
      [ (sendMessage "42" "欢迎！在使用之前，请先完成人机验证。" None None None, Result None);
        (sendMessage "42" defaultVerificationQuestion None None None, Result None) ]
  ∧ users w' !! "42" = Some (Sample.row "pending_verification" 1 3 None).
Proof. repeat split; vm_compute; reflexivity. Qed.

(** ** C4: the verification answer *)

Lemma outcome_result c r : is_result r → ∃ t, outcome c r = Ok t.
Proof. destruct r; simpl; intros []; eauto. Qed.

Lemma outcome_failure c r : is_failure r → ∃ e, outcome c r = Throw e.
Proof. destruct r; simpl; intros F; eauto. destruct F. exact I. Qed.

Lemma say_run chatId text w :
  say chatId text w =
    (match outcome (sendMessage chatId text None None None) (next_reply w) with
     | Ok _ => Ok tt
     | Throw e => Throw e
     end,
     answered (sendMessage chatId text None None None) w).
Proof.
  unfold say, mbind, M_bind. rewrite telegramApi_run. now destruct (outcome _ _).
Qed.

Lemma append_not_self (s pad : string) : pad ≠ "" → s +:+ pad ≠ s.
Proof.
  intros Hp E. apply Hp. clear Hp.
  induction s as [|a s IH]; simpl in E; [done|]. injection E as E. auto.
Qed.

Lemma string_length_app (s t : string) :
  String.length (s +:+ t) = (String.length s + String.length t)%nat.
Proof. induction s as [|a s IH]; simpl; [done|]. now rewrite IH. Qed.

Lemma prepend_not_self (s pad : string) : pad ≠ "" → pad +:+ s ≠ s.
Proof.
  intros Hp E. apply (f_equal String.length) in E.
  rewrite string_length_app in E. destruct pad; [done|]. simpl in E. lia.
Qed.

(** C4, as the code has it: verification handling compares the answer text
    as it was received, without trimming, to the configured expected answer
    by exact (case-sensitive) equality.  On a match the confirmation is sent
    and, once it is delivered, the state becomes verified; on a mismatch the
    error reply is sent and no session changes.  An answer that is the
    expected answer with white space (or anything else) before or after it
    is a mismatch. *)
Theorem verification_compares_the_answer_as_received chatId answer env w row :
  users w !! chatId = Some row →
  user_state row = "pending_verification" →
  let expected := lookupConfig "verif_a" env "3" w in
  let w' := run (handleVerification chatId answer env) w in
  (answer = expected →
     calls w' = calls w
                ++ [(sendMessage chatId verification_passed None None None, next_reply w)]
     ∧ (is_result (next_reply w) →
          users w' !! chatId = Some (set_field row (Set_user_state "verified")))
     ∧ (is_failure (next_reply w) → users w' = users w))
  ∧ (answer ≠ expected →
     calls w' = calls w
                ++ [(sendMessage chatId verification_failed None None None, next_reply w)]
     ∧ users w' = users w)
  ∧ (∀ pad, pad ≠ "" → answer = pad +:+ expected ∨ answer = expected +:+ pad →
     users w' = users w).
Proof.
  intros Hrow Hstate expected w'.
  assert (Hne : answer ≠ expected →
     calls w' = calls w
                ++ [(sendMessage chatId verification_failed None None None, next_reply w)]
     ∧ users w' = users w).
  { intros Hneq. subst w'. unfold run, handleVerification.
    erewrite bind_ok by apply getConfig_run. fold expected.
    rewrite bool_decide_eq_false_2 by done. rewrite say_run. done. }
  split; [|split; [exact Hne|]].
  - intros Heq. subst w'. unfold run, handleVerification.
    erewrite bind_ok by apply getConfig_run. fold expected.
    rewrite bool_decide_eq_true_2 by done.
    unfold mbind, M_bind. rewrite say_run.
    split; [now destruct (outcome _ _)|]. split.
    + intros R. destruct (outcome_result (sendMessage chatId verification_passed
                                            None None None) _ R) as [t Ht].
      rewrite Ht. simpl. now rewrite lookup_alter_eq, Hrow.
    + intros F. destruct (outcome_failure (sendMessage chatId verification_passed
                                             None None None) _ F) as [e He].
      now rewrite He.
  - intros pad Hpad [E|E]; apply Hne; rewrite E.
    + now apply prepend_not_self.
    + now apply append_not_self.
Qed.

Lemma verification_compares_the_answer_as_received_witness :
  let w := Sample.world [] [("42", Sample.row "pending_verification" 0 0 None)] [] [] in
  let w' := run (handleVerification "42" "3" Sample.env) w in
  users w' !! "42" = Some (Sample.row "verified" 0 0 None).
Proof.
  intros w w'.
  destruct (verification_compares_the_answer_as_received "42" "3" Sample.env w
              (Sample.row "pending_verification" 0 0 None)) as [Hyes _];
    [reflexivity | reflexivity |].
  destruct Hyes as (_ & Hok & _); [reflexivity|].
  apply Hok. exact I.
Defined.

(** C4 as stated fails: with the expected answer [3], the answer [3 ]
    (trimming gives [3]) is refused and the session stays pending, while
    [3] itself is accepted. *)
Lemma padded_answer_is_refused :
  let w := Sample.world [] [("42", Sample.row "pending_verification" 0 0 None)] [] [] in
  let padded := run (handlePrivateMessage (H := Sample.host)
                       (Sample.text_message "42" "3" "3 ") Sample.env) w in
  let exact := run (handlePrivateMessage (H := Sample.host)
                      (Sample.text_message "42" "3" "3") Sample.env) w in
  Js.trim "3 " = lookupConfig "verif_a" Sample.env "3" w
  ∧ calls padded = [(sendMessage "42" verification_failed None None None, Result None)]
  ∧ users padded !! "42" = Some (Sample.row "pending_verification" 0 0 None)
  ∧ users exact !! "42" = Some (Sample.row "verified" 0 0 None).
Proof. repeat split; vm_compute; reflexivity. Qed.

(** ** C3: the forward path when the bound thread fails *)

Section Relay.
Context `{Host}.


End Relay.




(** ** Write footprints *)

Lemma reach_trans ok a b c : reach ok a b → reach ok b c → reach ok a c.
Proof. induction 1; [done|]. intros. eapply reach_step; eauto. Qed.

Lemma reach_weaken (ok ok' : Field → Prop) a b :
  (∀ f, ok f → ok' f) → reach ok a b → reach ok' a b.
Proof. intros Hw. induction 1; [constructor|]. eapply reach_step; eauto. Qed.

Lemma reach_fields ok data row :
  Forall ok data → reach ok row (foldl set_field row data).
Proof.
  intros F. revert row. induction F as [|f data Hf _ IH]; intros row; simpl.
  - constructor.
  - eapply reach_step; [exact Hf | apply IH].
Qed.

(** What every admitted assignment preserves is preserved. *)
Lemma reach_invariant (ok : Field → Prop) (I : UserRow → Prop) a b :
  (∀ row f, ok f → I row → I (set_field row f)) → reach ok a b → I a → I b.
Proof. intros Hs. induction 1; eauto. Qed.

Lemma evolves_refl p u o : evolves p u o o.
Proof. destruct o; simpl; [constructor | done]. Qed.

Lemma evolves_trans p u a b c : evolves p u a b → evolves p u b c → evolves p u a c.
Proof.
  destruct a, b, c; simpl; try done.
  - apply reach_trans.
  - intros [? ?] ?. split; [done|]. eapply reach_trans; eauto.
Qed.

Lemma evolves_weaken p q u a b : weaker p q → evolves p u a b → evolves q u a b.
Proof.
  intros (Hs & Hc & _). destruct a, b; simpl; try done.
  - apply reach_weaken, Hs.
  - intros [? ?]. split; [auto|]. eapply reach_weaken; [apply Hs | done].
Qed.

Lemma admits_refl p w : admits p w w.
Proof. repeat split; intros; [apply evolves_refl | by right | by right]. Qed.

Lemma admits_trans p a b c : admits p a b → admits p b c → admits p a c.
Proof.
  intros (U1 & C1 & L1) (U2 & C2 & L2). repeat split.
  - intros u. eapply evolves_trans; eauto.
  - intros k. destruct (C1 k), (C2 k); try (by left). right. congruence.
  - intros k. destruct (L1 k), (L2 k); try (by left). right. congruence.
Qed.

Lemma admits_weaken p q a b : weaker p q → admits p a b → admits q a b.
Proof.
  intros Hw (U & C & L). pose proof Hw as (_ & _ & Hc & Hl). repeat split.
  - intros u. eapply evolves_weaken; eauto.
  - intros k. destruct (C k); auto.
  - intros k. destruct (L k); auto.
Qed.

(** A step that leaves the three tables alone. *)
Lemma admits_same_tables p w w' :
  users w' = users w → config w' = config w → messages w' = messages w →
  admits p w w'.
Proof.
  intros E0 E1 E2. repeat split; intros.
  - rewrite E0. apply evolves_refl.
  - right. by rewrite E1.
  - right. by rewrite E2.
Qed.

Lemma weaker_refl p : weaker p p.
Proof. by repeat split. Qed.

Lemma weaker_trans p q r : weaker p q → weaker q r → weaker p r.
Proof. intros (?&?&?&?) (?&?&?&?). repeat split; auto. Qed.

Lemma weaker_nothing p : weaker nothing p.
Proof. repeat split; simpl; intros; done. Qed.

Lemma weaker_join_l p q r : weaker p q → weaker p (join q r).
Proof. intros (?&?&?&?). repeat split; simpl; auto. Qed.

Lemma weaker_join_r p q r : weaker p r → weaker p (join q r).
Proof. intros (?&?&?&?). repeat split; simpl; auto. Qed.

Lemma weaker_join p q r : weaker p r → weaker q r → weaker (join p q) r.
Proof.
  intros (?&?&?&?) (?&?&?&?).
  repeat split; simpl; intros; match goal with H : _ ∨ _ |- _ => destruct H end; auto.
Qed.

Lemma within_weaken {A} p q (m : M A) : weaker p q → within p m → within q m.
Proof. intros Hw Hm w. eapply admits_weaken; eauto. Qed.

Lemma within_ret {A} p (a : A) : within p (mret a).
Proof. intros w. apply admits_refl. Qed.

Lemma within_throw {A} p e : within p (@throw A e).
Proof. intros w. apply admits_refl. Qed.

Lemma within_bind {A B} p (m : M A) (f : A → M B) :
  within p m → (∀ a, within p (f a)) → within p (m ≫= f).
Proof.
  intros Hm Hf w. specialize (Hm w). unfold mbind, M_bind.
  destruct (m w) as [[a|e] w1]; simpl in *; [|done].
  eapply admits_trans; [exact Hm|]. apply Hf.
Qed.

Lemma within_try {A} p (m : M A) h :
  within p m → (∀ e, within p (h e)) → within p (try_catch m h).
Proof.
  intros Hm Hh w. specialize (Hm w). unfold try_catch.
  destruct (m w) as [[a|e] w1]; simpl in *; [done|].
  eapply admits_trans; [exact Hm|]. apply Hh.
Qed.

Lemma within_and_then p b rest :
  within p b → within p rest → within p (and_then b rest).
Proof.
  intros Hb Hr. unfold and_then. apply within_bind; [done|].
  intros []; [apply within_ret | done].
Qed.

Lemma within_get_world p : within p get_world.
Proof. intros w. apply admits_refl. Qed.

Lemma within_telegramApi p c : within p (telegramApi c).
Proof. intros w. rewrite telegramApi_run. by apply admits_same_tables. Qed.

Lemma within_fresh_id p : within p fresh_id.
Proof. intros w. unfold fresh_id. destruct (clock w); by apply admits_same_tables. Qed.

Lemma within_dbConfigPut p key value :
  may_config p key → within p (dbConfigPut key value).
Proof.
  intros Hk w. repeat split; simpl; intros.
  - apply evolves_refl.
  - destruct (decide (key = k)) as [<-|Hne]; [by left|].
    right. by rewrite lookup_insert_ne.
  - by right.
Qed.

Lemma within_dbAdminStateDelete p userId :
  may_config p (admin_state_key userId) → within p (dbAdminStateDelete userId).
Proof.
  intros Hk w. repeat split; simpl; intros.
  - apply evolves_refl.
  - destruct (decide (admin_state_key userId = k)) as [<-|Hne]; [by left|].
    right. by rewrite lookup_delete_ne.
  - by right.
Qed.

Lemma within_dbMessageDataPut p userId messageId data :
  may_write p (userId, messageId) → within p (dbMessageDataPut userId messageId data).
Proof.
  intros Hk w. repeat split; simpl; intros.
  - apply evolves_refl.
  - by right.
  - destruct (decide ((userId, messageId) = k)) as [<-|Hne]; [by left|].
    right. by rewrite lookup_insert_ne.
Qed.

Lemma within_dbUserGetOrCreate p userId :
  may_create p userId → within p (dbUserGetOrCreate userId).
Proof.
  intros Hc w. unfold dbUserGetOrCreate, get_world, mbind, M_bind.
  destruct (users w !! userId) as [row|] eqn:E; simpl; [apply admits_refl|].
  repeat split; simpl; intros; [|by right|by right].
  destruct (decide (userId = u)) as [<-|Hne].
  - rewrite E, lookup_insert_eq. simpl. split; [done | constructor].
  - rewrite lookup_insert_ne by done. apply evolves_refl.
Qed.

Lemma within_dbUserUpdate p userId data :
  Forall (may_set p userId) data → within p (dbUserUpdate userId data).
Proof.
  intros F w. repeat split; simpl; intros; [|by right|by right].
  destruct (decide (userId = u)) as [<-|Hne].
  - rewrite lookup_alter_eq. destruct (users w !! userId); simpl; [|done].
    by apply reach_fields.
  - rewrite lookup_alter_ne by done. apply evolves_refl.
Qed.

Create HintDb fp.

#[local] Hint Resolve within_ret within_throw within_get_world within_telegramApi
  within_fresh_id : fp.

(** The policies, unfolded to their four predicates. *)
Ltac policy_unfold :=
  unfold callback_policy, edit_policy, message_policy, verified_policy,
    relay_policy, rule_lists, join, user_fields, user_row, ledger_entry,
    config_keys, any_config, nothing in *;
  simpl in *.

(** A write the policy at hand admits. *)
Ltac admitted :=
  policy_unfold;
  repeat match goal with |- Forall _ _ => constructor end;
  simpl; try done; try tauto; try set_solver.

(** One policy admits what another does. *)
Ltac solve_weaker :=
  policy_unfold; unfold weaker; simpl;
  split; [ intros ? []; simpl; try tauto; naive_solver | ];
  repeat split; intros; try tauto; try set_solver; naive_solver.

(** One step through the syntax of a handler. *)
Ltac fp_step :=
  cbv beta iota zeta;
  first
    [ solve [ eauto with fp ]
    | lazymatch goal with
      | |- within _ (mbind _ _) => apply within_bind; [| intros ?]
      | |- within _ (try_catch _ _) => apply within_try; [| intros ?]
      | |- within _ (and_then _ _) => apply within_and_then
      | |- within _ (dbUserUpdate _ _) => apply within_dbUserUpdate; admitted
      | |- within _ (dbUserGetOrCreate _) => apply within_dbUserGetOrCreate; admitted
      | |- within _ (dbConfigPut _ _) => apply within_dbConfigPut; admitted
      | |- within _ (dbAdminStateDelete _) => apply within_dbAdminStateDelete; admitted
      | |- within _ (dbMessageDataPut _ _ _) => apply within_dbMessageDataPut; admitted
      | |- within _ (match ?x with _ => _ end) => destruct x eqn:?
      end ].

Ltac fp := repeat fp_step.

Lemma within_dbConfigGet p key : within p (dbConfigGet key).
Proof. unfold dbConfigGet. fp. Qed.

Lemma within_dbMessageDataGet p u m : within p (dbMessageDataGet u m).
Proof. unfold dbMessageDataGet. fp. Qed.

#[local] Hint Resolve within_dbConfigGet within_dbMessageDataGet : fp.

Lemma within_dbAdminStateGet p u : within p (dbAdminStateGet u).
Proof. unfold dbAdminStateGet. fp. Qed.

Lemma within_getConfig p key env d : within p (getConfig key env d).
Proof. unfold getConfig. fp. Qed.

Lemma within_say p chatId text : within p (say chatId text).
Proof. unfold say. fp. Qed.

Lemma within_render p chatId messageId menuText kb :
  within p (render chatId messageId menuText kb).
Proof. unfold render. fp. Qed.

#[local] Hint Resolve within_dbAdminStateGet within_getConfig within_say
  within_render : fp.

Lemma within_getSwitch p key env : within p (getSwitch key env).
Proof. unfold getSwitch. fp. Qed.

#[local] Hint Resolve within_getSwitch : fp.

(** The policies of the handlers that have one, for use under any policy
    that admits as much. *)
Create HintDb fpn.

Ltac fp_call :=
  eapply within_weaken; [ | solve [ eauto with fpn ] ]; [ solve_weaker ].

Ltac fpc := repeat first [ fp_step | fp_call ].

Lemma within_handleStart chatId env :
  within (user_fields chatId asks_again) (handleStart chatId env).
Proof. unfold handleStart. fp. Qed.

Lemma within_handleVerification chatId answer env :
  within (user_fields chatId verifies) (handleVerification chatId answer env).
Proof. unfold handleVerification. fp. Qed.

Lemma within_handleAdminConfigStart chatId env :
  within (config_keys [admin_state_key chatId]) (handleAdminConfigStart chatId env).
Proof. unfold handleAdminConfigStart. fp. Qed.

#[local] Hint Resolve within_handleStart within_handleVerification
  within_handleAdminConfigStart : fpn.

Section Footprints.
Context `{Host}.

Lemma within_handleAdminBaseConfigMenu p chatId messageId env :
  within p (handleAdminBaseConfigMenu chatId messageId env).
Proof. unfold handleAdminBaseConfigMenu. fp. Qed.

Lemma within_handleAdminTypeBlockMenu p chatId messageId env :
  within p (handleAdminTypeBlockMenu chatId messageId env).
Proof. unfold handleAdminTypeBlockMenu. fp. Qed.

Lemma within_convert_old_rules p oldRules : within p (convert_old_rules oldRules).
Proof. induction oldRules as [|[regex response] rest IH]; simpl; fp. Qed.

Lemma within_tryCopyToTopic p message env t : within p (tryCopyToTopic message env t).
Proof. unfold tryCopyToTopic. fp. Qed.

Lemma within_handlePinCard p callbackQuery message env :
  within p (handlePinCard callbackQuery message env).
Proof. unfold handlePinCard. fp. Qed.

Lemma within_autoReplyLoop p chatId text rules :
  within p (autoReplyLoop chatId text rules).
Proof.
  induction rules as [|rule rest IH]; simpl; unfold returned, fallthrough; fp.
Qed.

Hint Resolve within_handleAdminBaseConfigMenu within_handleAdminTypeBlockMenu
  within_convert_old_rules within_tryCopyToTopic within_handlePinCard
  within_autoReplyLoop : fp.

Lemma within_getAutoReplyRules env : within rule_lists (getAutoReplyRules env).
Proof. unfold getAutoReplyRules. fp. Qed.

Lemma within_getBlockKeywords env : within rule_lists (getBlockKeywords env).
Proof. unfold getBlockKeywords. fp. Qed.

Hint Resolve within_getAutoReplyRules within_getBlockKeywords : fpn.

Lemma within_handleAdminAutoReplyMenu chatId messageId env :
  within rule_lists (handleAdminAutoReplyMenu chatId messageId env).
Proof. unfold handleAdminAutoReplyMenu. fpc. Qed.

Lemma within_handleAdminKeywordBlockMenu chatId messageId env :
  within rule_lists (handleAdminKeywordBlockMenu chatId messageId env).
Proof. unfold handleAdminKeywordBlockMenu. fpc. Qed.

Lemma within_handleAdminRuleList chatId messageId env key :
  within rule_lists (handleAdminRuleList chatId messageId env key).
Proof. unfold handleAdminRuleList. fpc. Qed.

Hint Resolve within_handleAdminAutoReplyMenu within_handleAdminKeywordBlockMenu
  within_handleAdminRuleList : fpn.

Lemma within_handleAdminRuleDelete chatId messageId env key id :
  within rule_lists (handleAdminRuleDelete chatId messageId env key id).
Proof.
  unfold handleAdminRuleDelete.
  repeat case_bool_decide; subst; fpc.
Qed.

Lemma within_handleAdminConfigInput userId text adminStateJson env :
  within any_config (handleAdminConfigInput userId text adminStateJson env).
Proof. unfold handleAdminConfigInput. fpc. Qed.

Lemma within_handleConfigCallback chatId messageId env action :
  within any_config (handleConfigCallback chatId messageId env action).
Proof.
  unfold handleConfigCallback, dbAdminStatePut.
  pose proof within_handleAdminRuleDelete. fpc.
Qed.

Lemma within_createTopicForUser message isBlocked env :
  within (user_fields (From.id (Message.from message)) binds_thread)
         (createTopicForUser message isBlocked env).
Proof.
  unfold createTopicForUser.
  change (userId (getUserInfo (Message.from message) (Message.date message)))
    with (From.id (Message.from message)).
  fp.
Qed.

Hint Resolve within_handleAdminRuleDelete within_handleAdminConfigInput
  within_handleConfigCallback within_createTopicForUser : fpn.

Lemma within_handleRelayToTopic message user env :
  within (relay_policy message) (handleRelayToTopic message user env).
Proof. unfold handleRelayToTopic, returned, fallthrough. fpc. Qed.

Lemma within_keywordHit userId chatId currentCount blockThreshold :
  within (user_fields userId counts_or_blocks)
         (keywordHit userId chatId currentCount blockThreshold).
Proof. unfold keywordHit, returned. fp. Qed.

Hint Resolve within_handleRelayToTopic within_keywordHit : fpn.

Lemma within_keywordLoop userId chatId text blockThreshold blockKeywords :
  ∀ currentCount,
    within (user_fields userId counts_or_blocks)
      (keywordLoop userId chatId text blockThreshold blockKeywords currentCount).
Proof.
  induction blockKeywords as [|keyword rest IH]; intros currentCount; simpl;
    unfold returned, fallthrough; fpc.
Qed.

Hint Resolve within_keywordLoop : fpn.

Lemma within_handleVerified message user env :
  within (verified_policy message) (handleVerified message user env).
Proof.
  unfold handleVerified, keywordBlockCheck, autoReplyCheck, getFilters, fallthrough.
  fpc.
Qed.

Hint Resolve within_handleVerified : fpn.

(** What follows the keyword-block stage for a verified session: the
    content filter, the auto-reply stage and the relay. *)
Lemma within_after_the_keyword_stage message user env :
  within (join rule_lists (relay_policy message))
    (filters ← getFilters env;
     let '(isForwardable, filterReason) := contentFilter filters message in
     if negb isForwardable
     then say (Message.chat_id message) (filterNotification filterReason)
     else
       and_then (autoReplyCheck (Message.chat_id message)
                   (Js.or_else (Message.text message) "") env)
                (handleRelayToTopic message user env)).
Proof. unfold autoReplyCheck, getFilters, fallthrough. fpc. Qed.

Lemma within_handlePrivateMessage message env :
  within (message_policy env message) (handlePrivateMessage message env).
Proof.
  unfold handlePrivateMessage, message_policy, is_command.
  destruct (bool_decide _ || bool_decide _).
  - destruct (isAdminUser _ env); fpc.
  - destruct (isAdminUser _ env); fpc.
Qed.

Lemma within_handleRelayEditedMessage editedMessage env :
  within (edit_policy editedMessage) (handleRelayEditedMessage editedMessage env).
Proof. unfold handleRelayEditedMessage. fpc. Qed.

Lemma within_handleBlockUser userId message env :
  within (join (user_row userId) (user_fields userId blocks))
         (handleBlockUser userId message env).
Proof. unfold handleBlockUser. fpc. Qed.

Lemma within_handleUnblockUser userId message env :
  within (join (user_row userId) (user_fields userId unblocks))
         (handleUnblockUser userId message env).
Proof. unfold handleUnblockUser. fpc. Qed.

Hint Resolve within_handleBlockUser within_handleUnblockUser : fpn.

Lemma within_handleCallbackQuery callbackQuery env :
  within (callback_policy env callbackQuery) (handleCallbackQuery callbackQuery env).
Proof.
  unfold handleCallbackQuery, callback_policy.
  destruct (Js.startsWith _ "config:").
  - destruct (isAdminUser _ env); simpl; fpc.
  - destruct (Js.split ":" _) as [|action [|userId rest]]; simpl;
      repeat case_bool_decide; subst; simpl; fpc.
Qed.

End Footprints.

Lemma reach_frozen (ok : Field → Prop) a b : (∀ f, ¬ ok f) → reach ok a b → b = a.
Proof. intros Hn. induction 1 as [|row f row' Hf]; [done|]. by destruct (Hn f). Qed.

(** A row the policy neither assigns nor inserts is as it was. *)
Lemma evolves_frozen p u o o' :
  (∀ f, ¬ may_set p u f) → ¬ may_create p u → evolves p u o o' → o' = o.
Proof.
  intros Hs Hc. destruct o, o'; simpl; try done.
  - intros R. f_equal. by apply reach_frozen in R.
  - by intros [? _].
Qed.

(** A row the policy does not assign is as it was when it existed. *)
Lemma evolves_kept p u row o' :
  (∀ f, ¬ may_set p u f) → evolves p u (Some row) o' → o' = Some row.
Proof.
  intros Hs. destruct o'; simpl; [|done].
  intros R. f_equal. by apply reach_frozen in R.
Qed.

(** What every admitted assignment preserves holds of the row afterwards. *)
Lemma evolves_invariant p u (I : UserRow → Prop) row o' :
  (∀ row f, may_set p u f → I row → I (set_field row f)) →
  evolves p u (Some row) o' → I row → ∃ row', o' = Some row' ∧ I row'.
Proof.
  intros Hs. destruct o' as [row'|]; simpl; [|done].
  intros R Hi. exists row'. split; [done|]. eapply reach_invariant; eauto.
Qed.

(** ** C5 and C10: the keyword-block stage *)

Section KeywordBlock.
Context `{Host}.

Lemma next_reply_result w : all_results (net w) = true → is_result (next_reply w).
Proof.
  unfold next_reply. destruct (net w) as [|[] ?]; simpl; intros E; done.
Qed.

Lemma all_results_tail l : all_results l = true → all_results (tail l) = true.
Proof. destruct l as [|r l]; simpl; [done|]. now intros [_ ?]%andb_prop. Qed.

Lemma all_results_answered c w :
  all_results (net w) = true → all_results (net (answered c w)) = true.
Proof. apply all_results_tail. Qed.

Lemma say_ok chatId text w :
  all_results (net w) = true →
  say chatId text w = (Ok tt, answered (sendMessage chatId text None None None) w).
Proof.
  intros R. rewrite say_run.
  destruct (outcome_result (sendMessage chatId text None None None) _
              (next_reply_result w R)) as [t ->]. done.
Qed.

(** A hit with a working transport: the count is stored, the user is
    blocked at the threshold, the notices go out and the handler returns. *)
Lemma keywordHit_run userId chatId count threshold w :
  all_results (net w) = true →
  ∃ w', keywordHit userId chatId count threshold w = (Ok true, w')
        ∧ users w' = alter (λ row, hit_row row count threshold) userId (users w)
        ∧ fst <$> calls w' = (fst <$> calls w) ++ hit_notices chatId count threshold
        ∧ messages w' = messages w ∧ config w' = config w
        ∧ all_results (net w') = true.
Proof.
  intros R. unfold keywordHit, hit_row, hit_notices.
  destruct (Js.reaches count threshold).
  - eexists. split.
    { erewrite bind_ok by reflexivity. erewrite bind_ok by reflexivity.
      erewrite bind_ok by (apply say_ok; exact R).
      erewrite bind_ok by (apply say_ok; apply all_results_answered; exact R).
      reflexivity. }
    simpl. rewrite alter_alter_eq. repeat split; try done.
    + rewrite !fmap_app, <- app_assoc. done.
    + now do 2 apply all_results_tail.
  - eexists. split.
    { erewrite bind_ok by reflexivity.
      erewrite bind_ok by (apply say_ok; exact R). reflexivity. }
    simpl. repeat split; try done.
    + now rewrite fmap_app.
    + now apply all_results_tail.
Qed.

Lemma keywordLoop_run userId chatId text threshold keywords :
  ∀ count w,
    matches_some keywords text = true →
    all_results (net w) = true →
    ∃ w', keywordLoop userId chatId text threshold keywords count w = (Ok true, w')
          ∧ users w' = alter (λ row, hit_row row (count + 1) threshold) userId (users w)
          ∧ fst <$> calls w' = (fst <$> calls w) ++ hit_notices chatId (count + 1) threshold
          ∧ messages w' = messages w ∧ config w' = config w
          ∧ all_results (net w') = true.
Proof.
  induction keywords as [|keyword rest IH]; intros count w Hm R; simpl in Hm; [done|].
  simpl. destruct (new_RegExp keyword) as [regex|]; [|now apply IH].
  destruct (RegExp.test regex text); [|now apply IH].
  destruct (keywordHit_run userId chatId (count + 1) threshold w R)
    as (w' & Hrun & Hrest).
  exists w'. split; [|exact Hrest].
  erewrite bind_ok by (apply try_ok; exact Hrun). done.
Qed.

(** Reading the keyword list touches the configuration only, and not the
    threshold. *)
Lemma getBlockKeywords_frame env w :
  ∃ keywords w1,
    getBlockKeywords env w = (Ok keywords, w1)
    ∧ users w1 = users w ∧ messages w1 = messages w ∧ net w1 = net w
    ∧ calls w1 = calls w
    ∧ lookupConfig "block_threshold" env "5" w1 = lookupConfig "block_threshold" env "5" w.
Proof.
  unfold getBlockKeywords. erewrite bind_ok by apply getConfig_run.
  destruct (JSON_parse_keywords _); try (by eexists _, _).
  destruct (RegExp.source <$> _); [by eexists _, _|].
  eexists _, _. split; [reflexivity|]. repeat split.
  unfold lookupConfig. simpl. now rewrite lookup_insert_ne.
Qed.

(** The route of a verified, unblocked session to the keyword-block stage. *)
Lemma verified_message_run message env w row :
  users w !! Message.chat_id message = Some row →
  user_state row = "verified" →
  (is_blocked row =? 1) = false →
  is_command message = false →
  no_pending_input env (Message.chat_id message) w = true →
  handlePrivateMessage message env w = handleVerified message (user_of_row row) env w.
Proof.
  intros Hrow Hs Hb Hc Hp. unfold handlePrivateMessage. unfold is_command in Hc.
  rewrite Hc. erewrite bind_ok by (apply dbUserGetOrCreate_found; exact Hrow).
  unfold user_of_row at 1. simpl. rewrite Hb.
  unfold no_pending_input in Hp.
  destruct (isAdminUser (Message.chat_id message) env); simpl in Hp.
  - apply bool_decide_eq_true_1 in Hp.
    unfold dbAdminStateGet, dbConfigGet, get_world, mbind, M_bind; simpl.
    rewrite Hp. simpl. rewrite Hs. simpl. now rewrite Hs.
  - unfold mbind, M_bind; simpl. rewrite Hs. done.
Qed.

(** A matching message of a verified, unblocked session with a working
    transport. *)
Lemma keyword_stage_run message env w row keywords w1 :
  users w !! Message.chat_id message = Some row →
  user_state row = "verified" →
  (is_blocked row =? 1) = false →
  is_command message = false →
  no_pending_input env (Message.chat_id message) w = true →
  getBlockKeywords env w = (Ok keywords, w1) →
  matches_some keywords (text_of message) = true →
  Js.truthy (text_of message) = true →
  all_results (net w) = true →
  let chatId := Message.chat_id message in
  let count := block_count row + 1 in
  let threshold := blockThreshold_of env w in
  let w' := run (handlePrivateMessage message env) w in
  users w' !! chatId = Some (hit_row row count threshold)
  ∧ fst <$> calls w' = (fst <$> calls w) ++ hit_notices chatId count threshold
  ∧ messages w' = messages w
  ∧ config w' = config w1
  ∧ all_results (net w') = true.
Proof.
  intros Hrow Hs Hb Hc Hp Hk Hm Ht R chatId count threshold w'. subst w'.
  unfold run. rewrite (verified_message_run message env w row) by done.
  destruct (getBlockKeywords_frame env w) as (k & w1' & Hk' & Hu & Hms & Hn & Hcl & Hth).
  rewrite Hk in Hk'. injection Hk' as <- <-.
  destruct (keywordLoop_run chatId chatId (text_of message) threshold keywords
              (block_count row) w1 Hm) as (w2 & Hrun & Hu2 & Hc2 & Hm2 & Hcfg & Hr2).
  { now rewrite Hn. }
  assert (Hstage : keywordBlockCheck chatId chatId (text_of message) (user_of_row row) env w
                   = (Ok true, w2)).
  { unfold keywordBlockCheck. erewrite bind_ok by exact Hk.
    erewrite bind_ok by apply getConfig_run.
    rewrite Hth. fold (blockThreshold_of env w). fold threshold. rewrite Ht.
    destruct keywords; [done|]. exact Hrun. }
  unfold handleVerified, and_then. fold chatId. fold (text_of message).
  erewrite bind_ok by exact Hstage. simpl.
  rewrite Hu2, Hc2, Hm2, Hu, Hcl, Hms, lookup_alter_eq. fold chatId in Hrow.
  now rewrite Hrow.
Qed.

Lemma hit_row_fields row count threshold :
  block_count (hit_row row count threshold) = count
  ∧ user_state (hit_row row count threshold) = user_state row
  ∧ topic_id (hit_row row count threshold) = topic_id row
  ∧ is_blocked (hit_row row count threshold)
    = if Js.reaches count threshold then 1 else is_blocked row.
Proof. unfold hit_row. now destruct (Js.reaches count threshold). Qed.

(** A list stored in its JSON form is read without a write. *)
Lemma getBlockKeywords_array env w keywords :
  JSON_parse_keywords (lookupConfig "block_keywords" env "[]" w) = IsArray keywords →
  getBlockKeywords env w = (Ok keywords, w).
Proof.
  intros E. unfold getBlockKeywords. erewrite bind_ok by apply getConfig_run.
  now rewrite E.
Qed.

(** Matching messages below the threshold only count. *)
Lemma hits_below_threshold env chatId keywords threshold msgs :
  ∀ w row,
    forallb (hits chatId keywords) msgs = true →
    users w !! chatId = Some row →
    user_state row = "verified" →
    (is_blocked row =? 1) = false →
    no_pending_input env chatId w = true →
    JSON_parse_keywords (lookupConfig "block_keywords" env "[]" w) = IsArray keywords →
    blockThreshold_of env w = Js.Finite threshold →
    all_results (net w) = true →
    block_count row + Z.of_nat (length msgs) < threshold →
    let w' := deliver env msgs w in
    ∃ row',
      users w' !! chatId = Some row'
      ∧ block_count row' = block_count row + Z.of_nat (length msgs)
      ∧ is_blocked row' = is_blocked row
      ∧ user_state row' = "verified"
      ∧ config w' = config w
      ∧ all_results (net w') = true.
Proof.
  induction msgs as [|m rest IH]; intros w row Hall Hrow Hs Hb Hp Hk Ht R Hlt.
  - exists row. simpl. repeat split; try done. lia.
  - simpl in Hall. apply andb_prop in Hall as [Hm Hrest].
    unfold hits in Hm.
    apply andb_prop in Hm as [Hm Hmatch]. apply andb_prop in Hm as [Hm Htext].
    apply andb_prop in Hm as [Hchat Hcmd].
    apply bool_decide_eq_true_1 in Hchat. apply negb_true_iff in Hcmd. subst chatId.
    destruct (keyword_stage_run m env w row keywords w) as (Hu & _ & _ & Hcfg & Hr);
      try done.
    { now apply getBlockKeywords_array. }
    rewrite Ht in Hu.
    destruct (hit_row_fields row (block_count row + 1) (Js.Finite threshold))
      as (Hcount & Hstate & _ & Hblocked).
    rewrite length_cons, Nat2Z.inj_succ in Hlt. cbn [Js.reaches] in Hblocked.
    destruct (Z.leb_spec threshold (block_count row + 1)) as [?|_]; [lia|].
    set (w1 := run (handlePrivateMessage m env) w) in *.
    destruct (IH w1 (hit_row row (block_count row + 1) (Js.Finite threshold)))
      as (row' & Hrow' & Hcount' & Hblocked' & Hstate' & Hcfg' & Hr'); try done.
    + congruence.
    + now rewrite Hblocked.
    + unfold no_pending_input in *. now rewrite Hcfg.
    + unfold lookupConfig in *. now rewrite Hcfg.
    + unfold blockThreshold_of, lookupConfig in *. now rewrite Hcfg.
    + rewrite Hcount. lia.
    + exists row'. change (deliver env (m :: rest) w) with (deliver env rest w1).
      repeat split; try done.
      * rewrite Hcount', Hcount, length_cons, Nat2Z.inj_succ. lia.
      * congruence.
      * congruence.
Qed.

(** The message that brings the count to the threshold blocks. *)
Lemma hit_at_threshold env chatId keywords threshold msgs m w row :
  forallb (hits chatId keywords) (msgs ++ [m]) = true →
  users w !! chatId = Some row →
  user_state row = "verified" →
  (is_blocked row =? 1) = false →
  no_pending_input env chatId w = true →
  JSON_parse_keywords (lookupConfig "block_keywords" env "[]" w) = IsArray keywords →
  blockThreshold_of env w = Js.Finite threshold →
  all_results (net w) = true →
  block_count row + Z.of_nat (length msgs) + 1 = threshold →
  ∃ row',
    users (deliver env (msgs ++ [m]) w) !! chatId = Some row'
    ∧ block_count row' = threshold
    ∧ is_blocked row' = 1.
Proof.
  intros Hall Hrow Hs Hb Hp Hk Ht R Hlt.
  rewrite forallb_app in Hall. apply andb_prop in Hall as [Hmsgs Hm].
  simpl in Hm. rewrite andb_true_r in Hm.
  destruct (hits_below_threshold env chatId keywords threshold msgs w row)
    as (row1 & Hrow1 & Hcount1 & Hblocked1 & Hstate1 & Hcfg1 & Hr1); try done; [lia|].
  unfold deliver. rewrite foldl_app. fold (deliver env msgs w). simpl.
  set (w1 := deliver env msgs w) in *.
  unfold hits in Hm.
  apply andb_prop in Hm as [Hm Hmatch]. apply andb_prop in Hm as [Hm Htext].
  apply andb_prop in Hm as [Hchat Hcmd].
  apply bool_decide_eq_true_1 in Hchat. apply negb_true_iff in Hcmd. subst chatId.
  destruct (keyword_stage_run m env w1 row1 keywords w1) as (Hu & _); try done.
  - now rewrite Hblocked1.
  - unfold no_pending_input in *. now rewrite Hcfg1.
  - apply getBlockKeywords_array. unfold lookupConfig in *. now rewrite Hcfg1.
  - assert (Ht1 : blockThreshold_of env w1 = Js.Finite threshold).
    { unfold blockThreshold_of, lookupConfig in *. now rewrite Hcfg1. }
    rewrite Ht1 in Hu.
    destruct (hit_row_fields row1 (block_count row1 + 1) (Js.Finite threshold))
      as (Hcount & _ & _ & Hblocked).
    exists (hit_row row1 (block_count row1 + 1) (Js.Finite threshold)).
    split; [exact Hu|]. split; [lia|].
    rewrite Hblocked. cbn [Js.reaches].
    destruct (Z.leb_spec threshold (block_count row1 + 1)); [done|lia].
Qed.

End KeywordBlock.

(** *** The stage under any transport *)

Section KeywordStage.
Context `{Host}.

Lemma reaches_mono count count' t :
  Js.reaches count t = true → count ≤ count' → Js.reaches count' t = true.
Proof. destruct t; simpl; [|done|done]. intros L%Z.leb_le ?. apply Z.leb_le. lia. Qed.

(** A [try] whose handler falls through ends in the world its body ends
    in. *)
Lemma try_fallthrough (m : M bool) w :
  ∃ b, try_catch m (λ _, fallthrough) w = (Ok b, snd (m w)).
Proof. unfold try_catch. destruct (m w) as [[b|e] w1]; simpl; eauto. Qed.

(** A hit writes the row before it sends anything: whatever the transport
    answers, the row is the row of the hit. *)
Lemma keywordHit_tables userId chatId count t w :
  let w' := snd (keywordHit userId chatId count t w) in
  users w' = alter (λ row, hit_row row count t) userId (users w)
  ∧ config w' = config w ∧ messages w' = messages w.
Proof.
  unfold keywordHit, hit_row, say, mbind, M_bind. simpl.
  destruct (Js.reaches count t); simpl.
  - rewrite telegramApi_run. destruct (outcome _ _); simpl.
    + rewrite telegramApi_run. destruct (outcome _ _); simpl; by rewrite alter_alter_eq.
    + by rewrite alter_alter_eq.
  - rewrite telegramApi_run. by destruct (outcome _ _).
Qed.

(** The row of the session after the loop, whatever the transport answers:
    the count has not gone down; the session is blocked only if its count
    has reached the threshold, and once a keyword has hit it is blocked if
    its count has reached the threshold. *)
Lemma keywordLoop_rows userId chatId text t keywords :
  ∀ count (started : bool) w row,
    users w !! userId = Some row →
    block_count row = count →
    (is_blocked row = 1 → Js.reaches count t = true) →
    (started = true → Js.reaches count t = true → is_blocked row = 1) →
    let w' := snd (keywordLoop userId chatId text t keywords count w) in
    ∃ row',
      users w' !! userId = Some row'
      ∧ count ≤ block_count row'
      ∧ (is_blocked row' = 1 → Js.reaches (block_count row') t = true)
      ∧ (started || matches_some keywords text = true →
         Js.reaches (block_count row') t = true → is_blocked row' = 1)
      ∧ (matches_some keywords text = true → count + 1 ≤ block_count row')
      ∧ config w' = config w ∧ messages w' = messages w.
Proof.
  induction keywords as [|keyword rest IH]; intros count started w row Hrow Hc Ha Hb.
  - exists row. subst count. simpl. rewrite orb_false_r.
    split; [done|]. split; [lia|]. split; [exact Ha|]. split; [exact Hb|]. done.
  - cbn [keywordLoop matches_some existsb].
    destruct (new_RegExp keyword) as [regex|];
      [|exact (IH count started w row Hrow Hc Ha Hb)].
    destruct (RegExp.test regex text);
      [|exact (IH count started w row Hrow Hc Ha Hb)].
    cbv zeta. rewrite !orb_true_l, orb_true_r.
    (* the hit *)
    set (n := count + 1).
    destruct (keywordHit_tables userId chatId n t w) as (Hu & Hcfg & Hms).
    destruct (hit_row_fields row n t) as (Hn & _ & _ & Hblocked).
    set (wh := snd (keywordHit userId chatId n t w)) in *.
    assert (Hrowh : users wh !! userId = Some (hit_row row n t)).
    { rewrite Hu, lookup_alter_eq, Hrow. done. }
    assert (Hah : is_blocked (hit_row row n t) = 1 → Js.reaches n t = true).
    { rewrite Hblocked. destruct (Js.reaches n t) eqn:E; [done|].
      intros B. rewrite <- E. apply (reaches_mono count); [by apply Ha | lia]. }
    assert (Hbh : Js.reaches n t = true → is_blocked (hit_row row n t) = 1).
    { rewrite Hblocked. by intros ->. }
    destruct (try_fallthrough (keywordHit userId chatId n t) w) as [b Hb'].
    unfold mbind, M_bind. rewrite Hb'. fold wh. destruct b.
    + exists (hit_row row n t). simpl. rewrite Hn.
      split; [exact Hrowh|]. split; [lia|]. split; [exact Hah|].
      split; [intros _; exact Hbh|]. split; [intros _; lia|]. done.
    + destruct (IH n true wh (hit_row row n t) Hrowh Hn Hah (λ _, Hbh))
        as (row' & Hrow' & Hle & Ha' & Hb2 & _ & Hcfg' & Hms').
      exists row'. split; [exact Hrow'|]. split; [lia|]. split; [exact Ha'|].
      split; [intros _; by apply Hb2|]. split; [intros _; lia|].
      split; congruence.
Qed.

(** A verified, unblocked session whose message matches a block pattern,
    under any transport: afterwards the count is at least one higher, and
    the session is blocked exactly if its count has reached the threshold
    the stage works with. *)
Lemma keyword_stage_rows message env w row :
  users w !! Message.chat_id message = Some row →
  user_state row = "verified" →
  (is_blocked row =? 1) = false →
  is_command message = false →
  no_pending_input env (Message.chat_id message) w = true →
  Js.truthy (text_of message) = true →
  matches_some (blockKeywords_of env w) (text_of message) = true →
  let chatId := Message.chat_id message in
  let t := blockThreshold_of env w in
  let w' := run (handlePrivateMessage message env) w in
  ∃ row',
    users w' !! chatId = Some row'
    ∧ block_count row + 1 ≤ block_count row'
    ∧ (is_blocked row' = 1 ↔ Js.reaches (block_count row') t = true).
Proof.
  intros Hrow Hs Hb Hc Hp Ht Hm chatId t w'. subst w'.
  unfold run. rewrite (verified_message_run message env w row) by done.
  destruct (getBlockKeywords_frame env w) as (keywords & w1 & Hk & Hu & Hms & Hn & Hcl & Hth).
  unfold blockKeywords_of in Hm. rewrite Hk in Hm.
  assert (Hrow1 : users w1 !! chatId = Some row) by (by rewrite Hu).
  destruct (keywordLoop_rows chatId chatId (text_of message) t keywords
              (block_count row) false w1 row Hrow1 eq_refl)
    as (row2 & Hrow2 & Hle & Ha2 & Hb2 & Hc2 & _); [ | done | ].
  { intros E. rewrite E in Hb. done. }
  set (loop := keywordLoop chatId chatId (text_of message) t keywords (block_count row)) in *.
  assert (Hstage : keywordBlockCheck chatId chatId (text_of message) (user_of_row row) env w
                   = loop w1).
  { unfold keywordBlockCheck. erewrite bind_ok by exact Hk.
    erewrite bind_ok by apply getConfig_run.
    rewrite Hth. fold (blockThreshold_of env w). fold t. rewrite Ht.
    destruct keywords; [done|]. reflexivity. }
  unfold handleVerified, and_then. fold chatId. fold (text_of message).
  unfold mbind at 1, M_bind at 1. rewrite Hstage.
  destruct (loop w1) as [[r|e] w2] eqn:El; simpl in Hrow2 |- *.
  2: { exists row2. split; [done|]. split; [by apply Hc2|]. split; [apply Ha2|].
       apply Hb2. by rewrite Hm. }
  destruct r; simpl.
  { exists row2. split; [done|]. split; [by apply Hc2|]. split; [apply Ha2|].
    apply Hb2. by rewrite Hm. }
  (* the stage fell through: the later stages leave the count and the flag *)
  match goal with |- context [users (snd (?rest w2))] =>
    pose proof (within_after_the_keyword_stage message (user_of_row row) env w2)
      as (U & _ & _)
  end.
  specialize (U chatId). rewrite Hrow2 in U.
  apply (evolves_invariant _ _
           (λ r, block_count r = block_count row2 ∧ is_blocked r = is_blocked row2))
    in U as (row3 & Hrow3 & Hcount3 & Hblocked3); [| |done].
  2: { intros r f. policy_unfold. destruct f; simpl; tauto. }
  exists row3. split; [exact Hrow3|]. rewrite Hcount3, Hblocked3.
  split; [by apply Hc2|]. split; [apply Ha2|]. apply Hb2. by rewrite Hm.
Qed.

End KeywordStage.

(** *** C5: a hit counts, warns and blocks *)

(** What the stage does when its notices are delivered: a non-empty
    message of a verified, unblocked session that matches a configured
    block pattern raises the persisted count from c to c+1 and is not
    forwarded (only notices to the user go out, the ledger is not written);
    when c+1 reaches the threshold t the session is blocked and the warning
    is followed by the final notice, otherwise the blocked flag keeps its
    value and the warning showing (c+1)/t is all that is sent.  With t = 3
    and a count of 0, three matching messages block the user on the third,
    and two leave the blocked flag as it was with a count of 2. *)
Lemma delivered_hit_counts_and_blocks :
  (∀ (H : Host) env message w row,
     users w !! Message.chat_id message = Some row →
     user_state row = "verified" →
     (is_blocked row =? 1) = false →
     is_command message = false →
     no_pending_input env (Message.chat_id message) w = true →
     Js.truthy (text_of message) = true →
     matches_some (blockKeywords_of env w) (text_of message) = true →
     all_results (net w) = true →
     let chatId := Message.chat_id message in
     let c := block_count row in
     let t := blockThreshold_of env w in
     let w' := run (handlePrivateMessage message env) w in
     let warning :=
       sendMessage chatId
         ("⚠️ 您的消息触发了屏蔽关键词过滤器 (" +:+ pretty (c + 1) +:+ "/"
          +:+ show_number t +:+ "次)，此消息已被丢弃，不会转发给对方。")
         None None None in
     let final :=
       sendMessage chatId
         "❌ 您已多次触发屏蔽关键词，根据设置，您已被自动屏蔽。机器人将不再接收您的任何消息。"
         None None None in
     ∃ row',
       users w' !! chatId = Some row'
       ∧ block_count row' = c + 1
       ∧ messages w' = messages w
       ∧ (Js.reaches (c + 1) t = true →
            is_blocked row' = 1
            ∧ fst <$> calls w' = (fst <$> calls w) ++ [warning; final])
       ∧ (Js.reaches (c + 1) t = false →
            is_blocked row' = is_blocked row
            ∧ fst <$> calls w' = (fst <$> calls w) ++ [warning]))
  ∧ (∀ (H : Host) env chatId keywords m1 m2 m3 w row,
       users w !! chatId = Some row →
       user_state row = "verified" →
       (is_blocked row =? 1) = false →
       block_count row = 0 →
       no_pending_input env chatId w = true →
       JSON_parse_keywords (lookupConfig "block_keywords" env "[]" w) = IsArray keywords →
       blockThreshold_of env w = Js.Finite 3 →
       all_results (net w) = true →
       forallb (hits chatId keywords) [m1; m2; m3] = true →
       (∃ row2, users (deliver env [m1; m2] w) !! chatId = Some row2
                ∧ is_blocked row2 = is_blocked row ∧ block_count row2 = 2)
       ∧ (∃ row3, users (deliver env [m1; m2; m3] w) !! chatId = Some row3
                  ∧ is_blocked row3 = 1 ∧ block_count row3 = 3)).
Proof.
  split.
  - intros H env message w row Hrow Hs Hb Hc Hp Ht Hm R chatId c t w' warning final.
    unfold blockKeywords_of in Hm.
    destruct (getBlockKeywords_frame env w) as (keywords & w1 & Hk & _).
    rewrite Hk in Hm.
    destruct (keyword_stage_run message env w row keywords w1)
      as (Hu & Hcalls & Hms & _); try done.
    fold chatId c t w' in Hu, Hcalls, Hms.
    destruct (hit_row_fields row (c + 1) t) as (Hcount & _ & _ & Hblocked).
    exists (hit_row row (c + 1) t). unfold hit_notices in Hcalls.
    split; [exact Hu|]. split; [exact Hcount|]. split; [exact Hms|].
    split; intros E; rewrite E in *; split; done.
  - intros H env chatId keywords m1 m2 m3 w row Hrow Hs Hb Hc Hp Hk Ht R Hall. split.
    + destruct (hits_below_threshold env chatId keywords 3 [m1; m2] w row)
        as (row2 & Hrow2 & Hcount2 & Hblocked2 & _); try done.
      * simpl in Hall. simpl. apply andb_prop in Hall as [-> Hall].
        apply andb_prop in Hall as [-> _]. done.
      * rewrite Hc. simpl. lia.
      * exists row2. rewrite Hcount2, Hc. done.
    + destruct (hit_at_threshold env chatId keywords 3 [m1; m2] m3 w row)
        as (row3 & Hrow3 & Hcount3 & Hblocked3); try done.
      * rewrite Hc. simpl. lia.
      * exists row3. done.
Qed.

(** The scenario on the sample host: the pattern [spam], the threshold 3. *)
Lemma delivered_hit_counts_and_blocks_on_the_sample :
  let w := Sample.world [("block_keywords", Sample.stringify_keywords ["spam"]);
                         ("block_threshold", "3")]
             [("42", Sample.row "verified" 0 0 None)] [] [] in
  let m := Sample.text_message "42" "20" "buy SPAM now" in
  (∃ row2, users (deliver (H := Sample.host) Sample.env [m; m] w) !! "42" = Some row2
           ∧ is_blocked row2 = 0 ∧ block_count row2 = 2)
  ∧ (∃ row3, users (deliver (H := Sample.host) Sample.env [m; m; m] w) !! "42" = Some row3
             ∧ is_blocked row3 = 1 ∧ block_count row3 = 3).
Proof.
  intros w m.
  apply (proj2 delivered_hit_counts_and_blocks Sample.host Sample.env "42" ["spam"]
           m m m w (Sample.row "verified" 0 0 None)); reflexivity.
Qed.

(** C5 fails on the code when a warning cannot be delivered.  The [try]
    around the body of the keyword loop, whose [catch] is written for an
    invalid pattern, also catches the failed send: the loop goes on with the
    next keyword.  The list holds [spam] and [buy], the session of user 42
    is verified with a count of 0, the threshold is the default 5, and the
    first two sends fail: the one message [buy spam] is counted twice (the
    two warnings show 1/5 and 2/5), and it is forwarded to the thread and
    entered in the ledger. *)
Theorem undelivered_warning_counts_twice_and_forwards :
  let w := Sample.world
             [("block_keywords", Sample.stringify_keywords ["spam"; "buy"])]
             [("42", Sample.row "verified" 0 0 (Some "55"))] []
             [FetchError "network"; FetchError "network"] in
  let message := Sample.text_message "42" "20" "buy spam" in
  let w' := run (handlePrivateMessage (H := Sample.host) message Sample.env) w in
  hits (H := Sample.host) "42" ["spam"; "buy"] message = true
  ∧ calls w' =
      [ (sendMessage "42" "⚠️ 您的消息触发了屏蔽关键词过滤器 (1/5次)，此消息已被丢弃，不会转发给对方。"
           None None None, FetchError "network");
        (sendMessage "42" "⚠️ 您的消息触发了屏蔽关键词过滤器 (2/5次)，此消息已被丢弃，不会转发给对方。"
           None None None, FetchError "network");
        (copyMessage "-100" "42" "20" (Some "55"), Result None) ]
  ∧ users w' !! "42" = Some (Sample.row "verified" 0 2 (Some "55"))
  ∧ messages w' !! ("42", "20")
    = Some {| MessageData.text := "buy spam"; MessageData.date := 1700000000 |}.
Proof. repeat split; vm_compute; reflexivity. Qed.

(** *** C10: a threshold that is no nonzero integer *)

(** C10: when the configured [block_threshold] does not parse as a nonzero
    integer (as the empty string, a non-numeric string and [0] do not), the
    keyword-block stage works with the threshold 5.  Whatever the transport
    answers, a matching message of a verified, unblocked session raises the
    count at least to c+1, and afterwards the session is blocked exactly if
    its count has reached 5: a threshold of [0] does not block at once.
    When the notices are delivered the count is c+1 and the warning shows
    (c+1)/5. *)
Theorem unusable_threshold_means_five :
  (∀ (H : Host) env message w row,
     users w !! Message.chat_id message = Some row →
     user_state row = "verified" →
     (is_blocked row =? 1) = false →
     is_command message = false →
     no_pending_input env (Message.chat_id message) w = true →
     Js.truthy (text_of message) = true →
     matches_some (blockKeywords_of env w) (text_of message) = true →
     unusable (lookupConfig "block_threshold" env "5" w) = true →
     let chatId := Message.chat_id message in
     let c := block_count row in
     let w' := run (handlePrivateMessage message env) w in
     blockThreshold_of env w = Js.Finite 5
     ∧ ∃ row',
         users w' !! chatId = Some row'
         ∧ c + 1 ≤ block_count row'
         ∧ (is_blocked row' = 1 ↔ 5 ≤ block_count row')
         ∧ (all_results (net w) = true →
            block_count row' = c + 1
            ∧ head (drop (length (calls w)) (fst <$> calls w'))
              = Some (sendMessage chatId
                        ("⚠️ 您的消息触发了屏蔽关键词过滤器 (" +:+ pretty (c + 1)
                         +:+ "/5次)，此消息已被丢弃，不会转发给对方。")
                        None None None)))
  ∧ unusable "" = true
  ∧ unusable "abc" = true
  ∧ unusable "0" = true.
Proof.
  split; [|repeat split; vm_compute; reflexivity].
  intros H env message w row Hrow Hs Hb Hc Hp Ht Hm Hz chatId c w'.
  assert (H5 : blockThreshold_of env w = Js.Finite 5).
  { unfold blockThreshold_of, Js.number_or. unfold unusable in Hz.
    destruct (Js.parseInt _) as [[z| |]|]; try done. now rewrite Hz. }
  split; [exact H5|].
  destruct (keyword_stage_rows message env w row) as (row' & Hrow' & Hle & Hiff);
    try done.
  fold chatId c w' in Hrow', Hle. rewrite H5 in Hiff. cbn [Js.reaches] in Hiff.
  exists row'. split; [exact Hrow'|]. split; [exact Hle|].
  split; [by rewrite Hiff, Z.leb_le|].
  intros R. unfold blockKeywords_of in Hm.
  destruct (getBlockKeywords_frame env w) as (keywords & w1 & Hk & _).
  rewrite Hk in Hm.
  destruct (keyword_stage_run message env w row keywords w1)
    as (Hu & Hcalls & _); try done.
  fold chatId c w' in Hu, Hcalls. rewrite H5 in Hu, Hcalls.
  rewrite Hrow' in Hu. injection Hu as ->.
  destruct (hit_row_fields row (c + 1) (Js.Finite 5)) as (Hcount & _).
  split; [exact Hcount|].
  rewrite Hcalls, <- (length_fmap fst (calls w)), drop_app_length.
  unfold hit_notices. done.
Qed.

(** A threshold of [0], the patterns [spam] and [buy], a count of 3, and a
    transport that fails once: the message is counted twice and the session
    is blocked with a count of 5, not before. *)
Lemma unusable_threshold_means_five_witness :
  let w := Sample.world [("block_keywords", Sample.stringify_keywords ["spam"; "buy"]);
                         ("block_threshold", "0")]
             [("42", Sample.row "verified" 0 3 None)] [] [FetchError "network"] in
  let m := Sample.text_message "42" "20" "buy SPAM now" in
  ∃ row', users (run (handlePrivateMessage (H := Sample.host) m Sample.env) w) !! "42"
            = Some row'
          ∧ 4 ≤ block_count row'
          ∧ (is_blocked row' = 1 ↔ 5 ≤ block_count row').
Proof.
  intros w m.
  destruct (proj1 unusable_threshold_means_five Sample.host Sample.env m w
              (Sample.row "verified" 0 3 None))
    as (_ & row' & Hrow' & Hcount & Hblocked & _); try reflexivity.
  exists row'. split; [exact Hrow'|]. split; [exact Hcount | exact Hblocked].
Defined.

(** ** C6: the content-type filter *)

Lemma isPureText_category message :
  isPureText message = true ↔ primaryCategory message = Some PlainText.
Proof.
  unfold isPureText, primaryCategory, is_forward.
  destruct (has_text message), (Message.photo message), (Message.video message),
    (Message.document message), (Message.sticker message), (Message.audio message),
    (Message.voice message), (Message.forward_from message),
    (Message.animation message), (Message.forward_from_chat message);
    simpl; split; (done || intros; exfalso; done).
Qed.

Lemma contentFilter_by_category filters message :
  contentFilter filters message = filter_by_category filters message.
Proof.
  unfold contentFilter, filter_by_category.
  destruct (primaryCategory message) as [c|] eqn:Ec.
  - assert (Hp : isPureText message = if c is PlainText then true else false).
    { destruct c, (isPureText message) eqn:E; try done.
      all: try (apply isPureText_category in E; congruence).
      apply isPureText_category in Ec. congruence. }
    unfold textCheck, linkCheck, categoryCheck, link_decision. rewrite Hp.
    unfold primaryCategory in Ec.
    destruct (is_forward message).
    { injection Ec as <-. 
      destruct (any_forward filters); simpl; [|done].
      destruct (bool_decide _ && negb (channel_forward filters)); simpl; [done|].
      destruct (hasLinks message), (link filters); done. }
    destruct (Message.audio message || Message.voice message).
    { injection Ec as <-. destruct (audio_voice filters); simpl; [|done].
      destruct (hasLinks message), (link filters); done. }
    destruct (Message.sticker message || Message.animation message).
    { injection Ec as <-. destruct (sticker_gif filters); simpl; [|done].
      destruct (hasLinks message), (link filters); done. }
    destruct (Message.photo message || Message.video message || Message.document message).
    { injection Ec as <-. destruct (media filters); simpl; [|done].
      destruct (hasLinks message), (link filters); done. }
    destruct (has_text message); [|done]. injection Ec as <-. simpl.
    destruct (hasLinks message), (link filters), (text_ filters); done.
  - assert (Hp : isPureText message = false).
    { destruct (isPureText message) eqn:E; [|done].
      apply isPureText_category in E. congruence. }
    unfold textCheck, linkCheck, categoryCheck, link_decision. rewrite Hp.
    unfold primaryCategory in Ec.
    destruct (is_forward message); [done|].
    destruct (Message.audio message || Message.voice message); [done|].
    destruct (Message.sticker message || Message.animation message); [done|].
    destruct (Message.photo message || Message.video message || Message.document message);
      [done|].
    destruct (hasLinks message), (link filters); done.
Qed.

(** C6, as the code has it: the content filter puts a message into at most
    one primary category, by the precedence forwarded, audio/voice,
    sticker/animation, media, plain text (into exactly one when the message
    has text or one of these payloads, into none otherwise), and decides as
    that category's switch says; the category checks of the first four run
    before the link check, and the link check runs before the plain text
    check.  So a channel post that is forwarded and contains a link, with
    forwards enabled and channel forwards disabled, is dropped for the
    channel forward, whatever the link switch. *)
Theorem content_filter_goes_by_category filters message :
  contentFilter filters message = filter_by_category filters message
  ∧ (has_content message = true → is_Some (primaryCategory message))
  ∧ (∀ others, same_switches (primaryCategory message) filters others →
       contentFilter others message = contentFilter filters message)
  ∧ (fst (categoryCheck filters message) = false →
       contentFilter filters message = categoryCheck filters message)
  ∧ (Message.forward_from_chat message = Some "channel" →
     any_forward filters = true → channel_forward filters = false →
     contentFilter filters message = (false, "频道转发消息")).
Proof.
  split; [apply contentFilter_by_category|]. split; [|split; [|split]].
  - unfold has_content, primaryCategory.
    destruct (is_forward message); [by eexists|].
    destruct (Message.audio message), (Message.voice message); try (by eexists).
    destruct (Message.sticker message), (Message.animation message); try (by eexists).
    destruct (Message.photo message), (Message.video message),
      (Message.document message); try (by eexists).
    simpl. intros ->. by eexists.
  - intros others [Hl Hs]. rewrite !contentFilter_by_category.
    unfold filter_by_category, link_decision.
    destruct (primaryCategory message) as [[]|]; simpl in Hs; rewrite <- ?Hl.
    + destruct Hs as [Ha Hc]. now rewrite Ha, Hc.
    + now rewrite Hs.
    + now rewrite Hs.
    + now rewrite Hs.
    + now rewrite Hs.
    + done.
  - unfold contentFilter, textCheck, linkCheck.
    destruct (categoryCheck filters message) as [[] reason]; simpl; done.
  - intros Hch Hany Hchannel. rewrite contentFilter_by_category.
    unfold filter_by_category, primaryCategory, is_forward.
    rewrite Hch, Hany, Hchannel. rewrite orb_true_r. done.
Qed.

Lemma content_filter_goes_by_category_witness :
  contentFilter (switches true false true true) channel_post_with_link
  = (false, "频道转发消息").
Proof.
  apply (content_filter_goes_by_category (switches true false true true)
           channel_post_with_link); reflexivity.
Defined.

(** C6 as stated fails twice.  A plain text with a link, when both the text
    switch and the link switch are off, is dropped for the link: there the
    link check comes before the category check.  And a message without text
    and without any of the payloads (a shared location) belongs to none of
    the five categories: it passes with every switch off. *)
Lemma content_filter_category_exceptions :
  primaryCategory plain_text_with_link = Some PlainText
  ∧ contentFilter (switches true true false false) plain_text_with_link
    = (false, "包含链接的内容")
  ∧ categoryCheck (switches true true false false) plain_text_with_link = (true, "")
  ∧ primaryCategory location_message = None
  ∧ contentFilter all_off location_message = (true, "")
  ∧ (let w := Sample.world
                [("enable_image_forwarding", "false"); ("enable_link_forwarding", "false");
                 ("enable_text_forwarding", "false"); ("enable_channel_forwarding", "false");
                 ("enable_forward_forwarding", "false"); ("enable_audio_forwarding", "false");
                 ("enable_sticker_forwarding", "false")]
                [("42", Sample.row "verified" 0 0 (Some "100"))] [] [] in
     fst <$> calls (run (handlePrivateMessage (H := Sample.host) location_message
                           Sample.env) w)
     = [copyMessage "-100" "42" "32" (Some "100")]).
Proof. repeat split; vm_compute; reflexivity. Qed.

(** ** C7: edit reconciliation *)

Section Edits.
Context `{Host}.

(** What the handler does for a session with a bound thread. *)
Lemma handleRelayEditedMessage_run editedMessage env w row topicId :
  users w !! From.id (Message.from editedMessage) = Some row →
  topic_of (topic_id row) = Some topicId →
  let uid := From.id (Message.from editedMessage) in
  let M := Message.message_id editedMessage in
  let original :=
    match messages w !! (uid, M) with
    | Some storedData =>
        (if Js.truthy (MessageData.text storedData)
         then MessageData.text storedData else original_unavailable,
         toLocaleString (MessageData.date storedData))
    | None => (original_unavailable, date_unavailable)
    end in
  let w1 :=
    match messages w !! (uid, M) with
    | Some storedData =>
        with_messages
          <[(uid, M) := {| MessageData.text := edited_content editedMessage "";
                           MessageData.date := MessageData.date storedData |}]> w
    | None => w
    end in
  handleRelayEditedMessage editedMessage env w =
    (Ok tt,
     answered (sendMessage (ADMIN_GROUP_ID env)
                 (editNotification (fst original) (snd original)
                    (edited_content editedMessage no_text_content))
                 (Some topicId) (Some "HTML") None) w1).
Proof.
  intros Hrow Ht uid M original w1. unfold handleRelayEditedMessage.
  erewrite bind_ok by (apply dbUserGetOrCreate_found; exact Hrow).
  change (User.topic_id (user_of_row row)) with (topic_id row). rewrite Ht.
  fold uid M. erewrite bind_ok by reflexivity.
  subst original w1. destruct (messages w !! (uid, M)) as [storedData|].
  - erewrite bind_ok by reflexivity. unfold try_catch, mbind, M_bind.
    rewrite telegramApi_run. simpl. now destruct (outcome _ _).
  - erewrite bind_ok by reflexivity. unfold try_catch, mbind, M_bind.
    rewrite telegramApi_run. simpl. now destruct (outcome _ _).
Qed.

(** C7, as the code has it: for a session bound to a thread, an edit of
    message M to the non-empty text B, when the ledger holds the non-empty
    text A sent at T for M, sends the thread the notification that shows A
    as the original, T as its time and B as the new content, and leaves the
    ledger entry of M with the text B and the time T; when the ledger has no
    entry for M, the notification shows the placeholders for the original
    and its time and still the new text B, it is still sent to the thread,
    and the ledger stays as it was. *)
Theorem edit_reconciliation_round_trip editedMessage env w row topicId b :
  users w !! From.id (Message.from editedMessage) = Some row →
  topic_of (topic_id row) = Some topicId →
  Message.text editedMessage = Some b →
  Js.truthy b = true →
  let uid := From.id (Message.from editedMessage) in
  let M := Message.message_id editedMessage in
  let w' := run (handleRelayEditedMessage editedMessage env) w in
  let report originalText originalDate newContent :=
    Js.trim ("
⚠️ <b>用户消息已修改</b>
---
<b>原始信息:</b> 
<code>" +:+ escapeHtml originalText +:+ "</code>

<b>原消息发送时间:</b> 
<code>" +:+ originalDate +:+ "</code>

<b>修改后的新内容:</b>
" +:+ escapeHtml newContent +:+ "
    ") in
  let notify text :=
    (sendMessage (ADMIN_GROUP_ID env) text (Some topicId) (Some "HTML") None,
     next_reply w) in
  (∀ a T,
     messages w !! (uid, M) = Some {| MessageData.text := a; MessageData.date := T |} →
     Js.truthy a = true →
     calls w' = calls w ++ [notify (report a (toLocaleString T) b)]
     ∧ messages w' !! (uid, M) = Some {| MessageData.text := b; MessageData.date := T |}
     ∧ users w' = users w)
  ∧ (messages w !! (uid, M) = None →
     calls w' = calls w
                ++ [notify (report "[原始内容无法获取/非文本内容]" "[发送时间无法获取]" b)]
     ∧ messages w' = messages w
     ∧ users w' = users w).
Proof.
  intros Hrow Ht Hb Hbt uid M w' report notify.
  assert (Hc : ∀ d, edited_content editedMessage d = b).
  { intros d. unfold edited_content. now rewrite Hb, Hbt. }
  subst w'. unfold run.
  rewrite (handleRelayEditedMessage_run editedMessage env w row topicId Hrow Ht).
  fold uid M. rewrite !Hc. split.
  - intros a T Hstored Ha. rewrite Hstored. simpl. rewrite Ha.
    now rewrite lookup_insert_eq.
  - intros Hnone. now rewrite Hnone.
Qed.

End Edits.

(** The entry (A, T) for message 40 of user 42, and the edit to B. *)
Lemma edit_reconciliation_round_trip_witness :
  let T := 1700000000 in
  let w := Sample.world [] [("42", Sample.row "verified" 0 0 (Some "100"))]
             [("42", "40", {| MessageData.text := "A"; MessageData.date := T |})] [] in
  let w' := run (handleRelayEditedMessage (H := Sample.host)
                   (Sample.text_message "42" "40" "B") Sample.env) w in
  calls w' =
    [ (sendMessage "-100" "⚠️ <b>用户消息已修改</b>
---
<b>原始信息:</b> 
<code>A</code>

<b>原消息发送时间:</b> 
<code>epoch 1700000000</code>

<b>修改后的新内容:</b>
B" (Some "100") (Some "HTML") None, Result None) ]
  ∧ messages w' !! ("42", "40")
    = Some {| MessageData.text := "B"; MessageData.date := T |}.
Proof.
  intros T w w'.
  destruct (edit_reconciliation_round_trip (H := Sample.host)
              (Sample.text_message "42" "40" "B") Sample.env w
              (Sample.row "verified" 0 0 (Some "100")) "100" "B")
    as [Hpresent _]; try reflexivity.
  destruct (Hpresent "A" T) as (Hcalls & Hledger & _); try reflexivity.
  split; [exact Hcalls | exact Hledger].
Defined.

(** C7 as stated fails for a session that is bound to no thread.  User
    42 writes [A], which is copied to thread 55 and entered in the ledger;
    the copy of the next message fails and so does the creation of a
    replacement thread, which leaves the session without a thread; the edit
    of the first message to [B] is then not reported and the ledger keeps
    [A]. *)
Lemma edit_in_a_threadless_session_is_ignored :
  let T := 1700000000 in
  let w := Sample.world [] [("42", Sample.row "verified" 0 0 (Some "55"))] []
             [Result None; NotOk "message thread not found"; NotOk "not enough rights"] in
  let w1 := deliver (H := Sample.host) Sample.env
              [Sample.text_message "42" "40" "A"; Sample.text_message "42" "41" "more"] w in
  let w2 := run (handleRelayEditedMessage (H := Sample.host)
                   (Sample.text_message "42" "40" "B") Sample.env) w1 in
  messages w1 !! ("42", "40") = Some {| MessageData.text := "A"; MessageData.date := T |}
  ∧ topic_id <$> users w1 !! "42" = Some None
  ∧ calls w2 = calls w1
  ∧ messages w2 !! ("42", "40")
    = Some {| MessageData.text := "A"; MessageData.date := T |}.
Proof. repeat split; vm_compute; reflexivity. Qed.

(** ** C9: who may press the buttons *)

Section Callbacks.
Context `{Host}.

(** C9, as the code has it: a [config] callback of a sender who is not an
    admin is rejected with an alert and changes no stored state.  For
    [block], [unblock] and [pin_card] the sender is not looked at: the gate
    is the chat of the message under the button; outside the admin group the
    callback is ignored without any reply and without any change, and
    inside it the callback is served the same for every sender. *)
Theorem callback_permissions callbackQuery env w :
  let data := CallbackQuery.data callbackQuery in
  let message := CallbackQuery.message callbackQuery in
  (Js.startsWith data "config:" = true →
   isAdminUser (CallbackQuery.from_id callbackQuery) env = false →
   let w' := run (handleCallbackQuery callbackQuery env) w in
   calls w' = calls w ++ [(answerCallbackQuery (CallbackQuery.id callbackQuery)
                             no_permission true, next_reply w)]
   ∧ config w' = config w ∧ users w' = users w ∧ messages w' = messages w)
  ∧ (Js.startsWith data "config:" = false →
     Message.chat_id message ≠ ADMIN_GROUP_ID env →
     handleCallbackQuery callbackQuery env w = (Ok tt, w))
  ∧ (Js.startsWith data "config:" = false →
     ∀ sender,
       handleCallbackQuery (with_sender callbackQuery sender) env w
       = handleCallbackQuery callbackQuery env w).
Proof.
  intros data message. split; [|split].
  - intros Hd Ha w'. subst w'. unfold run, handleCallbackQuery.
    fold data. rewrite Hd, Ha. simpl. unfold mbind, M_bind.
    rewrite telegramApi_run. now destruct (outcome _ _).
  - intros Hd Hc. unfold handleCallbackQuery. fold data message. rewrite Hd.
    now rewrite bool_decide_eq_false_2.
  - intros Hd sender. unfold handleCallbackQuery, with_sender. simpl.
    fold data. now rewrite Hd.
Qed.

End Callbacks.

Lemma callback_permissions_witness :
  let q := press "7" "config:toggle:enable_text_forwarding:false" (bot_message "7" "50" None) in
  let w := Sample.world [] [("42", Sample.row "verified" 0 0 (Some "100"))] [] [] in
  let w' := run (handleCallbackQuery (H := Sample.host) q Sample.env) w in
  calls w' = [(answerCallbackQuery "900" no_permission true, Result None)]
  ∧ config w' = config w ∧ users w' = users w ∧ messages w' = messages w.
Proof.
  intros q w w'.
  apply (callback_permissions (H := Sample.host) q Sample.env w); reflexivity.
Defined.

(** C9 as stated fails for the block family: user 7, who is not an admin,
    presses the block button of user 42's card in the admin group; no alert
    is raised and user 42 is blocked. *)
Lemma non_admin_blocks_from_the_group :
  let q := press "7" "block:42" (bot_message "-100" "50" (Some "100")) in
  let w := Sample.world [] [("42", Sample.row "verified" 0 0 (Some "100"))] [] [] in
  let w' := run (handleCallbackQuery (H := Sample.host) q Sample.env) w in
  isAdminUser "7" Sample.env = false
  ∧ users w' !! "42" = Some (Sample.row "verified" 1 0 (Some "100"))
  ∧ fst <$> calls w' =
      [ answerCallbackQuery "900" "执行动作: 屏蔽..." false;
        editMessageReplyMarkup "-100" "50" (getInfoCardButtons "42" true);
        sendMessage "-100" "❌ **用户 [User 42] 已被屏蔽。**
机器人将不再接收此人消息。" (Some "100") (Some "Markdown") None ].
Proof. repeat split; vm_compute; reflexivity. Qed.

(** ** C8: the callback data of the delete buttons *)

(** Splitting on the colon: a segment without colon comes back whole. *)
Lemma rev_app_rev_app (s a b : string) :
  String.rev_app (String.rev_app s a) b = String.rev_app a (s +:+ b).
Proof. revert a. induction s as [|x s IH]; intros a; simpl; [done|]. now rewrite IH. Qed.

Lemma app_empty (s : string) : s +:+ "" = s.
Proof.
  induction s as [|x s IH]; [done|].
  change (String x (s +:+ "") = String x s). now rewrite IH.
Qed.

Lemma rev_rev_app (s : string) : String.rev (String.rev_app s "") = s.
Proof. unfold String.rev. rewrite rev_app_rev_app. simpl. apply app_empty. Qed.

Lemma prefix_colon (a : ascii) (r : string) :
  String.prefix ":" (String a r) = Ascii.eqb a ":".
Proof.
  cbn [String.prefix]. destruct (ascii_dec ":" a) as [<-|Hne].
  - now destruct r.
  - symmetry. apply Ascii.eqb_neq. congruence.
Qed.

Lemma split_go_segment (s cur rest : string) :
  has_char ":" s = false →
  Js.split_go ":" 0 cur (s +:+ String ":" rest)
  = String.rev (String.rev_app s cur) :: Js.split_go ":" 0 "" rest.
Proof.
  revert cur. induction s as [|a s IH]; intros cur Hs.
  - simpl. now destruct rest.
  - simpl in Hs. apply orb_false_elim in Hs as [Ha Hs].
    change (String a s +:+ String ":" rest) with (String a (s +:+ String ":" rest)).
    cbn [Js.split_go]. rewrite prefix_colon, Ha. now apply IH.
Qed.

Lemma split_go_last (s cur : string) :
  has_char ":" s = false →
  Js.split_go ":" 0 cur s = [String.rev (String.rev_app s cur)].
Proof.
  revert cur. induction s as [|a s IH]; intros cur Hs; [done|].
  simpl in Hs. apply orb_false_elim in Hs as [Ha Hs].
  cbn [Js.split_go]. rewrite prefix_colon, Ha. now apply IH.
Qed.

(** The delete buttons do round-trip for identities without a colon: the
    handler is asked to delete exactly what the button was made for. *)
Lemma delete_data_round_trips_without_colon (key deleteId : string) (index : nat) :
  has_char ":" key = false → has_char ":" deleteId = false →
  Js.truthy key = true → Js.truthy deleteId = true →
  ∃ data,
    callback_data_of [deleteButton key index deleteId] = [data]
    ∧ configAction (Js.split ":" data) = Delete key deleteId.
Proof.
  intros Hk Hi Tk Ti. eexists. split; [reflexivity|].
  unfold Js.split. cbn [Button.callback_data].
  change ("config:delete:" +:+ key +:+ ":" +:+ deleteId)
    with ("config" +:+ String ":" ("delete" +:+ String ":" (key +:+ String ":" deleteId))).
  rewrite (split_go_segment "config") by reflexivity.
  rewrite (split_go_segment "delete") by reflexivity.
  rewrite (split_go_segment key) by exact Hk.
  rewrite (split_go_last deleteId) by exact Hi.
  rewrite !rev_rev_app. unfold configAction, part. simpl.
  now rewrite Tk, Ti.
Qed.

(** C8 fails on the code for a block keyword that contains a colon.  The
    list view puts the keyword [a:b] into its delete button as it is; the
    handler splits the data on every colon and takes the fourth segment, so
    it is asked to delete [a]: it stores the list unchanged and still
    announces the deletion.  The keyword [spam] next to it is deleted. *)
Lemma delete_button_loses_a_keyword_with_a_colon :
  let stored := Sample.stringify_keywords ["a:b"; "spam"] in
  let w := Sample.world [("block_keywords", stored)] [] [] [] in
  let menu := bot_message "1" "60" None in
  let buttons :=
    ruleButtons "block_keywords" "config:menu:keyword"
      (imap (keywordRow (H := Sample.host)) ["a:b"; "spam"]) in
  let pressed := run (handleCallbackQuery (H := Sample.host)
                        (press "1" "config:delete:block_keywords:a:b" menu) Sample.env) w in
  let pressed2 := run (handleCallbackQuery (H := Sample.host)
                         (press "1" "config:delete:block_keywords:spam" menu) Sample.env) w in
  callback_data_of buttons =
    ["config:delete:block_keywords:a:b"; "config:delete:block_keywords:spam";
     "config:menu:keyword"]
  ∧ configAction (Js.split ":" "config:delete:block_keywords:a:b")
    = Delete "block_keywords" "a"
  ∧ config pressed !! "block_keywords" = Some stored
  ∧ (fst <$> calls pressed) !! 1%nat
    = Some (answerCallbackQuery "1" (deleted_notice "屏蔽关键词") false)
  ∧ config pressed2 !! "block_keywords" = Some (Sample.stringify_keywords ["a:b"]).
Proof. repeat split; vm_compute; reflexivity. Qed.


(** * Further properties of the code *)
Section FootprintProperties.
Context `{Host}.

(** X1.  A private message touches no session other than those of its chat and
    its sender, whatever its content and whatever the transport answers. *)
Theorem private_message_leaves_other_sessions message env w u :
  u ≠ Message.chat_id message →
  u ≠ From.id (Message.from message) →
  users (run (handlePrivateMessage message env) w) !! u = users w !! u.
Proof.
  intros Hc Hf.
  destruct (within_handlePrivateMessage message env w) as (U & _ & _).
  eapply evolves_frozen; [| | apply U]; unfold message_policy;
    destruct (is_command message), (isAdminUser _ env); simpl; intuition done.
Qed.

(** X2.  A private message writes no ledger entry other than its own. *)
Theorem private_message_leaves_other_ledger_entries message env w k :
  k ≠ (From.id (Message.from message), Message.message_id message) →
  messages (run (handlePrivateMessage message env) w) !! k = messages w !! k.
Proof.
  intros Hk.
  destruct (within_handlePrivateMessage message env w) as (_ & _ & L).
  destruct (L k) as [Hm|E]; [|done]. exfalso. revert Hm. unfold message_policy.
  destruct (is_command message), (isAdminUser _ env); simpl; intuition done.
Qed.

Lemma private_message_keeps_blocked message env w u row :
  users w !! u = Some row → is_blocked row = 1 →
  ∃ row', users (run (handlePrivateMessage message env) w) !! u = Some row'
          ∧ is_blocked row' = 1.
Proof.
  intros Hrow Hb.
  destruct (within_handlePrivateMessage message env w) as (U & _ & _).
  specialize (U u). rewrite Hrow in U.
  eapply (evolves_invariant _ _ (λ row, is_blocked row = 1)); [| apply U | done].
  unfold message_policy.
  destruct (is_command message), (isAdminUser _ env); intros r []; simpl;
    intuition (subst; done).
Qed.

(** X3.  No sequence of private messages unblocks a session or removes its row:
    a blocked session is still there and still blocked afterwards, whoever
    wrote the messages and whatever the transport answered. *)
Theorem private_messages_never_unblock env msgs w u row :
  users w !! u = Some row → is_blocked row = 1 →
  ∃ row', users (deliver env msgs w) !! u = Some row' ∧ is_blocked row' = 1.
Proof.
  revert w row. induction msgs as [|message rest IH]; intros w row Hrow Hb; simpl.
  - eauto.
  - destruct (private_message_keeps_blocked message env w u row Hrow Hb)
      as (row' & Hrow' & Hb').
    exact (IH _ row' Hrow' Hb').
Qed.

(** X4.  A private message of a user who is not an admin changes no
    configuration key other than the two rule lists (which reading converts
    from the legacy format): no scalar, no switch, no pending edit. *)
Theorem non_admin_message_leaves_the_configuration message env w k :
  isAdminUser (Message.chat_id message) env = false →
  k ≠ "block_keywords" → k ≠ "keyword_responses" →
  config (run (handlePrivateMessage message env) w) !! k = config w !! k.
Proof.
  intros Ha Hb Hr.
  destruct (within_handlePrivateMessage message env w) as (_ & C & _).
  destruct (C k) as [Hm|E]; [|done]. exfalso. revert Hm. unfold message_policy.
  rewrite Ha. destruct (is_command message); simpl; set_unfold; tauto.
Qed.

(** The tables a policy does not write at all are as they were. *)
Lemma admits_same_config p w w' :
  (∀ k, ¬ may_config p k) → admits p w w' → config w' = config w.
Proof. intros Hn (_ & C & _). apply map_eq. intros k. destruct (C k); [by destruct (Hn k) | done]. Qed.

Lemma admits_same_messages p w w' :
  (∀ k, ¬ may_write p k) → admits p w w' → messages w' = messages w.
Proof. intros Hn (_ & _ & L). apply map_eq. intros k. destruct (L k); [by destruct (Hn k) | done]. Qed.

Lemma admits_same_users p w w' :
  (∀ u f, ¬ may_set p u f) → (∀ u, ¬ may_create p u) → admits p w w' →
  users w' = users w.
Proof.
  intros Hs Hc (U & _ & _). apply map_eq. intros u.
  eapply evolves_frozen; [apply Hs | apply Hc | apply U].
Qed.

(** X5.  Handling an edited message changes no configuration; among the rows
    it changes nothing except that it inserts the default row of the
    sender when the sender has none; and in the ledger it can only
    overwrite the entry of the edited message: it creates no entry and
    touches no other. *)
Theorem edit_notification_footprint editedMessage env w :
  let w' := run (handleRelayEditedMessage editedMessage env) w in
  let sender := From.id (Message.from editedMessage) in
  config w' = config w
  ∧ (∀ u, users w' !! u = users w !! u
          ∨ (u = sender ∧ users w !! u = None ∧ users w' !! u = Some default_row))
  ∧ (∀ k, messages w !! k = None → messages w' !! k = None)
  ∧ (∀ k, k ≠ (sender, Message.message_id editedMessage) →
          messages w' !! k = messages w !! k).
Proof.
  intros w' sender.
  pose proof (within_handleRelayEditedMessage editedMessage env w) as Hw.
  fold (run (handleRelayEditedMessage editedMessage env) w) in Hw. fold w' in Hw.
  split; [|split; [|split]].
  - eapply admits_same_config; [|exact Hw]. simpl. tauto.
  - intros u. destruct Hw as (U & _ & _). specialize (U u).
    destruct (users w !! u) as [row|] eqn:Hrow.
    + left. eapply evolves_kept; [|exact U]. simpl. tauto.
    + destruct (users w' !! u) as [row'|] eqn:Hrow'; [|by left].
      right. simpl in U. destruct U as [[Hu|[]] R].
      apply reach_frozen in R; [|simpl; tauto]. by subst.
  - intros k Hk. subst w'. unfold run.
    destruct (users w !! From.id (Message.from editedMessage)) as [row|] eqn:Hrow.
    + destruct (topic_of (topic_id row)) as [topicId|] eqn:Ht.
      * rewrite (handleRelayEditedMessage_run _ _ _ _ _ Hrow Ht). simpl.
        destruct (messages w !! (_, _)) as [storedData|] eqn:Hs; simpl; [|done].
        rewrite lookup_insert_ne; [done|]. intros <-. congruence.
      * unfold handleRelayEditedMessage.
        erewrite bind_ok by (apply dbUserGetOrCreate_found; exact Hrow).
        change (User.topic_id (user_of_row row)) with (topic_id row). by rewrite Ht.
    + unfold handleRelayEditedMessage, dbUserGetOrCreate, get_world, mbind, M_bind.
      by rewrite Hrow.
  - intros k Hk. destruct Hw as (_ & _ & L).
    destruct (L k) as [Hm|E]; [|done]. simpl in Hm. tauto.
Qed.

(** X6.  A press of a configuration button touches no session row and no ledger
    entry, whoever presses it and whatever its data. *)
Theorem config_button_leaves_sessions_and_ledger callbackQuery env w :
  Js.startsWith (CallbackQuery.data callbackQuery) "config:" = true →
  let w' := run (handleCallbackQuery callbackQuery env) w in
  users w' = users w ∧ messages w' = messages w.
Proof.
  intros Hd w'. pose proof (within_handleCallbackQuery callbackQuery env w) as Hw.
  unfold callback_policy in Hw. rewrite Hd in Hw. split.
  - eapply admits_same_users; [| |exact Hw];
      destruct (isAdminUser _ env); simpl; tauto.
  - eapply admits_same_messages; [|exact Hw];
      destruct (isAdminUser _ env); simpl; tauto.
Qed.

(** X7.  A press of a card button (block, unblock, pin) changes no configuration
    and no ledger entry, and no session row other than the one its data
    names. *)
Theorem card_button_footprint callbackQuery env w :
  Js.startsWith (CallbackQuery.data callbackQuery) "config:" = false →
  let w' := run (handleCallbackQuery callbackQuery env) w in
  config w' = config w ∧ messages w' = messages w
  ∧ ∀ u, Js.split ":" (CallbackQuery.data callbackQuery) !! 1%nat ≠ Some u →
         users w' !! u = users w !! u.
Proof.
  intros Hd w'. pose proof (within_handleCallbackQuery callbackQuery env w) as Hw.
  unfold callback_policy in Hw. rewrite Hd in Hw.
  split; [|split].
  - eapply admits_same_config; [|exact Hw].
    destruct (Js.split ":" _) as [|action [|userId rest]]; simpl; try tauto.
    repeat case_bool_decide; simpl; tauto.
  - eapply admits_same_messages; [|exact Hw].
    destruct (Js.split ":" _) as [|action [|userId rest]]; simpl; try tauto.
    repeat case_bool_decide; simpl; tauto.
  - intros u Hu. destruct Hw as (U & _ & _).
    eapply evolves_frozen; [| |apply U];
      destruct (Js.split ":" _) as [|action [|userId rest]]; simpl in *; try tauto;
      repeat case_bool_decide; simpl; try tauto;
      intuition (subst; congruence).
Qed.

End FootprintProperties.

Lemma private_message_leaves_other_sessions_witness :
  let message := Sample.text_message "42" "10" "hello" in
  let w := Sample.world [] [("7", Sample.row "verified" 0 0 (Some "55"))] []
             [NotOk "gone"] in
  users (run (handlePrivateMessage (H := Sample.host) message Sample.env) w) !! "7" = users w !! "7".
Proof.
  intros message w.
  apply (private_message_leaves_other_sessions (H := Sample.host) message Sample.env w "7"); done.
Defined.

Lemma private_message_leaves_other_ledger_entries_witness :
  let message := Sample.text_message "42" "11" "again" in
  let w := Sample.world [] [("42", Sample.row "verified" 0 0 (Some "55"))]
             [("42", "10", {| MessageData.text := "hello"; MessageData.date := 5 |})] [] in
  messages (run (handlePrivateMessage (H := Sample.host) message Sample.env) w) !! ("42", "10")
  = messages w !! ("42", "10").
Proof.
  intros message w.
  apply (private_message_leaves_other_ledger_entries (H := Sample.host) message Sample.env w ("42", "10")).
  done.
Defined.

Lemma private_messages_never_unblock_witness :
  let w := Sample.world [] [("42", Sample.row "verified" 1 5 (Some "55"))] [] [] in
  ∃ row', users (deliver (H := Sample.host) Sample.env
                   [Sample.text_message "42" "10" "/start";
                    Sample.text_message "42" "11" "3";
                    Sample.text_message "1" "12" "hello"] w) !! "42" = Some row'
          ∧ is_blocked row' = 1.
Proof.
  intros w.
  apply (private_messages_never_unblock (H := Sample.host) Sample.env _ w "42"
           (Sample.row "verified" 1 5 (Some "55"))); reflexivity.
Defined.

Lemma non_admin_message_leaves_the_configuration_witness :
  let message := Sample.text_message "42" "10" "/start" in
  let w := Sample.world [("verif_a", "7")] [] [] [] in
  config (run (handlePrivateMessage (H := Sample.host) message Sample.env) w) !! "verif_a"
  = config w !! "verif_a".
Proof.
  intros message w.
  apply (non_admin_message_leaves_the_configuration (H := Sample.host) message Sample.env w "verif_a");
    done.
Defined.

Lemma config_button_leaves_sessions_and_ledger_witness :
  let q := press "1" "config:toggle:enable_text_forwarding:false"
             (bot_message "1" "70" None) in
  let w := Sample.world [] [("42", Sample.row "verified" 0 0 (Some "55"))] [] [] in
  let w' := run (handleCallbackQuery (H := Sample.host) q Sample.env) w in
  users w' = users w ∧ messages w' = messages w.
Proof.
  intros q w. apply (config_button_leaves_sessions_and_ledger (H := Sample.host) q Sample.env w).
  reflexivity.
Defined.

Lemma card_button_footprint_witness :
  let q := press "7" "unblock:42" (bot_message "-100" "70" (Some "55")) in
  let w := Sample.world [("verif_a", "7")]
             [("42", Sample.row "verified" 1 5 (Some "55"));
              ("43", Sample.row "verified" 1 5 (Some "56"))] [] [] in
  let w' := run (handleCallbackQuery (H := Sample.host) q Sample.env) w in
  config w' = config w ∧ messages w' = messages w
  ∧ ∀ u, Js.split ":" (CallbackQuery.data q) !! 1%nat ≠ Some u →
         users w' !! u = users w !! u.
Proof.
  intros q w. apply (card_button_footprint (H := Sample.host) q Sample.env w). reflexivity.
Defined.

(** ** The admin's edit session ends with the input *)

Lemma never_throws_ret {A} (a : A) : never_throws (mret a).
Proof. intros w. by exists a. Qed.

Lemma never_throws_bind {A B} (m : M A) (f : A → M B) :
  never_throws m → (∀ a, never_throws (f a)) → never_throws (m ≫= f).
Proof.
  intros Hm Hf w. destruct (Hm w) as [a Ha]. unfold mbind, M_bind.
  destruct (m w) as [[a'|e] w1]; simpl in *; [apply Hf | done].
Qed.

Lemma never_throws_modify f : never_throws (modify f).
Proof. intros w. by exists tt. Qed.

Lemma never_throws_fresh_id : never_throws fresh_id.
Proof. intros w. unfold fresh_id. destruct (clock w); eauto. Qed.

Lemma never_throws_getConfig key env d : never_throws (getConfig key env d).
Proof. intros w. rewrite getConfig_run. eauto. Qed.

Lemma never_throws_convert_old_rules oldRules : never_throws (convert_old_rules oldRules).
Proof.
  induction oldRules as [|[regex response] rest IH]; simpl.
  - apply never_throws_ret.
  - apply never_throws_bind; [apply never_throws_fresh_id|]. intros i.
    apply never_throws_bind; [apply IH|]. intros more. apply never_throws_ret.
Qed.

Lemma never_throws_getAutoReplyRules `{Host} env : never_throws (getAutoReplyRules env).
Proof.
  unfold getAutoReplyRules. apply never_throws_bind; [apply never_throws_getConfig|].
  intros j. destruct (JSON_parse_rules j); try apply never_throws_ret.
  destruct (parseOldKeywordResponses j); [apply never_throws_ret|].
  apply never_throws_bind; [apply never_throws_convert_old_rules|]. intros rules.
  apply never_throws_bind; [apply never_throws_modify|]. intros _.
  apply never_throws_ret.
Qed.

Lemma never_throws_getBlockKeywords `{Host} env : never_throws (getBlockKeywords env).
Proof.
  unfold getBlockKeywords. apply never_throws_bind; [apply never_throws_getConfig|].
  intros j. destruct (JSON_parse_keywords j); try apply never_throws_ret.
  destruct (RegExp.source <$> parseOldBlockKeywords j); [apply never_throws_ret|].
  apply never_throws_bind; [apply never_throws_modify|]. intros _.
  apply never_throws_ret.
Qed.

Lemma removes_after {A B} key (m : M A) (f : A → M B) :
  never_throws m → (∀ a, removes key (f a)) → removes key (m ≫= f).
Proof.
  intros Hm Hf w. destruct (Hm w) as [a Ha]. unfold mbind, M_bind.
  destruct (m w) as [[a'|e] w1]; simpl in *; [apply Hf | done].
Qed.

Lemma removes_then {A B} key (m : M A) (f : A → M B) :
  removes key m → (∀ a, keeps_absent key (f a)) → removes key (m ≫= f).
Proof.
  intros Hm Hf w. specialize (Hm w). unfold mbind, M_bind.
  destruct (m w) as [[a|e] w1]; simpl in *; [by apply Hf | done].
Qed.

Lemma removes_dbAdminStateDelete userId :
  removes (admin_state_key userId) (dbAdminStateDelete userId).
Proof. intros w. simpl. apply lookup_delete_eq. Qed.

Lemma keeps_absent_bind {A B} key (m : M A) (f : A → M B) :
  keeps_absent key m → (∀ a, keeps_absent key (f a)) → keeps_absent key (m ≫= f).
Proof.
  intros Hm Hf w Hk. specialize (Hm w Hk). unfold mbind, M_bind.
  destruct (m w) as [[a|e] w1]; simpl in *; [by apply Hf | done].
Qed.

(** What a policy does not write stays absent. *)
Lemma keeps_absent_within {A} p key (m : M A) :
  ¬ may_config p key → within p m → keeps_absent key m.
Proof.
  intros Hn Hm w Hk. destruct (Hm w) as (_ & C & _).
  destruct (C key) as [?|E]; [done|]. by rewrite E.
Qed.

Lemma admin_state_key_not_a_rule_list userId :
  ¬ may_config rule_lists (admin_state_key userId).
Proof.
  unfold admin_state_key. simpl. set_unfold. intros [E|[E|[]]]; vm_compute in E;
    discriminate E.
Qed.

Lemma keeps_absent_handleAdminConfigStart userId env :
  keeps_absent (admin_state_key userId) (handleAdminConfigStart userId env).
Proof.
  intros w _. unfold handleAdminConfigStart, mbind, M_bind. simpl.
  rewrite telegramApi_run. destruct (outcome _ _); simpl; apply lookup_delete_eq.
Qed.

Section EditSession.
Context `{Host}.

(** The menu an input is answered with leaves the session ended. *)
Lemma keeps_absent_next_menu userId env (next : string) :
  keeps_absent (admin_state_key userId)
    (if bool_decide (next = "config:menu:base") then
       handleAdminBaseConfigMenu userId "0" env
     else if bool_decide (next = "config:menu:autoreply") then
       handleAdminAutoReplyMenu userId "0" env
     else if bool_decide (next = "config:menu:keyword") then
       handleAdminKeywordBlockMenu userId "0" env
     else handleAdminConfigStart userId env).
Proof.
  repeat case_bool_decide.
  - eapply keeps_absent_within;
      [apply admin_state_key_not_a_rule_list | apply within_handleAdminBaseConfigMenu].
  - eapply keeps_absent_within;
      [apply admin_state_key_not_a_rule_list | apply within_handleAdminAutoReplyMenu].
  - eapply keeps_absent_within;
      [apply admin_state_key_not_a_rule_list | apply within_handleAdminKeywordBlockMenu].
  - apply keeps_absent_handleAdminConfigStart.
Qed.

Lemma keeps_absent_telegramApi key c : keeps_absent key (telegramApi c).
Proof.
  eapply (keeps_absent_within nothing); [simpl; tauto | apply within_telegramApi].
Qed.

Lemma removes_handleAdminConfigInput userId text adminStateJson env :
  is_Some (JSON_parse_state adminStateJson) →
  removes (admin_state_key userId)
    (handleAdminConfigInput userId text adminStateJson env).
Proof.
  intros [adminState Hs]. unfold handleAdminConfigInput. rewrite Hs.
  set (k := admin_state_key userId).
  assert (Hsay : ∀ t, keeps_absent k (say userId t)).
  { intros t. eapply (keeps_absent_within nothing); [simpl; tauto | apply within_say]. }
  case_bool_decide.
  { apply removes_then; [apply removes_dbAdminStateDelete|]. intros _.
    apply keeps_absent_bind; [apply Hsay|]. intros _.
    apply keeps_absent_handleAdminConfigStart. }
  destruct (bool_decide _ && Js.truthy _).
  2: { apply removes_then; [apply removes_dbAdminStateDelete|]. intros _. apply Hsay. }
  case_bool_decide; [|case_bool_decide].
  - apply removes_after; [apply never_throws_getBlockKeywords|]. intros blockKeywords.
    apply removes_after.
    { destruct (Js.truthy _ && negb _); [|apply never_throws_ret].
      apply never_throws_bind; [apply never_throws_modify|]. intros _.
      apply never_throws_ret. }
    intros successMsg.
    apply removes_then; [apply removes_dbAdminStateDelete|]. intros _.
    apply keeps_absent_bind; [apply keeps_absent_telegramApi|]. intros _.
    eapply keeps_absent_within;
      [apply admin_state_key_not_a_rule_list | apply within_handleAdminKeywordBlockMenu].
  - apply removes_after; [apply never_throws_getAutoReplyRules|]. intros rules.
    apply removes_after.
    { destruct (Js.split "===" _) as [|p0 [|p1 [|]]]; try apply never_throws_ret.
      destruct (Js.truthy _ && Js.truthy _); [|apply never_throws_ret].
      apply never_throws_bind; [apply never_throws_fresh_id|]. intros i.
      apply never_throws_bind; [apply never_throws_modify|]. intros _.
      apply never_throws_ret. }
    intros successMsg.
    apply removes_then; [apply removes_dbAdminStateDelete|]. intros _.
    apply keeps_absent_bind; [apply keeps_absent_telegramApi|]. intros _.
    eapply keeps_absent_within;
      [apply admin_state_key_not_a_rule_list | apply within_handleAdminAutoReplyMenu].
  - apply removes_after; [apply never_throws_modify|]. intros _.
    apply removes_then; [apply removes_dbAdminStateDelete|]. intros _.
    apply keeps_absent_bind; [apply keeps_absent_telegramApi|]. intros _.
    apply keeps_absent_next_menu.
Qed.

(** X8.  Whatever an admin sends while an edit is pending ends the edit: after
    the input is handled there is no pending state left, whether the value
    was applied, refused or the edit was cancelled, and whatever the
    transport answers.  No session row and no ledger entry is touched. *)
Theorem admin_input_ends_the_edit userId text adminStateJson env w :
  is_Some (JSON_parse_state adminStateJson) →
  let w' := run (handleAdminConfigInput userId text adminStateJson env) w in
  config w' !! admin_state_key userId = None
  ∧ users w' = users w ∧ messages w' = messages w.
Proof.
  intros Hs w'. split; [by apply removes_handleAdminConfigInput|].
  pose proof (within_handleAdminConfigInput userId text adminStateJson env w) as Hw.
  split.
  - eapply admits_same_users; [| |exact Hw]; simpl; tauto.
  - eapply admits_same_messages; [|exact Hw]; simpl; tauto.
Qed.

End EditSession.

Lemma admin_input_ends_the_edit_witness :
  let j := JSON_stringify_state (Host := Sample.host)
             {| AdminState.action := "awaiting_input"; AdminState.key := "verif_a" |} in
  let w := Sample.world [(admin_state_key "1", j)] [] [] [NotOk "blocked by user"] in
  let w' := run (handleAdminConfigInput (H := Sample.host) "1" " 4 " j Sample.env) w in
  config w' !! admin_state_key "1" = None
  ∧ users w' = users w ∧ messages w' = messages w.
Proof.
  intros j w. apply (admin_input_ends_the_edit (H := Sample.host) "1" " 4 " j Sample.env w).
  vm_compute. eauto.
Defined.

(** ** Escaping *)

Lemma has_char_app c (a b : string) :
  has_char c (a +:+ b) = has_char c a || has_char c b.
Proof.
  induction a as [|x a IH]; [done|].
  change (String x a +:+ b) with (String x (a +:+ b)). simpl.
  rewrite IH. by rewrite orb_assoc.
Qed.

(** Replacing every [c] by a text without [c] leaves no [c]. *)
Lemma replaceAll_removes c rep s :
  has_char c rep = false → has_char c (Js.replaceAll c rep s) = false.
Proof.
  intros Hr. induction s as [|a s IH]; [done|]. simpl.
  destruct (Ascii.eqb a c) eqn:E.
  - rewrite has_char_app, Hr, IH. done.
  - simpl. by rewrite E, IH.
Qed.

(** Replacing another character by a text without [c] brings in no [c]. *)
Lemma replaceAll_keeps_out c d rep s :
  has_char c rep = false → has_char c s = false →
  has_char c (Js.replaceAll d rep s) = false.
Proof.
  intros Hr. induction s as [|a s IH]; [done|]. simpl.
  intros Hs. apply orb_false_elim in Hs as [Ha Hs].
  destruct (Ascii.eqb a d).
  - rewrite has_char_app, Hr. by apply IH.
  - simpl. rewrite Ha. by apply IH.
Qed.

(** X9.  The escaped text has no angle bracket left, whatever the input: what is
    interpolated into an HTML message cannot open or close a tag. *)
Theorem escapeHtml_leaves_no_angle_bracket text :
  has_char "<" (escapeHtml text) = false ∧ has_char ">" (escapeHtml text) = false.
Proof.
  unfold escapeHtml. destruct (Js.truthy text); [|done]. split.
  - apply replaceAll_keeps_out; [done|]. by apply replaceAll_removes.
  - by apply replaceAll_removes.
Qed.

(** ** The first contact of a session *)

Lemma dbUserGetOrCreate_missing userId w :
  users w !! userId = None →
  dbUserGetOrCreate userId w
  = (Ok (user_of_row default_row), with_users <[userId := default_row]> w).
Proof.
  intros E. unfold dbUserGetOrCreate, get_world, mbind, M_bind. now rewrite E.
Qed.

Section FirstContact.
Context `{Host}.

(** X10.  The first [/start] (or [/help]) of a user the worker has never seen
    registers nothing: the state is set by an update of the user's row, and
    there is no row yet; the command itself does not insert one. *)
Theorem first_start_registers_nothing message env w :
  is_command message = true →
  isAdminUser (Message.chat_id message) env = false →
  users w !! Message.chat_id message = None →
  users (run (handlePrivateMessage message env) w) = users w.
Proof.
  intros Hc Ha Hn.
  destruct (within_handlePrivateMessage message env w) as (U & _ & _).
  unfold message_policy in U. rewrite Hc, Ha in U.
  apply map_eq. intros u. specialize (U u).
  fold (run (handlePrivateMessage message env) w) in U.
  destruct (decide (u = Message.chat_id message)) as [->|Hne].
  - rewrite Hn in *. simpl in U.
    destruct (users (run _ w) !! Message.chat_id message); [|done]. by destruct U.
  - eapply evolves_frozen; [| |exact U]; simpl; tauto.
Qed.

(** X11.  A message that is no command, from a user who is not an admin and whose
    session is neither pending nor verified (a new row, a row in any other
    state, or no row at all, in which case the default row is inserted), is
    answered with the hint to use [/start] and with nothing else; the
    state of the session stays as it is. *)
Theorem unstarted_session_gets_the_start_hint message env w :
  is_command message = false →
  isAdminUser (Message.chat_id message) env = false →
  (∀ row, users w !! Message.chat_id message = Some row →
          is_blocked row ≠ 1
          ∧ user_state row ≠ "pending_verification" ∧ user_state row ≠ "verified") →
  let chatId := Message.chat_id message in
  let w1 := match users w !! chatId with
            | Some _ => w
            | None => with_users <[chatId := default_row]> w
            end in
  run (handlePrivateMessage message env) w
  = answered (sendMessage chatId use_start None None None) w1.
Proof.
  intros Hc Ha Hrow chatId w1. subst w1. unfold run, handlePrivateMessage.
  unfold is_command in Hc. rewrite Hc, Ha. fold chatId.
  destruct (users w !! chatId) as [row|] eqn:E.
  - destruct (Hrow row E) as (Hb & Hp & Hv).
    erewrite bind_ok by (apply dbUserGetOrCreate_found; exact E).
    unfold user_of_row. cbn [User.is_blocked].
    destruct (is_blocked row =? 1) eqn:Eb; [apply Z.eqb_eq in Eb; done|].
    erewrite bind_ok by reflexivity. cbn [User.user_state].
    rewrite !bool_decide_eq_false_2 by done. by rewrite say_run.
  - erewrite bind_ok by (apply dbUserGetOrCreate_missing; exact E).
    simpl. erewrite bind_ok by reflexivity. simpl. by rewrite say_run.
Qed.

(** X12.  An admin is never asked the verification question: whatever an admin
    who has no edit pending and is not blocked sends (other than a
    command), the admin's session is verified afterwards, whatever state it
    was in and whatever the transport answers. *)
Theorem admin_is_verified_by_any_message message env w :
  is_command message = false →
  isAdminUser (Message.chat_id message) env = true →
  config w !! admin_state_key (Message.chat_id message) = None →
  (∀ row, users w !! Message.chat_id message = Some row → is_blocked row ≠ 1) →
  ∃ row', users (run (handlePrivateMessage message env) w) !! Message.chat_id message
          = Some row'
          ∧ user_state row' = "verified".
Proof.
  intros Hc Ha Hs Hb. set (chatId := Message.chat_id message) in *.
  unfold run, handlePrivateMessage. unfold is_command in Hc. rewrite Hc.
  fold chatId. rewrite Ha.
  (* the session as the handler loads it *)
  assert (∃ row w0, dbUserGetOrCreate chatId w = (Ok (user_of_row row), w0)
                    ∧ users w0 !! chatId = Some row ∧ is_blocked row ≠ 1
                    ∧ config w0 = config w) as (row & w0 & Hget & Hrow & Hnb & Hcfg).
  { destruct (users w !! chatId) as [row|] eqn:E.
    - exists row, w. split; [by apply dbUserGetOrCreate_found|]. auto.
    - exists default_row, (with_users <[chatId := default_row]> w).
      split; [by apply dbUserGetOrCreate_missing|].
      split; [apply lookup_insert_eq | by split]. }
  erewrite bind_ok by exact Hget.
  unfold user_of_row at 1. cbn [User.is_blocked].
  destruct (is_blocked row =? 1) eqn:Eb; [apply Z.eqb_eq in Eb; done|].
  assert (Hstate : dbAdminStateGet chatId w0 = (Ok None, w0)).
  { unfold dbAdminStateGet, dbConfigGet, get_world, mbind, M_bind, mret, M_ret.
    by rewrite Hcfg, Hs. }
  (* after the forced verification the session is verified; the pipeline
     assigns no state *)
  assert (Hkeep : ∀ user w1 row1,
            users w1 !! chatId = Some row1 → user_state row1 = "verified" →
            ∃ row', users (snd (handleVerified message user env w1)) !! chatId = Some row'
                    ∧ user_state row' = "verified").
  { intros user w1 row1 Hr1 Hv.
    destruct (within_handleVerified message user env w1) as (U & _ & _).
    specialize (U chatId). rewrite Hr1 in U.
    eapply (evolves_invariant _ _ (λ row, user_state row = "verified"));
      [|exact U|exact Hv].
    intros r []; simpl; tauto. }
  change (User.user_state (user_of_row row)) with (user_state row).
  destruct (bool_decide (user_state row = "verified")) eqn:Ev.
  - apply bool_decide_eq_true in Ev.
    erewrite bind_ok by (erewrite bind_ok by exact Hstate; reflexivity).
    cbn [User.user_state user_of_row]. rewrite Ev. simpl.
    eapply Hkeep; eauto.
  - erewrite bind_ok by (erewrite bind_ok by exact Hstate; reflexivity).
    simpl. eapply Hkeep; [simpl; rewrite lookup_alter_eq, Hrow; reflexivity|].
    reflexivity.
Qed.

End FirstContact.

Lemma first_start_registers_nothing_witness :
  let w := Sample.world [] [] [] [] in
  users (run (handlePrivateMessage (H := Sample.host)
                (Sample.text_message "42" "1" "/start") Sample.env) w) = users w.
Proof.
  intros w.
  apply (first_start_registers_nothing (H := Sample.host)
           (Sample.text_message "42" "1" "/start") Sample.env w); reflexivity.
Defined.

Lemma unstarted_session_gets_the_start_hint_witness :
  let message := Sample.text_message "42" "2" "3" in
  let w := Sample.world [] [] [] [] in
  run (handlePrivateMessage (H := Sample.host) message Sample.env) w
  = answered (sendMessage "42" use_start None None None)
      (with_users <["42" := default_row]> w).
Proof.
  intros message w.
  apply (unstarted_session_gets_the_start_hint (H := Sample.host) message Sample.env w);
    [reflexivity | reflexivity | intros row Hrow; discriminate Hrow].
Defined.

Lemma admin_is_verified_by_any_message_witness :
  let message := Sample.text_message "1" "3" "hello" in
  let w := Sample.world [] [("1", Sample.row "pending_verification" 0 0 None)] []
             [NotOk "down"] in
  ∃ row', users (run (handlePrivateMessage (H := Sample.host) message Sample.env) w) !! "1"
          = Some row'
          ∧ user_state row' = "verified".
Proof.
  intros message w.
  apply (admin_is_verified_by_any_message (H := Sample.host) message Sample.env w);
    [reflexivity | reflexivity | reflexivity |].
  intros row Hrow. injection Hrow as <-. discriminate.
Defined.

(** ** The buttons of the profile card *)

Lemma alter_as_insert (f : UserRow → UserRow) userId (us : gmap string UserRow) row :
  us !! userId = Some row → alter f userId us = <[userId := f row]> us.
Proof.
  intros E. apply map_eq. intros u. destruct (decide (u = userId)) as [->|Hne].
  - by rewrite lookup_alter_eq, lookup_insert_eq, E.
  - by rewrite lookup_alter_ne, lookup_insert_ne.
Qed.

Lemma alter_missing (f : UserRow → UserRow) userId (us : gmap string UserRow) :
  us !! userId = None → alter f userId us = us.
Proof.
  intros E. apply map_eq. intros u. destruct (decide (u = userId)) as [->|Hne].
  - by rewrite lookup_alter_eq, E.
  - by rewrite lookup_alter_ne.
Qed.

(** The rows after the block handler, whatever the transport answers: the
    row is updated before any call is made; without a row the update finds
    nothing and the default row is inserted by the read that follows. *)
Lemma handleBlockUser_users `{Host} userId message env w :
  users (run (handleBlockUser userId message env) w)
  = match users w !! userId with
    | Some row => <[userId := set_field row (Set_is_blocked 1)]> (users w)
    | None => <[userId := default_row]> (users w)
    end.
Proof.
  unfold run, handleBlockUser, try_catch, dbUserGetOrCreate, get_world.
  unfold mbind, M_bind. simpl. rewrite lookup_alter_eq.
  destruct (users w !! userId) as [row|] eqn:E; simpl.
  - repeat (rewrite telegramApi_run; destruct (outcome _ _); simpl).
    all: by apply (alter_as_insert (λ row, set_field row (Set_is_blocked 1))).
  - repeat (rewrite telegramApi_run; destruct (outcome _ _); simpl).
    all: f_equal; by apply alter_missing.
Qed.

Lemma handleUnblockUser_users `{Host} userId message env w :
  users (run (handleUnblockUser userId message env) w)
  = match users w !! userId with
    | Some row =>
        <[userId := foldl set_field row [Set_is_blocked 0; Set_block_count 0]]> (users w)
    | None => <[userId := default_row]> (users w)
    end.
Proof.
  unfold run, handleUnblockUser, try_catch, dbUserGetOrCreate, get_world.
  unfold mbind, M_bind. simpl. rewrite lookup_alter_eq.
  destruct (users w !! userId) as [row|] eqn:E; simpl.
  - repeat (rewrite telegramApi_run; destruct (outcome _ _); simpl).
    all: by apply (alter_as_insert
                     (λ row, foldl set_field row [Set_is_blocked 0; Set_block_count 0])).
  - repeat (rewrite telegramApi_run; destruct (outcome _ _); simpl).
    all: f_equal; by apply alter_missing.
Qed.

(** The data of a block or unblock button is read back as it was built. *)
Lemma card_button_data_splits (action userId : string) :
  has_char ":" action = false → has_char ":" userId = false →
  Js.split ":" (action +:+ ":" +:+ userId) = [action; userId].
Proof.
  intros Ha Hu. unfold Js.split.
  change (action +:+ ":" +:+ userId) with (action +:+ String ":" userId).
  rewrite (split_go_segment action) by exact Ha.
  rewrite (split_go_last userId) by exact Hu.
  by rewrite !rev_rev_app.
Qed.

Section CardButtons.
Context `{Host}.

(** An acknowledged press of the first button of a profile card in the
    admin group runs the handler the button names, on the user it names. *)
Lemma card_button_dispatch q env w userId isBlocked :
  has_char ":" userId = false →
  callback_data_of (getInfoCardButtons userId isBlocked) !! 0%nat
    = Some (CallbackQuery.data q) →
  Message.chat_id (CallbackQuery.message q) = ADMIN_GROUP_ID env →
  is_result (next_reply w) →
  ∃ ack,
    run (handleCallbackQuery q env) w
    = run (if isBlocked
           then handleUnblockUser userId (CallbackQuery.message q) env
           else handleBlockUser userId (CallbackQuery.message q) env)
          (answered ack w).
Proof.
  intros Hu Hd Hc Hr. injection Hd as Hd.
  unfold run at 1, handleCallbackQuery. rewrite <- Hd, Hc.
  assert (Hp : Js.startsWith ((if isBlocked then "unblock" else "block")
                              +:+ ":" +:+ userId) "config:" = false)
    by (by destruct isBlocked).
  rewrite Hp, card_button_data_splits by (by destruct isBlocked || done).
  rewrite bool_decide_eq_true_2 by done. simpl.
  exists (answerCallbackQuery (CallbackQuery.id q)
            ("执行动作: "
             +:+ (if bool_decide ((if isBlocked then "unblock" else "block") = "block")
                  then "屏蔽" else "解除屏蔽") +:+ "...") false).
  destruct (outcome_result
              (answerCallbackQuery (CallbackQuery.id q)
                 ("执行动作: "
                  +:+ (if bool_decide ((if isBlocked then "unblock" else "block") = "block")
                       then "屏蔽" else "解除屏蔽") +:+ "...") false) _ Hr) as [t Ht].
  destruct isBlocked; simpl in *;
    erewrite bind_ok by (rewrite telegramApi_run, Ht; reflexivity); reflexivity.
Qed.

(** X13.  The first button of a profile card does what its label says, for a
    user id without a colon: pressed in the admin group, once the press is
    acknowledged, the button of an unblocked user's card sets [is_blocked],
    and the button of a blocked user's card clears [is_blocked] and resets
    the hit count, whatever the transport answers afterwards.  For a user
    id without a row the update finds nothing and the default row is
    inserted, unblocked. *)
Theorem card_button_round_trip q env w userId isBlocked :
  has_char ":" userId = false →
  callback_data_of (getInfoCardButtons userId isBlocked) !! 0%nat
    = Some (CallbackQuery.data q) →
  Message.chat_id (CallbackQuery.message q) = ADMIN_GROUP_ID env →
  is_result (next_reply w) →
  users (run (handleCallbackQuery q env) w)
  = match users w !! userId with
    | Some row =>
        <[userId := if isBlocked
                    then foldl set_field row [Set_is_blocked 0; Set_block_count 0]
                    else set_field row (Set_is_blocked 1)]> (users w)
    | None => <[userId := default_row]> (users w)
    end.
Proof.
  intros Hu Hd Hc Hr.
  destruct (card_button_dispatch q env w userId isBlocked Hu Hd Hc Hr) as [ack ->].
  destruct isBlocked.
  - by rewrite handleUnblockUser_users.
  - by rewrite handleBlockUser_users.
Qed.

(** X14.  Once the block button of a user's card has been pressed, the messages
    of that user are dropped: the handler leaves the world as it is, so
    nothing is answered, written or relayed. *)
Theorem blocked_by_button_then_dropped q env w userId row message :
  has_char ":" userId = false →
  CallbackQuery.data q = "block:" +:+ userId →
  Message.chat_id (CallbackQuery.message q) = ADMIN_GROUP_ID env →
  is_result (next_reply w) →
  users w !! userId = Some row →
  Message.chat_id message = userId →
  is_command message = false →
  let w1 := run (handleCallbackQuery q env) w in
  handlePrivateMessage message env w1 = (Ok tt, w1).
Proof.
  intros Hu Hd Hc Hr Hrow Hm Hcmd w1.
  assert (Hus : users w1 !! userId = Some (set_field row (Set_is_blocked 1))).
  { subst w1.
    destruct (card_button_dispatch q env w userId false Hu) as [ack ->]; try done.
    - by rewrite Hd.
    - rewrite handleBlockUser_users. simpl. rewrite Hrow. apply lookup_insert_eq. }
  unfold handlePrivateMessage. unfold is_command in Hcmd. rewrite Hcmd, Hm.
  erewrite bind_ok by (apply dbUserGetOrCreate_found; exact Hus). done.
Qed.

End CardButtons.

Lemma card_button_round_trip_witness :
  let q := press "7" "unblock:42" (bot_message "-100" "70" (Some "55")) in
  let row := Sample.row "verified" 1 5 (Some "55") in
  let w := Sample.world [] [("42", row)] [] [Result None; NotOk "message not found"] in
  users (run (handleCallbackQuery (H := Sample.host) q Sample.env) w)
  = <["42" := Sample.row "verified" 0 0 (Some "55")]> (users w).
Proof.
  intros q row w.
  apply (card_button_round_trip (H := Sample.host) q Sample.env w "42" true);
    [reflexivity | reflexivity | reflexivity | exact I].
Defined.

Lemma blocked_by_button_then_dropped_witness :
  let q := press "7" "block:42" (bot_message "-100" "70" (Some "55")) in
  let w := Sample.world [] [("42", Sample.row "verified" 0 0 (Some "55"))] [] [] in
  let w1 := run (handleCallbackQuery (H := Sample.host) q Sample.env) w in
  handlePrivateMessage (H := Sample.host) (Sample.text_message "42" "12" "hello")
    Sample.env w1 = (Ok tt, w1).
Proof.
  intros q w.
  apply (blocked_by_button_then_dropped (H := Sample.host) q Sample.env w "42"
           (Sample.row "verified" 0 0 (Some "55")) (Sample.text_message "42" "12" "hello"));
    first [reflexivity | exact I].
Defined.

(** ** The switches of the type filter *)

Lemma toggle_data_splits (key value : string) :
  has_char ":" key = false → has_char ":" value = false →
  Js.split ":" ("config:toggle:" +:+ key +:+ ":" +:+ value)
  = ["config"; "toggle"; key; value].
Proof.
  intros Hk Hv. unfold Js.split.
  change ("config:toggle:" +:+ key +:+ ":" +:+ value)
    with ("config" +:+ String ":" ("toggle" +:+ String ":" (key +:+ String ":" value))).
  rewrite (split_go_segment "config") by reflexivity.
  rewrite (split_go_segment "toggle") by reflexivity.
  rewrite (split_go_segment key) by exact Hk.
  rewrite (split_go_last value) by exact Hv.
  by rewrite !rev_rev_app.
Qed.

Section Switches.
Context `{Host}.

(** X15.  A switch button of the filter menu flips its switch: the button shown
    for a switch in state [status], pressed by an admin and acknowledged,
    stores the opposite value, and the switch then reads as the opposite
    state, whatever the transport answers to the redrawn menu.  The key is
    any non-empty key without a colon. *)
Theorem toggle_button_flips_the_switch q env w key status :
  has_char ":" key = false → Js.truthy key = true →
  CallbackQuery.data q = statusToCallback key status →
  isAdminUser (CallbackQuery.from_id q) env = true →
  is_result (next_reply w) →
  let w' := run (handleCallbackQuery q env) w in
  config w' = <[key := if status then "false" else "true"]> (config w)
  ∧ getSwitch key env w' = (Ok (negb status), w').
Proof.
  intros Hk Tk Hd Ha Hr w'.
  assert (Hcfg : config w' = <[key := if status then "false" else "true"]> (config w)).
  { subst w'. unfold run, handleCallbackQuery. rewrite Hd, Ha. unfold statusToCallback.
    assert (Hp : Js.startsWith ("config:toggle:" +:+ key +:+ ":"
                                +:+ (if status then "false" else "true")) "config:" = true)
      by reflexivity.
    rewrite Hp, toggle_data_splits by (done || by destruct status).
    assert (Hact : configAction ["config"; "toggle"; key;
                                 if status then "false" else "true"]
                   = Toggle key (if status then "false" else "true")).
    { unfold configAction, part. simpl. rewrite Tk. by destruct status. }
    rewrite Hact. simpl.
    destruct (outcome_result (answerCallbackQuery (CallbackQuery.id q) "处理中..." false)
                _ Hr) as [t Ht].
    erewrite bind_ok by (rewrite telegramApi_run, Ht; reflexivity).
    erewrite bind_ok by reflexivity.
    erewrite (admits_same_config nothing);
      [|simpl; tauto|apply within_handleAdminTypeBlockMenu]. done. }
  split; [exact Hcfg|].
  unfold getSwitch. erewrite bind_ok by apply getConfig_run.
  unfold lookupConfig. rewrite Hcfg, lookup_insert_eq. by destruct status.
Qed.

(** X16.  A press whose first call to the transport fails changes no table:
    every handler acknowledges (or, for the pin, calls the transport)
    before it writes. *)
Theorem unacknowledged_press_changes_nothing q env w :
  is_failure (next_reply w) →
  let w' := run (handleCallbackQuery q env) w in
  config w' = config w ∧ users w' = users w ∧ messages w' = messages w.
Proof.
  intros Hf w'. subst w'. unfold run, handleCallbackQuery.
  assert (Hack : ∀ c {A} (k : option string → M A),
            let w' := snd ((telegramApi c ≫= k) w) in
            config w' = config w ∧ users w' = users w ∧ messages w' = messages w).
  { intros c A k. destruct (outcome_failure c _ Hf) as [e He].
    erewrite bind_throw by (rewrite telegramApi_run, He; reflexivity). done. }
  destruct (Js.startsWith _ "config:").
  - destruct (isAdminUser _ env); simpl; apply Hack.
  - case_bool_decide; simpl; [|done].
    case_bool_decide; [|apply Hack].
    pose proof (within_handlePinCard nothing q (CallbackQuery.message q) env w) as Hw.
    split; [|split].
    + eapply admits_same_config; [|exact Hw]. simpl. tauto.
    + eapply admits_same_users; [| |exact Hw]; simpl; tauto.
    + eapply admits_same_messages; [|exact Hw]. simpl. tauto.
Qed.

(** X17.  When the card was pinned but the acknowledgement of the press could
    not be delivered, the staff member is alerted that pinning failed: the
    handler's [try] covers both calls, and the alert carries the error of
    the acknowledgement. *)
Theorem failed_acknowledgement_is_reported_as_pin_failure
    callbackQuery message env w t r2 rest e :
  net w = Result t :: r2 :: rest →
  outcome (answerCallbackQuery (CallbackQuery.id callbackQuery)
             "📌 资料卡已在话题中置顶。" false) r2 = Throw e →
  let w' := run (handlePinCard callbackQuery message env) w in
  calls w' = calls w ++
    [ (pinChatMessage (Message.chat_id message) (Message.message_id message)
         (Message.message_thread_id message), Result t);
      (answerCallbackQuery (CallbackQuery.id callbackQuery)
         "📌 资料卡已在话题中置顶。" false, r2);
      (answerCallbackQuery (CallbackQuery.id callbackQuery)
         ("❌ 置顶失败。请确保机器人或有群组的置顶权限。错误信息: " +:+ e) true,
       next_reply (answered (answerCallbackQuery (CallbackQuery.id callbackQuery)
                               "📌 资料卡已在话题中置顶。" false)
                     (answered (pinChatMessage (Message.chat_id message)
                                  (Message.message_id message)
                                  (Message.message_thread_id message)) w))) ].
Proof.
  intros Hnet He w'. subst w'.
  destruct w as [cfg us ms nt cl ck]. simpl in Hnet. subst nt.
  unfold run, handlePinCard, try_catch, mbind, M_bind.
  rewrite telegramApi_run. cbn [outcome next_reply net answered].
  rewrite telegramApi_run. cbn [next_reply net answered tail]. rewrite He.
  rewrite telegramApi_run.
  match goal with |- context [match ?x with Ok _ => _ | Throw _ => _ end] =>
    destruct x end; simpl; by rewrite <- !app_assoc.
Qed.

End Switches.

Lemma toggle_button_flips_the_switch_witness :
  let q := press "1" (statusToCallback "enable_link_forwarding" true)
             (bot_message "1" "70" None) in
  let w := Sample.world [] [] [] [Result None; NotOk "message is not modified"] in
  let w' := run (handleCallbackQuery (H := Sample.host) q Sample.env) w in
  config w' = <["enable_link_forwarding" := "false"]> (config w)
  ∧ getSwitch "enable_link_forwarding" Sample.env w' = (Ok false, w').
Proof.
  intros q w.
  apply (toggle_button_flips_the_switch (H := Sample.host) q Sample.env w
           "enable_link_forwarding" true); first [reflexivity | exact I].
Defined.

Lemma unacknowledged_press_changes_nothing_witness :
  let q := press "7" "block:42" (bot_message "-100" "70" (Some "55")) in
  let w := Sample.world [] [("42", Sample.row "verified" 0 0 (Some "55"))] []
             [NotOk "query is too old"] in
  let w' := run (handleCallbackQuery (H := Sample.host) q Sample.env) w in
  config w' = config w ∧ users w' = users w ∧ messages w' = messages w.
Proof.
  intros q w.
  apply (unacknowledged_press_changes_nothing (H := Sample.host) q Sample.env w).
  intros R. exact R.
Defined.

Lemma failed_acknowledgement_is_reported_as_pin_failure_witness :
  let q := press "7" "pin_card:42" (bot_message "-100" "70" (Some "55")) in
  let w := Sample.world [] [] [] [Result None; NotOk "query is too old"] in
  fst <$> calls (run (handlePinCard q (CallbackQuery.message q)
                        Sample.env) w)
  = [ pinChatMessage "-100" "70" (Some "55");
      answerCallbackQuery "900" "📌 资料卡已在话题中置顶。" false;
      answerCallbackQuery "900"
        "❌ 置顶失败。请确保机器人或有群组的置顶权限。错误信息: answerCallbackQuery failed: query is too old"
        true ].
Proof.
  intros q w.
  rewrite (failed_acknowledgement_is_reported_as_pin_failure
             q (CallbackQuery.message q) Sample.env w None (NotOk "query is too old") []
             "answerCallbackQuery failed: query is too old");
    reflexivity.
Defined.

(** ** The relay and the ledger *)

(** The next reply of the transport, case by case. *)
Ltac next_call :=
  match goal with
  | |- context [match ?l with [] => _ | _ :: _ => _ end] =>
      is_var l; destruct l as [|[| | |[|]] ?]
  end; simpl.

Section RelayLedger.
Context `{Host}.

(** X18.  The ledger records a message exactly when a copy of it was accepted:
    whatever the transport answers, the relay writes the ledger entry of
    the message (for a message with text) if one of its copy attempts
    succeeded, and leaves the ledger alone otherwise.  It attempts at most
    two copies and creates at most two threads. *)
Theorem ledger_records_what_was_copied message user env w :
  let w' := run (handleRelayToTopic message user env) w in
  ∃ new,
    calls w' = calls w ++ new
    ∧ (length (filter is_copy new) ≤ 2)%nat
    ∧ (length (filter is_create new) ≤ 2)%nat
    ∧ messages w' = if existsb copied new then recorded message (messages w)
                    else messages w.
Proof.
  intros w'. subst w'. unfold run, handleRelayToTopic.
  unfold tryCopyToTopic, createTopicForUser, say.
  set (p := getUserInfo (Message.from message) (Message.date message)).
  set (put := match Message.text message with Some _ => _ | None => _ end).
  assert (Hput : ∀ w, put w = (Ok tt, with_messages (recorded message) w)).
  { intros w1. subst put. unfold recorded.
    destruct (Message.text message) as [text|]; [destruct (Js.truthy text)|];
      by destruct w1. }
  clearbody p put.
  destruct w as [cfg us ms nt cl ck].
  unfold try_catch, mbind, M_bind, telegramApi, fallthrough, returned, mret, M_ret, throw.
  destruct (topic_of (User.topic_id user)) as [t|]; simpl.
  - repeat next_call.
    all: rewrite ?Hput; simpl; rewrite <- ?app_assoc;
      (eexists; split; [reflexivity|]); simpl; repeat split; lia.
  - repeat next_call.
    all: rewrite ?Hput; simpl; rewrite <- ?app_assoc;
      (eexists; split; [reflexivity|]); simpl; repeat split; lia.
Qed.

(** The session row once a thread has been bound to it. *)
Lemma bound_row_fields row n info :
  foldl set_field row [Set_topic_id (Some n); Set_user_info info]
  = {| user_state := user_state row; is_blocked := is_blocked row;
       block_count := block_count row; topic_id := Some n;
       user_info_json := Some info |}.
Proof. reflexivity. Qed.

(** X19.  First contact: for a session without a thread, when the transport
    accepts the three calls, the relay creates the thread, binds the
    session to it with the sender's profile, posts the profile card into
    the thread, copies the message there and records it in the ledger. *)
Theorem first_contact_binds_and_relays message user env w row n r2 r3 rest :
  users w !! From.id (Message.from message) = Some row →
  topic_of (User.topic_id user) = None →
  net w = Result (Some n) :: r2 :: r3 :: rest →
  is_result r2 → is_result r3 →
  let uid := From.id (Message.from message) in
  let p := getUserInfo (Message.from message) (Message.date message) in
  let w' := run (handleRelayToTopic message user env) w in
  calls w' = calls w ++
    [ (createForumTopic (ADMIN_GROUP_ID env) (topicName p), Result (Some n));
      (sendMessage (ADMIN_GROUP_ID env) (infoCard p) (Some n) (Some "HTML")
         (Some (getInfoCardButtons uid (User.is_blocked user))), r2);
      (copyMessage (ADMIN_GROUP_ID env) uid (Message.message_id message) (Some n), r3) ]
  ∧ users w' = <[uid := {| user_state := user_state row; is_blocked := is_blocked row;
                           block_count := block_count row; topic_id := Some n;
                           user_info_json :=
                             Some {| name := rawName p; username := rawUsername p;
                                     first_message_timestamp := Message.date message |}
                        |}]> (users w)
  ∧ messages w' = recorded message (messages w).
Proof.
  intros Hrow Ht Hnet R2 R3 uid p w'. subst w'.
  unfold run, handleRelayToTopic. rewrite Ht.
  unfold tryCopyToTopic, createTopicForUser, say.
  fold uid. fold p.
  assert (Hp : userId p = uid) by reflexivity. clearbody p.
  set (put := match Message.text message with Some _ => _ | None => _ end).
  assert (Hput : ∀ w, put w = (Ok tt, with_messages (recorded message) w)).
  { intros w1. subst put. unfold recorded. fold uid.
    destruct (Message.text message) as [text|]; [destruct (Js.truthy text)|];
      by destruct w1. }
  clearbody put.
  destruct w as [cfg us ms nt cl ck]. simpl in Hrow, Hnet. subst nt.
  destruct r2; try (destruct R2); destruct r3; try (destruct R3).
  unfold try_catch, mbind, M_bind, telegramApi, fallthrough, returned, mret, M_ret, throw.
  simpl. rewrite Hput, Hp. simpl. split; [by rewrite <- !app_assoc|]. split; [|done].
  fold uid in Hrow.
  apply (alter_as_insert
           (λ row, foldl set_field row
                     [Set_topic_id (Some n);
                      Set_user_info {| name := rawName p; username := rawUsername p;
                                       first_message_timestamp := Message.date message |}])
           uid us row Hrow).
Qed.

(** X20.  First contact, when the thread cannot be created: the user is told so
    at once; there is no second attempt, no copy, and nothing is written. *)
Theorem failed_creation_is_reported_without_retry message user env w :
  topic_of (User.topic_id user) = None →
  is_failure (next_reply w) →
  let uid := From.id (Message.from message) in
  let p := getUserInfo (Message.from message) (Message.date message) in
  let create := createForumTopic (ADMIN_GROUP_ID env) (topicName p) in
  run (handleRelayToTopic message user env) w
  = answered (sendMessage uid create_failed None None None) (answered create w).
Proof.
  intros Ht Hf uid p create. unfold run, handleRelayToTopic. rewrite Ht.
  unfold createTopicForUser, say. fold uid p create. clearbody p.
  destruct (outcome_failure create _ Hf) as [e He].
  unfold try_catch, mbind, M_bind. rewrite telegramApi_run, He.
  rewrite telegramApi_run.
  match goal with |- context [match ?x with Ok _ => _ | Throw _ => _ end] =>
    by destruct x end.
Qed.

End RelayLedger.

Section RelayFailures.
Context `{Host}.

(** X21.  First contact, when the thread was created but its profile card could
    not be posted: the user is told that the thread could not be created
    and the message is not copied, yet the session stays bound to the new
    thread (the binding is written before the card is sent), so the next
    message goes into a thread without a card. *)
Theorem unposted_card_is_reported_as_failed_creation message user env w row n r2 rest :
  users w !! From.id (Message.from message) = Some row →
  topic_of (User.topic_id user) = None →
  net w = Result (Some n) :: r2 :: rest →
  is_failure r2 →
  let uid := From.id (Message.from message) in
  let p := getUserInfo (Message.from message) (Message.date message) in
  let w' := run (handleRelayToTopic message user env) w in
  (∃ r3, calls w' = calls w ++
     [ (createForumTopic (ADMIN_GROUP_ID env) (topicName p), Result (Some n));
       (sendMessage (ADMIN_GROUP_ID env) (infoCard p) (Some n) (Some "HTML")
          (Some (getInfoCardButtons uid (User.is_blocked user))), r2);
       (sendMessage uid create_failed None None None, r3) ])
  ∧ (∃ row', users w' !! uid = Some row' ∧ topic_id row' = Some n)
  ∧ messages w' = messages w.
Proof.
  intros Hrow Ht Hnet F2 uid p w'. subst w'.
  unfold run, handleRelayToTopic. rewrite Ht.
  unfold tryCopyToTopic, createTopicForUser, say.
  fold uid. fold p.
  assert (Hp : userId p = uid) by reflexivity. clearbody p.
  destruct w as [cfg us ms nt cl ck]. simpl in Hrow, Hnet. subst nt.
  unfold try_catch, mbind, M_bind, telegramApi, fallthrough, returned, mret, M_ret, throw.
  fold uid in Hrow.
  destruct r2; try (exfalso; apply F2; exact I); simpl; rewrite Hp.
  all: destruct rest as [|[] ?]; simpl; rewrite <- ?app_assoc; simpl.
  all: (split; [eexists; reflexivity|]); (split; [|done]).
  all: rewrite lookup_alter_eq, Hrow; simpl; eauto.
Qed.

End RelayFailures.

Lemma first_contact_binds_and_relays_witness :
  let m := Sample.text_message "42" "11" "hello" in
  let row := Sample.row "verified" 0 0 None in
  let w := Sample.world [] [("42", row)] [] [Result (Some "200"); Result None; Result None] in
  let w' := run (handleRelayToTopic (H := Sample.host) m (user_of_row row) Sample.env) w in
  messages w' = recorded m (messages w).
Proof.
  intros m row w w'.
  destruct (first_contact_binds_and_relays (H := Sample.host)
              m (user_of_row row) Sample.env w row "200" (Result None) (Result None) [])
    as (_ & _ & Hm); first [reflexivity | exact I | exact Hm].
Defined.

Lemma failed_creation_is_reported_without_retry_witness :
  let m := Sample.text_message "42" "11" "hello" in
  let row := Sample.row "verified" 0 0 None in
  let w := Sample.world [] [("42", row)] [] [NotOk "not enough rights"] in
  fst <$> calls (run (handleRelayToTopic (H := Sample.host) m (user_of_row row)
                        Sample.env) w)
  = [ createForumTopic "-100" "Ann | 42";
      sendMessage "42" create_failed None None None ].
Proof.
  intros m row w.
  rewrite (failed_creation_is_reported_without_retry (H := Sample.host)
             m (user_of_row row) Sample.env w).
  - reflexivity.
  - reflexivity.
  - intros R. exact R.
Defined.

Lemma unposted_card_is_reported_as_failed_creation_witness :
  let m := Sample.text_message "42" "11" "hello" in
  let row := Sample.row "verified" 0 0 None in
  let w := Sample.world [] [("42", row)] [] [Result (Some "200"); NotOk "too long"] in
  let w' := run (handleRelayToTopic (H := Sample.host) m (user_of_row row) Sample.env) w in
  ∃ row', users w' !! "42" = Some row' ∧ topic_id row' = Some "200".
Proof.
  intros m row w w'.
  destruct (unposted_card_is_reported_as_failed_creation (H := Sample.host)
              m (user_of_row row) Sample.env w row "200" (NotOk "too long") [])
    as (_ & Hb & _); first [reflexivity | exact Hb | (intros R; exact R)].
Defined.

(** ** The auto-reply stage *)

Section AutoReply.
Context `{Host}.

Lemma autoReplyLoop_first_match chatId text rules w :
  is_result (next_reply w) →
  autoReplyLoop chatId text rules w
  = match filter (λ rule, rule_matches text rule = true) rules with
    | [] => (Ok false, w)
    | rule :: _ =>
        (Ok true,
         answered (sendMessage chatId (autoReplyPrefix +:+ Rule.response rule)
                     None None None) w)
    end.
Proof.
  intros Hr. induction rules as [|rule rest IH]; [done|].
  cbn [autoReplyLoop]. rewrite filter_cons.
  destruct (rule_matches text rule) eqn:Em; unfold rule_matches in Em.
  - rewrite decide_True by done.
    destruct (new_RegExp (Rule.keywords rule)) as [regex|]; [|done]. rewrite Em.
    destruct (outcome_result
                (sendMessage chatId (autoReplyPrefix +:+ Rule.response rule)
                   None None None) _ Hr) as [t Ht].
    erewrite bind_ok
      by (apply try_ok; erewrite bind_ok by (rewrite say_run, Ht; reflexivity);
          reflexivity).
    reflexivity.
  - rewrite decide_False by done.
    destruct (new_RegExp (Rule.keywords rule)) as [regex|]; [|exact IH].
    rewrite Em. exact IH.
Qed.

(** X22.  The first rule that matches answers, and the message goes no further:
    with the rules stored as a JSON array and a transport that accepts the
    reply, a text message is answered with the response of the first rule
    whose pattern compiles and matches, later rules are not consulted, and
    the stage ends the handling; when no rule matches, or the message has
    no text, nothing is sent and the message goes on to the relay. *)
Theorem first_matching_rule_answers chatId text env w rules :
  JSON_parse_rules (lookupConfig "keyword_responses" env "[]" w) = IsArray rules →
  is_result (next_reply w) →
  autoReplyCheck chatId text env w
  = match (if Js.truthy text
           then filter (λ rule, rule_matches text rule = true) rules else []) with
    | [] => (Ok false, w)
    | rule :: _ =>
        (Ok true,
         answered (sendMessage chatId (autoReplyPrefix +:+ Rule.response rule)
                     None None None) w)
    end.
Proof.
  intros Hp Hr. unfold autoReplyCheck.
  erewrite bind_ok.
  2: { unfold getAutoReplyRules. erewrite bind_ok by apply getConfig_run.
       rewrite Hp. reflexivity. }
  destruct rules as [|rule rest]; [by destruct (Js.truthy text)|].
  destruct (Js.truthy text); [|done].
  by apply autoReplyLoop_first_match.
Qed.

End AutoReply.

(** Three stored rules, of which the second and the third match: the
    second answers. *)
Lemma first_matching_rule_answers_witness :
  let rules :=
    [ {| Rule.keywords := "price"; Rule.response := "See the price list.";
         Rule.id := "1" |};
      {| Rule.keywords := "hello"; Rule.response := "Hi!"; Rule.id := "2" |};
      {| Rule.keywords := "hello|hi"; Rule.response := "Hello again."; Rule.id := "3" |} ] in
  let w := Sample.world [("keyword_responses", Sample.stringify_rules rules)] [] [] [] in
  autoReplyCheck (H := Sample.host) "42" "Hello there" Sample.env w
  = (Ok true,
     answered (sendMessage "42" "此消息为自动回复

Hi!" None None None) w).
Proof.
  intros rules w.
  etrans; [apply (first_matching_rule_answers (H := Sample.host) "42" "Hello there"
                    Sample.env w rules); first [reflexivity | exact I] | reflexivity].
Defined.

(** ** The block keyword list *)

Section KeywordList.
Context `{Host}.

(** X23.  A legacy keyword list is converted once: when the stored value (or the
    environment variable behind it) is not JSON and its lines give at least
    one pattern, reading the list returns the patterns and stores them as a
    JSON array; provided the host reads that array back, every later
    reading returns the same list and writes nothing. *)
Theorem legacy_block_keywords_are_converted_once env w l :
  JSON_parse_keywords (lookupConfig "block_keywords" env "[]" w) = SyntaxError →
  RegExp.source <$> parseOldBlockKeywords (lookupConfig "block_keywords" env "[]" w) = l →
  l ≠ [] →
  JSON_parse_keywords (JSON_stringify_keywords l) = IsArray l →
  let w1 := with_config <["block_keywords" := JSON_stringify_keywords l]> w in
  getBlockKeywords env w = (Ok l, w1) ∧ getBlockKeywords env w1 = (Ok l, w1).
Proof.
  intros Hs Hl Hne Hrt w1. split.
  - unfold getBlockKeywords. erewrite bind_ok by apply getConfig_run.
    rewrite Hs, Hl. by destruct l.
  - apply getBlockKeywords_array. unfold lookupConfig. subst w1. simpl.
    by rewrite lookup_insert_eq.
Qed.

Lemma admin_state_key_ne_block_keywords userId :
  admin_state_key userId ≠ "block_keywords".
Proof. intros E. vm_compute in E. discriminate E. Qed.

(** The keyword menu writes nothing when the list is stored as JSON. *)
Lemma handleAdminKeywordBlockMenu_config chatId messageId env w l :
  JSON_parse_keywords (lookupConfig "block_keywords" env "[]" w) = IsArray l →
  config (snd (handleAdminKeywordBlockMenu chatId messageId env w)) = config w.
Proof.
  intros Hl. unfold handleAdminKeywordBlockMenu.
  erewrite bind_ok by (apply getBlockKeywords_array; exact Hl).
  erewrite bind_ok by apply getConfig_run.
  eapply (admits_same_config nothing); [simpl; tauto | apply within_render].
Qed.

(** X24.  Adding a block keyword: the admin's text is trimmed; when it is empty
    or already in the list the list stays as it is, otherwise it is
    appended; in both cases the stored list afterwards is the list the
    worker reads, whatever the transport answers. *)
Theorem added_keyword_is_trimmed_and_new userId text j env w l :
  JSON_parse_state j
  = Some {| AdminState.action := "awaiting_input"; AdminState.key := "block_keywords_add" |} →
  Js.toLowerCase text ≠ "/cancel" →
  JSON_parse_keywords (lookupConfig "block_keywords" env "[]" w) = IsArray l →
  let newKeyword := Js.trim text in
  let accepted := Js.truthy newKeyword && negb (Js.includes l newKeyword) in
  let l' := if accepted then l ++ [newKeyword] else l in
  JSON_parse_keywords (JSON_stringify_keywords l') = IsArray l' →
  let w' := run (handleAdminConfigInput userId text j env) w in
  config w' !! "block_keywords"
  = (if accepted then Some (JSON_stringify_keywords l') else config w !! "block_keywords")
  ∧ blockKeywords_of env w' = l'.
Proof.
  intros Hs Hc Hl newKeyword accepted l' Hrt w'.
  (* the world once the list is written and the edit has ended *)
  set (w2 := with_config (delete (admin_state_key userId))
               (if accepted
                then with_config <["block_keywords" := JSON_stringify_keywords l']> w
                else w)).
  assert (Hbk : config w2 !! "block_keywords"
                = if accepted then Some (JSON_stringify_keywords l')
                  else config w !! "block_keywords").
  { subst w2. simpl.
    rewrite lookup_delete_ne by apply admin_state_key_ne_block_keywords.
    destruct accepted; simpl; [apply lookup_insert_eq | done]. }
  assert (Hl2 : JSON_parse_keywords (lookupConfig "block_keywords" env "[]" w2)
                = IsArray l').
  { unfold lookupConfig in *. rewrite Hbk. subst l'. destruct accepted; [exact Hrt|].
    exact Hl. }
  assert (Hcfg : config w' = config w2).
  { subst w'. unfold run, handleAdminConfigInput. rewrite Hs. simpl.
    rewrite bool_decide_eq_false_2 by exact Hc. simpl.
    erewrite bind_ok by (apply getBlockKeywords_array; exact Hl).
    fold newKeyword. fold accepted.
    assert (Hput : ∀ w0,
              (if accepted
               then dbConfigPut "block_keywords"
                      (JSON_stringify_keywords (l ++ [newKeyword]));;
                    mret ("✅ 屏蔽关键词 <code>" +:+ escapeHtml newKeyword
                          +:+ "</code> 已添加。")
               else mret "⚠️ 屏蔽关键词未添加，内容为空或已存在。") w0
              = (Ok (if accepted
                     then "✅ 屏蔽关键词 <code>" +:+ escapeHtml newKeyword
                          +:+ "</code> 已添加。"
                     else "⚠️ 屏蔽关键词未添加，内容为空或已存在。"),
                 if accepted
                 then with_config <["block_keywords" := JSON_stringify_keywords l']> w0
                 else w0)).
    { intros w0. subst l'. by destruct accepted. }
    erewrite bind_ok by apply Hput.
    erewrite bind_ok by reflexivity.
    unfold mbind, M_bind. rewrite telegramApi_run.
    destruct (outcome _ _); [|done].
    erewrite handleAdminKeywordBlockMenu_config; [done|exact Hl2]. }
  split.
  - by rewrite Hcfg.
  - unfold blockKeywords_of.
    assert (Hl' : JSON_parse_keywords (lookupConfig "block_keywords" env "[]" w')
                  = IsArray l').
    { unfold lookupConfig in *. by rewrite Hcfg. }
    by rewrite (getBlockKeywords_array env w' l' Hl').
Qed.

End KeywordList.

Lemma legacy_block_keywords_are_converted_once_witness :
  let w := Sample.world [("block_keywords", "spam
// advertising
scam")] [] [] [] in
  let w1 := with_config <["block_keywords" := Sample.stringify_keywords ["spam"; "scam"]]> w in
  getBlockKeywords (H := Sample.host) Sample.env w = (Ok ["spam"; "scam"], w1)
  ∧ getBlockKeywords (H := Sample.host) Sample.env w1 = (Ok ["spam"; "scam"], w1).
Proof.
  intros w.
  apply (legacy_block_keywords_are_converted_once (H := Sample.host) Sample.env w
           ["spam"; "scam"]); first [reflexivity | discriminate].
Defined.

Lemma added_keyword_is_trimmed_and_new_witness :
  let j := JSON_stringify_state (Host := Sample.host)
             {| AdminState.action := "awaiting_input";
                AdminState.key := "block_keywords_add" |} in
  let w := Sample.world [("block_keywords", Sample.stringify_keywords ["spam"])] [] []
             [NotOk "down"] in
  let w' := run (handleAdminConfigInput (H := Sample.host) "1" "  scam " j Sample.env) w in
  config w' !! "block_keywords" = Some (Sample.stringify_keywords ["spam"; "scam"])
  ∧ blockKeywords_of (H := Sample.host) Sample.env w' = ["spam"; "scam"].
Proof.
  intros j w.
  apply (added_keyword_is_trimmed_and_new (H := Sample.host) "1" "  scam " j Sample.env w
           ["spam"]); first [reflexivity | discriminate].
Defined.

(** ** Editing a configuration value *)

(** The two ways the computation under scrutiny can end. *)
Ltac case_outcome :=
  match goal with
  | |- context [match ?x with Ok _ => _ | Throw _ => _ end] => destruct x
  end.

Section EditFlow.
Context `{Host}.

(** The value an input stores for a key: the answer and the threshold are
    trimmed, the other values are taken as typed. *)
Lemma input_stores_the_value userId text j env w key :
  JSON_parse_state j
  = Some {| AdminState.action := "awaiting_input"; AdminState.key := key |} →
  key ∈ ["welcome_msg"; "verif_q"; "verif_a"; "block_threshold"] →
  Js.toLowerCase text ≠ "/cancel" →
  config (run (handleAdminConfigInput userId text j env) w) !! key
  = Some (if bool_decide (key = "verif_a") || bool_decide (key = "block_threshold")
          then Js.trim text else text).
Proof.
  intros Hs Hk Hc. unfold run, handleAdminConfigInput. rewrite Hs.
  cbn [AdminState.key AdminState.action].
  rewrite bool_decide_eq_false_2 by exact Hc.
  set (finalValue := if _ || _ then Js.trim text else text).
  assert (Hne : admin_state_key userId ≠ key).
  { intros E. set_unfold. destruct Hk as [->|[->|[->|[->|[]]]]];
      vm_compute in E; discriminate E. }
  assert (Hnl : ¬ may_config rule_lists key).
  { simpl. set_unfold. destruct Hk as [->|[->|[->|[->|[]]]]]; intros [?|[?|[]]]; done. }
  assert (Htail : ∀ (m : M unit) w0 v,
            (∀ w1, config w1 !! key = Some v → config (snd (m w1)) !! key = Some v) →
            config w0 !! key = Some v →
            config (snd ((telegramApi (sendMessage userId (updated_notice key finalValue)
                                         None (Some "HTML") None);; m) w0)) !! key
            = Some v).
  { intros m w0 v Hm Hv. unfold mbind, M_bind. rewrite telegramApi_run.
    destruct (outcome _ _); [by apply Hm | done]. }
  assert (Hkeep : ∀ (m : M unit) p, ¬ may_config p key → within p m →
            ∀ w1 v, config w1 !! key = Some v → config (snd (m w1)) !! key = Some v).
  { intros m p Hn Hm w1 v Hv. destruct (Hm w1) as (_ & C & _).
    destruct (C key) as [?|E]; [done|]. by rewrite E. }
  assert (Hstart : ∀ w1 v, config w1 !! key = Some v →
            config (snd (handleAdminConfigStart userId env w1)) !! key = Some v).
  { apply (Hkeep _ (config_keys [admin_state_key userId]));
      [|apply within_handleAdminConfigStart].
    simpl. set_unfold. intros [E|[]]. by apply Hne. }
  assert (Hk' : key ≠ "block_keywords_add" ∧ key ≠ "keyword_responses_add"
                ∧ Js.truthy key = true).
  { set_unfold. destruct Hk as [->|[->|[->|[->|[]]]]]; done. }
  destruct Hk' as (K1 & K2 & K3). rewrite K3.
  rewrite (bool_decide_eq_true_2 ("awaiting_input" = "awaiting_input")) by done.
  cbn [andb]. rewrite !bool_decide_eq_false_2 by done.
  erewrite bind_ok by reflexivity. erewrite bind_ok by reflexivity.
  apply Htail.
  - intros w1 Hv. cbv zeta. repeat case_bool_decide.
    + eapply (Hkeep _ nothing); [simpl; tauto | apply within_handleAdminBaseConfigMenu | exact Hv].
    + eapply (Hkeep _ rule_lists); [exact Hnl | apply within_handleAdminAutoReplyMenu | exact Hv].
    + eapply (Hkeep _ rule_lists); [exact Hnl | apply within_handleAdminKeywordBlockMenu | exact Hv].
    + by apply Hstart.
  - simpl. rewrite lookup_delete_ne by exact Hne. apply lookup_insert_eq.
Qed.

(** X25.  The edit of a scalar, from the button to the stored value: an admin
    whose session is not blocked presses the edit button of one of the four
    scalars and the press is acknowledged; the next message of the admin
    that is neither a command nor [/cancel] is stored as the new value
    (trimmed for the answer and the threshold), and the edit has ended,
    whatever else the transport answers. *)
Theorem edited_value_is_stored q message env w key :
  key ∈ ["welcome_msg"; "verif_q"; "verif_a"; "block_threshold"] →
  CallbackQuery.data q = "config:edit:" +:+ key →
  isAdminUser (CallbackQuery.from_id q) env = true →
  is_result (next_reply w) →
  Message.chat_id message = Message.chat_id (CallbackQuery.message q) →
  isAdminUser (Message.chat_id message) env = true →
  is_command message = false →
  Js.toLowerCase (text_of message) ≠ "/cancel" →
  (∀ row, users w !! Message.chat_id message = Some row → is_blocked row ≠ 1) →
  JSON_parse_state (awaiting key)
  = Some {| AdminState.action := "awaiting_input"; AdminState.key := key |} →
  Js.truthy (awaiting key) = true →
  let w1 := run (handleCallbackQuery q env) w in
  let w2 := run (handlePrivateMessage message env) w1 in
  config w2 !! key
  = Some (if bool_decide (key = "verif_a") || bool_decide (key = "block_threshold")
          then Js.trim (text_of message) else text_of message)
  ∧ config w2 !! admin_state_key (Message.chat_id message) = None.
Proof.
  intros Hk Hd Ha Hr Hchat Hadm Hcmd Hcancel Hnb Hparse Htruthy w1 w2.
  set (admin := Message.chat_id message) in *.
  (* the press leaves the pending state and no other trace in the tables *)
  assert (H1 : config w1 !! admin_state_key admin = Some (awaiting key)
               ∧ users w1 = users w).
  { subst w1. unfold run, handleCallbackQuery. rewrite Hd, Ha, <- Hchat. fold admin.
    assert (Hact : Js.startsWith ("config:edit:" +:+ key) "config:" = true
                   ∧ configAction (Js.split ":" ("config:edit:" +:+ key)) = Edit key).
    { set_unfold. destruct Hk as [->|[->|[->|[->|[]]]]]; by vm_compute. }
    destruct Hact as [-> ->]. simpl.
    destruct (outcome_result (answerCallbackQuery (CallbackQuery.id q) "处理中..." false)
                _ Hr) as [t Ht].
    erewrite bind_ok by (rewrite telegramApi_run, Ht; reflexivity).
    unfold handleConfigCallback. erewrite bind_ok by reflexivity.
    destruct (edit_prompt key) as [prompt|]; simpl.
    - unfold mbind, M_bind. rewrite telegramApi_run.
      case_outcome; simpl; (split; [apply lookup_insert_eq | done]).
    - split; [apply lookup_insert_eq | done]. }
  destruct H1 as [Hstate Hus].
  (* the message is handled as the input of the edit *)
  assert (H2 : ∃ w0, config w0 = config w1
                     ∧ w2 = run (handleAdminConfigInput admin (text_of message)
                                   (awaiting key) env) w0).
  { subst w2. unfold run at 1, handlePrivateMessage. unfold is_command in Hcmd.
    rewrite Hcmd. fold admin. rewrite Hadm.
    assert (∃ row w0, dbUserGetOrCreate admin w1 = (Ok (user_of_row row), w0)
                      ∧ is_blocked row ≠ 1 ∧ config w0 = config w1)
      as (row & w0 & Hget & Hrow & Hcfg).
    { destruct (users w1 !! admin) as [row|] eqn:E.
      - exists row, w1. split; [by apply dbUserGetOrCreate_found|].
        split; [|done]. apply Hnb. by rewrite <- Hus.
      - exists default_row, (with_users <[admin := default_row]> w1).
        split; [by apply dbUserGetOrCreate_missing|]. by split. }
    exists w0. split; [exact Hcfg|].
    erewrite bind_ok by exact Hget.
    unfold user_of_row at 1. cbn [User.is_blocked].
    destruct (is_blocked row =? 1) eqn:Eb; [apply Z.eqb_eq in Eb; done|].
    assert (Hsg : dbAdminStateGet admin w0 = (Ok (Some (awaiting key)), w0)).
    { unfold dbAdminStateGet, dbConfigGet, get_world, mbind, M_bind, mret, M_ret.
      by rewrite Hcfg, Hstate, Htruthy. }
    unfold run, text_of.
    unfold mbind at 1, M_bind at 1. unfold mbind at 1, M_bind at 1. rewrite Hsg.
    unfold mbind at 1, M_bind at 1.
    by destruct (handleAdminConfigInput _ _ _ _ _) as [[[]|e] w3]. }
  destruct H2 as (w0 & Hcfg0 & ->). split.
  - by apply input_stores_the_value.
  - apply removes_handleAdminConfigInput. by rewrite Hparse.
Qed.

End EditFlow.

Lemma edited_value_is_stored_witness :
  let q := press "1" "config:edit:verif_a" (bot_message "1" "70" None) in
  let message := Sample.text_message "1" "71" " 4 " in
  let w := Sample.world [] [] [] [] in
  let w1 := run (handleCallbackQuery (H := Sample.host) q Sample.env) w in
  let w2 := run (handlePrivateMessage (H := Sample.host) message Sample.env) w1 in
  config w2 !! "verif_a" = Some "4" ∧ config w2 !! admin_state_key "1" = None.
Proof.
  intros q message w.
  apply (edited_value_is_stored (H := Sample.host) q message Sample.env w "verif_a");
    first [reflexivity | exact I | discriminate | (intros row Hrow; discriminate Hrow)
          | (set_unfold; tauto)].
Defined.

(** ** The keyword-block stage when the warning cannot be delivered *)

Section UndeliveredWarning.
Context `{Host}.

(** X26.  A hit whose warning cannot be delivered is still counted (and the
    session is blocked when the count reaches the threshold), but the
    message is not stopped by it: the failure is caught inside the loop,
    which goes on with the next keyword and the incremented count; with no
    keyword left the message passes the stage. *)
Theorem undelivered_warning_lets_the_message_through
    userId chatId text threshold keyword regex rest count w :
  new_RegExp keyword = Some regex →
  RegExp.test regex text = true →
  is_failure (next_reply w) →
  keywordLoop userId chatId text threshold (keyword :: rest) count w
  = keywordLoop userId chatId text threshold rest (count + 1)
      (answered (sendMessage chatId (blockNotification (count + 1) threshold)
                   None None None)
         (with_users (alter (λ row, hit_row row (count + 1) threshold) userId) w)).
Proof.
  intros Hre Ht Hf. cbn [keywordLoop]. rewrite Hre, Ht. cbv zeta.
  set (c := sendMessage chatId (blockNotification (count + 1) threshold) None None None).
  destruct (outcome_failure c _ Hf) as [e He].
  assert (Hhit : keywordHit userId chatId (count + 1) threshold w
                 = (Throw e,
                    answered c
                      (with_users (alter (λ row, hit_row row (count + 1) threshold) userId)
                         w))).
  { unfold keywordHit, hit_row.
    erewrite bind_ok by reflexivity.
    destruct (Js.reaches (count + 1) threshold).
    - erewrite bind_ok by reflexivity.
      erewrite bind_throw; [reflexivity|]. rewrite say_run. fold c.
      unfold next_reply in *. simpl. rewrite He.
      unfold with_users. simpl. by rewrite alter_alter_eq.
    - erewrite bind_throw; [reflexivity|]. rewrite say_run. fold c.
      unfold next_reply in *. simpl. by rewrite He. }
  erewrite bind_ok by (unfold try_catch; rewrite Hhit; reflexivity).
  reflexivity.
Qed.

End UndeliveredWarning.

Lemma undelivered_warning_lets_the_message_through_witness :
  let w := Sample.world [] [("42", Sample.row "verified" 0 0 None)] [] [NotOk "blocked"] in
  keywordLoop (H := Sample.host) "42" "42" "buy spam" (Js.Finite 5) ["spam"] 0 w
  = (Ok false,
     answered (sendMessage "42" (blockNotification (H := Sample.host) 1 (Js.Finite 5))
                 None None None)
       (with_users (alter (λ row, hit_row row 1 (Js.Finite 5)) "42") w)).
Proof.
  intros w.
  rewrite (undelivered_warning_lets_the_message_through (H := Sample.host)
             "42" "42" "buy spam" (Js.Finite 5) "spam"
             {| RegExp.source := "spam";
                RegExp.test := λ text,
                  existsb (λ alt, Sample.contains (Js.toLowerCase alt)
                                    (Js.toLowerCase text))
                          (Js.split "|" "spam") |} [] 0 w).
  - reflexivity.
  - reflexivity.
  - reflexivity.
  - intros R. exact R.
Defined.

(** ** Deleting a block keyword *)

Section DeleteKeyword.
Context `{Host}.

(** The list view writes nothing when the list is stored as JSON. *)
Lemma handleAdminRuleList_config chatId messageId env w l :
  JSON_parse_keywords (lookupConfig "block_keywords" env "[]" w) = IsArray l →
  config (snd (handleAdminRuleList chatId messageId env "block_keywords" w)) = config w.
Proof.
  intros Hl. unfold handleAdminRuleList.
  rewrite bool_decide_eq_false_2 by done. rewrite bool_decide_eq_true_2 by done.
  erewrite bind_ok by (apply getBlockKeywords_array; exact Hl).
  eapply (admits_same_config nothing); [simpl; tauto | apply within_render].
Qed.

(** X27.  Deleting a block keyword removes every occurrence of it and nothing
    else: the stored list is written before the confirmation is attempted,
    so the keyword is gone whatever the transport answers, and the list the
    worker reads afterwards is the old list without it. *)
Theorem deleted_keyword_is_gone chatId messageId env w l id :
  JSON_parse_keywords (lookupConfig "block_keywords" env "[]" w) = IsArray l →
  let l' := filter (λ keyword, keyword ≠ id) l in
  JSON_parse_keywords (JSON_stringify_keywords l') = IsArray l' →
  let w' := run (handleAdminRuleDelete chatId messageId env "block_keywords" id) w in
  config w' !! "block_keywords" = Some (JSON_stringify_keywords l')
  ∧ blockKeywords_of env w' = l'
  ∧ id ∉ blockKeywords_of env w'.
Proof.
  intros Hl l' Hrt w'.
  set (w1 := with_config <["block_keywords" := JSON_stringify_keywords l']> w).
  assert (Hl1 : JSON_parse_keywords (lookupConfig "block_keywords" env "[]" w1)
                = IsArray l').
  { unfold lookupConfig. subst w1. simpl. by rewrite lookup_insert_eq. }
  assert (Hcfg : config w' = config w1).
  { subst w'. unfold run, handleAdminRuleDelete.
    rewrite bool_decide_eq_false_2 by done. rewrite bool_decide_eq_true_2 by done.
    erewrite bind_ok by (apply getBlockKeywords_array; exact Hl).
    erewrite bind_ok by reflexivity. fold l'.
    unfold mbind, M_bind. rewrite telegramApi_run.
    destruct (outcome _ _); [|done].
    erewrite handleAdminRuleList_config; [done | exact Hl1]. }
  assert (Hread : blockKeywords_of env w' = l').
  { unfold blockKeywords_of.
    assert (Hl' : JSON_parse_keywords (lookupConfig "block_keywords" env "[]" w')
                  = IsArray l').
    { unfold lookupConfig in *. by rewrite Hcfg. }
    by rewrite (getBlockKeywords_array env w' l' Hl'). }
  split; [|split].
  - rewrite Hcfg. apply lookup_insert_eq.
  - exact Hread.
  - rewrite Hread. subst l'. rewrite list_elem_of_filter. tauto.
Qed.

End DeleteKeyword.

Lemma deleted_keyword_is_gone_witness :
  let w := Sample.world [("block_keywords", Sample.stringify_keywords ["spam"; "scam"; "spam"])]
             [] [] [NotOk "query is too old"] in
  let w' := run (handleAdminRuleDelete (H := Sample.host) "1" "60" Sample.env
                   "block_keywords" "spam") w in
  config w' !! "block_keywords" = Some (Sample.stringify_keywords ["scam"])
  ∧ blockKeywords_of (H := Sample.host) Sample.env w' = ["scam"]
  ∧ "spam" ∉ blockKeywords_of (H := Sample.host) Sample.env w'.
Proof.
  intros w.
  apply (deleted_keyword_is_gone (H := Sample.host) "1" "60" Sample.env w
           ["spam"; "scam"; "spam"] "spam"); reflexivity.
Defined.
